(** * Rider management backend: order ledger and income aggregator

    A shallow embedding of the services of the rider backend
    (services/data.store.js, services/orders.service.js,
    services/income.service.js, validators/income.validators.js) and the
    properties of its specification.

    Modelling conventions.
    - Money.  The services are embedded twice.  In the first embedding a
      number holding money is an exact rational ([Q]) and [toFixed(2)]
      followed by [parseFloat] is rounding to the nearest hundredth, halves
      away from zero; it carries the properties that do not depend on how
      the engine rounds: what is counted, listed, sorted, stored and compared.
      In the second (module [Binary64]) the fee of an order, the amount of a
      withdrawal and the running total are IEEE 754 binary64 numbers, added,
      subtracted, compared and printed as the engine does it; the properties
      about the amounts that are computed are stated there.
    - A file holding [FileContent d] holds the JSON text of the document [d],
      and reading it gives [d].  JSON prints [NaN] and the infinities as
      [null]: a document holding one of them is not read back from its file
      in what follows.
    - A timestamp is an ISO-8601 UTC string as written by [toISOString]; it is
      modelled by its value in milliseconds since the epoch.  The date prefix
      [s.split('T')[0]] is then the UTC day number, and [a.startsWith(today)]
      is equality of day numbers.
    - The successive [new Date()] readings inside one service call are taken
      at one instant [now], an argument of the call.
    - KPI logging writes to a CSV file nothing else reads; it is left out.
    - [fs.writeFileSync] is taken to succeed. *)

From Stdlib Require Import ZArith QArith Qround Ascii String List Lia Lqa Bool.
From Stdlib Require Import Sorting.Permutation Sorting.Sorted DecimalString DecimalZ.
From Stdlib Require Import Floats.SpecFloat.
From stdpp Require Import base list.
Import ListNotations.

Local Open Scope string_scope.
Local Open Scope Z_scope.

(** ** Numbers *)

Module Num.

(** [Math.round]-like rounding used by [Number.prototype.toFixed]: the
    sign is split off, the magnitude is rounded to the nearest integer and
    a tie picks the larger one. *)
Definition round_half_away (x : Q) : Z :=
  if Qle_bool 0 x then Qfloor (x + (1 # 2))
  else - Qfloor (- x + (1 # 2)).

(** Number of hundredths printed by [x.toFixed(2)]. *)
Definition cents (x : Q) : Z := round_half_away (x * 100).

(** [parseFloat(x.toFixed(2))]. *)
Definition toFixed2 (x : Q) : Q := cents x # 100.

(** [x] has at most two fractional digits. *)
Definition whole_cents (x : Q) : Prop := exists k : Z, x == k # 100.

(** [isValidDecimalPlaces(num, 2)]: the decimal expansion printed by
    [num.toString()] has at most two digits after the point. *)
Definition isValidDecimalPlaces2 (x : Q) : bool :=
  Qeq_bool (inject_Z (Qfloor (x * 100))) (x * 100).

(** [v || 0] on an optional number. *)
Definition or_zero (v : option Q) : Q :=
  match v with Some q => q | None => 0%Q end.

End Num.

(** ** Time *)

Module Time.

Definition ms_per_day : Z := 1000 * 60 * 60 * 24.

(** [t.toISOString().split('T')[0]], as a day number. *)
Definition utcDay (t : Z) : Z := t / ms_per_day.

(** [s.startsWith(today)] for an ISO timestamp [s]. *)
Definition startsWithDay (t today : Z) : bool := utcDay t =? today.

End Time.

(** ** Data model *)

Module Order.
(** One delivery job.  The free-text fields used only by the search are
    left out. *)
Record t := mk {
  orderId : string;
  status : string;
  deliveryFee : option Q;
  createdAt : Z;
  deliveredAt : option Z
}.

(** [order.deliveredAt || order.createdAt]. *)
Definition effectiveDate (o : t) : Z :=
  match deliveredAt o with Some d => d | None => createdAt o end.

Definition isDelivered (o : t) : bool := String.eqb (status o) "delivered".

(** [order.deliveryFee || 0]. *)
Definition fee (o : t) : Q := Num.or_zero (deliveryFee o).
End Order.

Module Withdrawal.
Record t := mk {
  withdrawalId : string;
  riderId : string;
  amount : Q;
  accountInfo : string;
  status : string;
  requestedAt : Z;
  processedAt : option Z;
  notes : string
}.

Definition hasStatus (s : string) (w : t) : bool := String.eqb (status w) s.
End Withdrawal.

Module OrdersDoc.
(** rider.orders.json: [{ orders: [...] }]; the field may be absent. *)
Record t := mk { orders : option (list Order.t) }.
End OrdersDoc.

Module IncomeData.
(** rider.income.json. *)
Record t := mk {
  riderId : string;
  withdrawals : list Withdrawal.t;
  totalWithdrawn : Q;
  lastUpdated : Z
}.
End IncomeData.

(** ** The data store

    One slot per JSON file: the in-memory cache entry and the file on disk.
    [read] returns the cached object itself, so a caller that mutates what it
    was given mutates the cache. *)

Inductive file_state (A : Type) : Type :=
| FileMissing
| FileUnreadable
| FileContent (a : A).
Arguments FileMissing {A}.
Arguments FileUnreadable {A}.
Arguments FileContent {A} a.

Record slot (A : Type) : Type := mkSlot {
  cache : option A;
  file : file_state A
}.
Arguments mkSlot {A} cache file.
Arguments cache {A} s.
Arguments file {A} s.

(** What [read] hands out: the object held by the cache, or an object nobody
    else holds (the default value). *)
Inductive handle : Type := Shared | Fresh.

Module DataStore.

(** [read(filename, defaultValue)]: cache hit; else missing file gives the
    default; else the parsed file, which is cached; any exception is caught
    and gives the default. *)
Definition read {A} (s : slot A) (defaultValue : A) : A * handle * slot A :=
  match cache s with
  | Some c => (c, Shared, s)
  | None =>
      match file s with
      | FileMissing => (defaultValue, Fresh, s)
      | FileUnreadable => (defaultValue, Fresh, s)
      | FileContent d => (d, Shared, mkSlot (Some d) (file s))
      end
  end.

(** [write(filename, data)]. *)
Definition write {A} (s : slot A) (data : A) : slot A :=
  mkSlot (Some data) (FileContent data).

(** In-place mutation of the object obtained from [read] through handle
    [h]: it reaches the cache exactly when the handle is shared. *)
Definition mutate {A} (h : handle) (f : A -> A) (s : slot A) : slot A :=
  match h with
  | Shared => mkSlot (option_map f (cache s)) (file s)
  | Fresh => s
  end.

(** [clearCache(filename)]. *)
Definition clearCache {A} (s : slot A) : slot A := mkSlot None (file s).

End DataStore.

Record store : Type := mkStore {
  ordersSlot : slot OrdersDoc.t;
  incomeSlot : slot IncomeData.t
}.

(** ** Arrays *)

Module JSArray.

Section Sorting.
Context {A : Type} (key : A -> Z).

(** [arr.sort((a, b) => key(b) - key(a))]: descending by [key], and
    stable.  Insertion of [x], which stood before the elements of [l],
    in front of the first element whose key is not larger. *)
Fixpoint insertDesc (x : A) (l : list A) : list A :=
  match l with
  | [] => [x]
  | y :: r =>
      if key y <=? key x then x :: y :: r
      else y :: insertDesc x r
  end.

Definition sortDesc (l : list A) : list A :=
  fold_right insertDesc [] l.
End Sorting.

(** [arr.slice(0, limit)]: a negative end counts from the end of the
    array. *)
Definition slice0 {A} (limit : Z) (l : list A) : list A :=
  if limit <? 0 then firstn (Z.to_nat (Z.of_nat (length l) + limit)) l
  else firstn (Z.to_nat limit) l.

(** [arr.findIndex(p)]; [None] stands for [-1]. *)
Fixpoint findIndex {A} (p : A -> bool) (l : list A) : option nat :=
  match l with
  | [] => None
  | x :: r => if p x then Some O else option_map S (findIndex p r)
  end.

(** [arr[i] = f(arr[i])] for an integer [i] below the length: a negative
    [i] names a property of the array object, not one of its elements, so
    the elements stay as they are. *)
Definition updateAt {A} (i : Z) (f : A -> A) (l : list A) : list A :=
  if i <? 0 then l else alter f (Z.to_nat i) l.

End JSArray.

(** ** Orders service (services/orders.service.js) *)

Module Stats.
Record t := mk {
  total : nat;
  ongoing : nat;
  completed : nat;
  cancelled : nat;
  totalEarnings : Q;
  todayEarnings : Q;
  todayOrders : nat
}.
End Stats.

Module OrdersService.

Definition defaultDoc : OrdersDoc.t := OrdersDoc.mk (Some []).

(** [getAllOrders()], with the handle of the array it returns:
    [data.orders || []] is the array inside the document that [read]
    returned, or a new empty array when the field is absent. *)
Definition getAllOrders_ref (s : store) : list Order.t * handle * store :=
  let '(data, h, sl) := DataStore.read (ordersSlot s) defaultDoc in
  let s' := mkStore sl (incomeSlot s) in
  match OrdersDoc.orders data with
  | Some l => (l, h, s')
  | None => ([], Fresh, s')
  end.

Definition getAllOrders (s : store) : list Order.t * store :=
  let '(l, _, s') := getAllOrders_ref s in (l, s').

Definition isOngoing (o : Order.t) : bool :=
  existsb (String.eqb (Order.status o)) ["assigned"; "picked_up"; "in_transit"].

Definition isCompletedOrCancelled (o : Order.t) : bool :=
  existsb (String.eqb (Order.status o)) ["delivered"; "cancelled"].

(** [getOrdersByStatus(status)]. *)
Definition getOrdersByStatus (status : string) (s : store)
  : list Order.t * store :=
  let '(orders, s') := getAllOrders s in
  if String.eqb status "all" then (orders, s')
  else
    (List.filter
       (fun o =>
          if String.eqb status "ongoing" then isOngoing o
          else if String.eqb status "completed" then isCompletedOrCancelled o
          else false)
       orders, s').

(** Body of the [forEach] of [getOrderStatistics]. *)
Definition statsStep (today : Z) (st : Stats.t) (o : Order.t) : Stats.t :=
  let st1 :=
    if isOngoing o then
      Stats.mk (Stats.total st) (S (Stats.ongoing st)) (Stats.completed st)
        (Stats.cancelled st) (Stats.totalEarnings st)
        (Stats.todayEarnings st) (Stats.todayOrders st)
    else if String.eqb (Order.status o) "delivered" then
      Stats.mk (Stats.total st) (Stats.ongoing st) (S (Stats.completed st))
        (Stats.cancelled st) (Stats.totalEarnings st + Order.fee o)%Q
        (Stats.todayEarnings st) (Stats.todayOrders st)
    else if String.eqb (Order.status o) "cancelled" then
      Stats.mk (Stats.total st) (Stats.ongoing st) (Stats.completed st)
        (S (Stats.cancelled st)) (Stats.totalEarnings st)
        (Stats.todayEarnings st) (Stats.todayOrders st)
    else st in
  if Time.startsWithDay (Order.effectiveDate o) today then
    Stats.mk (Stats.total st1) (Stats.ongoing st1) (Stats.completed st1)
      (Stats.cancelled st1) (Stats.totalEarnings st1)
      (if String.eqb (Order.status o) "delivered"
       then (Stats.todayEarnings st1 + Order.fee o)%Q
       else Stats.todayEarnings st1)
      (S (Stats.todayOrders st1))
  else st1.

Definition roundStats (st : Stats.t) : Stats.t :=
  Stats.mk (Stats.total st) (Stats.ongoing st) (Stats.completed st)
    (Stats.cancelled st) (Num.toFixed2 (Stats.totalEarnings st))
    (Num.toFixed2 (Stats.todayEarnings st)) (Stats.todayOrders st).

(** [getOrderStatistics()]. *)
Definition getOrderStatistics (now : Z) (s : store) : Stats.t * store :=
  let '(orders, s') := getAllOrders s in
  let stats := Stats.mk (length orders) 0 0 0 0%Q 0%Q 0 in
  let today := Time.utcDay now in
  (roundStats (fold_left (statsStep today) orders stats), s').

(** [orders.sort((a, b) => new Date(b.createdAt) - new Date(a.createdAt))]. *)
Definition sortNewestFirst (l : list Order.t) : list Order.t :=
  JSArray.sortDesc Order.createdAt l.

(** The in-place sort seen from the document that holds the array. *)
Definition sortDoc (d : OrdersDoc.t) : OrdersDoc.t :=
  OrdersDoc.mk (option_map sortNewestFirst (OrdersDoc.orders d)).

(** [getRecentOrders(limit)]: sorts the array it got from [getAllOrders]
    in place, then copies a prefix of it. *)
Definition getRecentOrders (limit : Z) (s : store) : list Order.t * store :=
  let '(orders, h, s1) := getAllOrders_ref s in
  let sortedOrders := sortNewestFirst orders in
  let s2 := mkStore (DataStore.mutate h sortDoc (ordersSlot s1)) (incomeSlot s1) in
  (JSArray.slice0 limit sortedOrders, s2).

(** [getOrderById(orderId)]; [None] is [null]. *)
Definition getOrderById (orderId : string) (s : store)
  : option Order.t * store :=
  let '(orders, s') := getAllOrders s in
  (List.find (fun o => String.eqb (Order.orderId o) orderId) orders, s').

(** [getOrdersByDateRange(startDate, endDate)], the two dates parsed. *)
Definition getOrdersByDateRange (startDate endDate : Z) (s : store)
  : list Order.t * store :=
  let '(orders, s') := getAllOrders s in
  (List.filter
     (fun order =>
        (startDate <=? Order.createdAt order)
        && (Order.createdAt order <=? endDate))
     orders, s').

(** [updateOrderStatus(orderId, newStatus)]; [None] is [null].  The order
    record keeps the fields the services read, so the stamp put on
    [updatedAt], which nothing reads, does not show.  The element is changed
    inside the array that [read] returned, and [write] stores a new document
    around that array. *)
Definition updateOrderStatus (orderId newStatus : string) (now : Z)
    (s : store) : option Order.t * store :=
  let '(data, _, sl) := DataStore.read (ordersSlot s) defaultDoc in
  let orders :=
    match OrdersDoc.orders data with Some l => l | None => [] end in
  match JSArray.findIndex
          (fun o => String.eqb (Order.orderId o) orderId) orders
  with
  | None => (None, mkStore sl (incomeSlot s))
  | Some orderIndex =>
      match orders !! orderIndex with
      | None => (None, mkStore sl (incomeSlot s))
      | Some o =>
          let updated :=
            Order.mk (Order.orderId o) newStatus (Order.deliveryFee o)
              (Order.createdAt o)
              (if String.eqb newStatus "delivered" then Some now
               else Order.deliveredAt o) in
          (Some updated,
           mkStore
             (DataStore.write sl
                (OrdersDoc.mk (Some (<[orderIndex := updated]> orders))))
             (incomeSlot s))
      end
  end.

End OrdersService.

(** ** The orders file as [JSON.parse] returns it

    The documents of the store are JSON objects.  The text of a file may as
    well be the literal [null]: it parses, so [read] returns [null], and
    [getAllOrders] then evaluates [data.orders] on it, outside the [try]
    block of [read].  Any other JSON value has no property [orders], like an
    object without that field. *)

Module OrdersFile.

Inductive t : Type :=
| Null                       (* the literal null *)
| Object (d : OrdersDoc.t).  (* an object, with or without the field orders *)

(** The exception of a property access on [null]. *)
Inductive exn : Type := TypeError.

(** [read(filename, defaultValue)] where the cache may hold [null]: the test
    [if (this.cache[filename])] takes it for a miss. *)
Definition read (s : slot t) (defaultValue : t) : t * slot t :=
  match cache s with
  | Some (Object d) => (Object d, s)
  | _ =>
      match file s with
      | FileMissing => (defaultValue, s)
      | FileUnreadable => (defaultValue, s)
      | FileContent v => (v, mkSlot (Some v) (file s))
      end
  end.

(** [getAllOrders()]; [inl] is a thrown exception. *)
Definition getAllOrders (s : slot t) : (exn + list Order.t) * slot t :=
  let '(data, s') := read s (Object OrdersService.defaultDoc) in
  match data with
  | Null => (inl TypeError, s')
  | Object d =>
      (inr (match OrdersDoc.orders d with Some l => l | None => [] end), s')
  end.

(** A slot of the store, whose documents are objects. *)
Definition ofSlot (s : slot OrdersDoc.t) : slot t :=
  mkSlot (option_map Object (cache s))
    (match file s with
     | FileMissing => FileMissing
     | FileUnreadable => FileUnreadable
     | FileContent d => FileContent (Object d)
     end).

End OrdersFile.

(** ** Income service (services/income.service.js) *)

Module Snapshot.
(** Result object of [getRealTimeIncome]. *)
Record t := mk {
  riderId : string;
  totalEarnings : Q;
  todayEarnings : Q;
  weekEarnings : Q;
  monthEarnings : Q;
  totalWithdrawn : Q;
  availableBalance : Q;
  pendingWithdrawals : nat;
  lastUpdated : Z
}.
End Snapshot.

Module Trend.
Record t := mk {
  period : string;
  labels : list string;
  earnings : list Q;
  orderCounts : list nat
}.
End Trend.

(** The two messages [submitWithdrawal] throws. *)
Inductive withdrawError : Type :=
| InvalidAmountError        (* 'Withdrawal amount must be greater than 0' *)
| InsufficientBalanceError. (* 'Insufficient balance for withdrawal' *)

Module IncomeService.

Definition riderId : string := "rider_001".

Definition defaultData (now : Z) : IncomeData.t :=
  IncomeData.mk riderId [] 0%Q now.

(** [getIncomeData()]. *)
Definition getIncomeData (now : Z) (s : store)
  : IncomeData.t * handle * store :=
  let '(data, h, sl) := DataStore.read (incomeSlot s) (defaultData now) in
  (data, h, mkStore (ordersSlot s) sl).

(** [getPendingWithdrawalsCount()]. *)
Definition getPendingWithdrawalsCount (now : Z) (s : store) : nat * store :=
  let '(incomeData, _, s') := getIncomeData now s in
  (length (List.filter (Withdrawal.hasStatus "pending")
             (IncomeData.withdrawals incomeData)), s').

(** The four running sums of [getRealTimeIncome]. *)
Record sums := mkSums {
  sumTotal : Q;
  sumToday : Q;
  sumWeek : Q;
  sumMonth : Q
}.

(** Body of the [forEach] of [getRealTimeIncome]. *)
Definition incomeStep (now : Z) (acc : sums) (order : Order.t) : sums :=
  if Order.isDelivered order then
    let earnings := Order.fee order in
    let today := Time.utcDay now in
    let weekAgo := now - 7 * 24 * 60 * 60 * 1000 in
    let monthAgo := now - 30 * 24 * 60 * 60 * 1000 in
    let orderDate := Order.effectiveDate order in
    mkSums
      (sumTotal acc + earnings)%Q
      (match Order.deliveredAt order with
       | Some d =>
           if Time.startsWithDay d today then (sumToday acc + earnings)%Q
           else sumToday acc
       | None => sumToday acc
       end)
      (if weekAgo <=? orderDate then (sumWeek acc + earnings)%Q
       else sumWeek acc)
      (if monthAgo <=? orderDate then (sumMonth acc + earnings)%Q
       else sumMonth acc)
  else acc.

(** [getRealTimeIncome()]. *)
Definition getRealTimeIncome (now : Z) (s : store) : Snapshot.t * store :=
  let '(orders, s1) := OrdersService.getAllOrders s in
  let '(incomeData, _, s2) := getIncomeData now s1 in
  let acc := fold_left (incomeStep now) orders (mkSums 0 0 0 0)%Q in
  let availableBalance :=
    (sumTotal acc - IncomeData.totalWithdrawn incomeData)%Q in
  let '(pending, s3) := getPendingWithdrawalsCount now s2 in
  (Snapshot.mk riderId
     (Num.toFixed2 (sumTotal acc))
     (Num.toFixed2 (sumToday acc))
     (Num.toFixed2 (sumWeek acc))
     (Num.toFixed2 (sumMonth acc))
     (Num.toFixed2 (IncomeData.totalWithdrawn incomeData))
     (Num.toFixed2 availableBalance)
     pending
     now,
   s3).

(** [getLast4Weeks()]. *)
Definition getLast4Weeks : list string :=
  ["Week 1"; "Week 2"; "Week 3"; "Week 4"].

(** [getWeekIndex(date)]. *)
Definition getWeekIndex (now date : Z) : Z :=
  let diffTime := now - date in
  let diffDays := diffTime / (1000 * 60 * 60 * 24) in
  diffDays / 7.

(** Body of the [forEach] of the weekly branch of [getIncomeTrend]. *)
Definition weeklyStep (now : Z) (acc : list Q * list nat) (order : Order.t)
  : list Q * list nat :=
  let orderDate := Order.effectiveDate order in
  let weekIndex := getWeekIndex now orderDate in
  if negb (weekIndex =? -1) && (weekIndex <? 4) then
    (JSArray.updateAt weekIndex (fun e => (e + Order.fee order)%Q) (fst acc),
     JSArray.updateAt weekIndex S (snd acc))
  else acc.

(** [getIncomeTrend('weekly')]. *)
Definition getIncomeTrendWeekly (now : Z) (s : store) : Trend.t * store :=
  let '(orders, s') := OrdersService.getAllOrders s in
  let deliveredOrders := List.filter Order.isDelivered orders in
  let acc :=
    fold_left (weeklyStep now) deliveredOrders
      (repeat 0%Q 4, repeat O 4) in
  (Trend.mk "weekly" getLast4Weeks
     (map Num.toFixed2 (fst acc)) (snd acc),
   s').

(** The identifier [`WD${Date.now()}`]. *)
Definition withdrawalIdAt (now : Z) : string :=
  "WD" ++ NilEmpty.string_of_int (Z.to_int now).

(** [submitWithdrawal(amount, accountInfo)]; [inl] is a thrown error. *)
Definition submitWithdrawal (amount : Q) (accountInfo : string)
    (now : Z) (s : store) : (withdrawError + Withdrawal.t) * store :=
  let '(incomeData, _, s1) := getIncomeData now s in
  let '(realTimeIncome, s2) := getRealTimeIncome now s1 in
  if Qle_bool amount 0 then (inl InvalidAmountError, s2)
  else if negb (Qle_bool amount (Snapshot.availableBalance realTimeIncome))
  then (inl InsufficientBalanceError, s2)
  else
    let withdrawal :=
      Withdrawal.mk (withdrawalIdAt now) riderId (Num.toFixed2 amount)
        accountInfo "pending" now None "" in
    let incomeData' :=
      IncomeData.mk (IncomeData.riderId incomeData)
        (IncomeData.withdrawals incomeData ++ [withdrawal])
        (IncomeData.totalWithdrawn incomeData)
        now in
    (inr withdrawal,
     mkStore (ordersSlot s2) (DataStore.write (incomeSlot s2) incomeData')).

(** [withdrawals.sort((a, b) => new Date(b.requestedAt) - new Date(a.requestedAt))]. *)
Definition sortRecords (ws : list Withdrawal.t) : list Withdrawal.t :=
  JSArray.sortDesc Withdrawal.requestedAt ws.

(** The in-place sort seen from the document that holds the array. *)
Definition sortData (d : IncomeData.t) : IncomeData.t :=
  IncomeData.mk (IncomeData.riderId d) (sortRecords (IncomeData.withdrawals d))
    (IncomeData.totalWithdrawn d) (IncomeData.lastUpdated d).

(** [getWithdrawalRecords(status)]: [filter] makes a new array; for 'all'
    the array sorted in place is the one inside the document [read]
    returned. *)
Definition getWithdrawalRecords (status : string) (now : Z) (s : store)
  : list Withdrawal.t * store :=
  let '(incomeData, h, s1) := getIncomeData now s in
  let withdrawals := IncomeData.withdrawals incomeData in
  if negb (String.eqb status "all") then
    (sortRecords (List.filter (Withdrawal.hasStatus status) withdrawals), s1)
  else
    (sortRecords withdrawals,
     mkStore (ordersSlot s1) (DataStore.mutate h sortData (incomeSlot s1))).

(** [updateWithdrawalStatus(withdrawalId, newStatus, notes)]; [None] is
    the [null] returned for an unknown identifier. *)
Definition updateWithdrawalStatus (withdrawalId newStatus notes : string)
    (now : Z) (s : store) : option Withdrawal.t * store :=
  let '(incomeData, _, s1) := getIncomeData now s in
  let ws := IncomeData.withdrawals incomeData in
  match JSArray.findIndex
          (fun w => String.eqb (Withdrawal.withdrawalId w) withdrawalId) ws
  with
  | None => (None, s1)
  | Some withdrawalIndex =>
      match ws !! withdrawalIndex with
      | None => (None, s1)
      | Some w =>
          let withdrawal :=
            Withdrawal.mk (Withdrawal.withdrawalId w) (Withdrawal.riderId w)
              (Withdrawal.amount w) (Withdrawal.accountInfo w)
              newStatus (Withdrawal.requestedAt w) (Some now) notes in
          let incomeData' :=
            IncomeData.mk (IncomeData.riderId incomeData)
              (<[withdrawalIndex := withdrawal]> ws)
              (if String.eqb newStatus "completed"
               then (IncomeData.totalWithdrawn incomeData
                     + Withdrawal.amount withdrawal)%Q
               else IncomeData.totalWithdrawn incomeData)
              now in
          (Some withdrawal,
           mkStore (ordersSlot s1)
             (DataStore.write (incomeSlot s1) incomeData'))
      end
  end.

End IncomeService.

(** ** The boundary: validator and controller of POST /income/withdraw
    (validators/income.validators.js, controllers/income.controller.js) *)

(** [req.body.amount] as [parseFloat] sees it. *)
Inductive bodyAmount : Type :=
| AmountAbsent            (* undefined or null *)
| AmountNotNumeric        (* parseFloat gives NaN *)
| AmountNumber (q : Q).

(** [req.body.accountInfo]. *)
Inductive bodyAccount : Type :=
| AccountAbsent
| AccountNotString
| AccountString (a : string).

(** What the client receives. *)
Inductive response : Type :=
| Rejected (statusCode : Z) (error : string) (message : string)
| Created (w : Withdrawal.t).

Module Boundary.

Definition minWithdrawal : Q := 10.
Definition maxWithdrawal : Q := 10000.

(** [validateWithdrawalRequest]: [inl] is the 400 response sent by the
    validator itself, [inr] the normalised amount handed to [next()]. *)
Definition validateWithdrawalRequest (amount : bodyAmount)
    (accountInfo : bodyAccount) : response + Q :=
  match amount with
  | AmountAbsent =>
      inl (Rejected 400 "Missing amount" "Withdrawal amount is required")
  | AmountNotNumeric =>
      inl (Rejected 400 "Invalid amount" "Amount must be a valid number")
  | AmountNumber numericAmount =>
      if Qle_bool numericAmount 0 then
        inl (Rejected 400 "Invalid amount" "Amount must be greater than 0")
      else if negb (Num.isValidDecimalPlaces2 numericAmount) then
        inl (Rejected 400 "Invalid amount format"
               "Amount must have at most 2 decimal places")
      else if negb (Qle_bool minWithdrawal numericAmount) then
        inl (Rejected 400 "Amount too low" "Minimum withdrawal amount is $10")
      else if negb (Qle_bool numericAmount maxWithdrawal) then
        inl (Rejected 400 "Amount too high"
               "Maximum withdrawal amount is $10000")
      else
        match accountInfo with
        | AccountNotString =>
            inl (Rejected 400 "Invalid account info"
                   "Account info must be a string")
        | _ => inr (Num.toFixed2 numericAmount)
        end
  end.

Definition errorMessage (e : withdrawError) : string :=
  match e with
  | InvalidAmountError => "Withdrawal amount must be greater than 0"
  | InsufficientBalanceError => "Insufficient balance for withdrawal"
  end.

(** The route: the validator, then the controller, which turns whatever the
    service throws into [validationError(error.message)], answered 400 by
    the error handler. *)
Definition postWithdraw (amount : bodyAmount) (accountInfo : bodyAccount)
    (now : Z) (s : store) : response * store :=
  match validateWithdrawalRequest amount accountInfo with
  | inl r => (r, s)
  | inr normalised =>
      let account :=
        match accountInfo with AccountString a => a | _ => "" end in
      match IncomeService.submitWithdrawal normalised account now s with
      | (inl e, s') => (Rejected 400 "ValidationError" (errorMessage e), s')
      | (inr w, s') => (Created w, s')
      end
  end.

End Boundary.

(** ** Error middleware (middleware/error.middleware.js) *)

(** What a controller or the error handler answers: the status code and the
    [data] of a success, or the status code, [error] and [message] of a
    failure. *)
Inductive reply (A : Type) : Type :=
| Success (statusCode : Z) (data : A)
| Failure (statusCode : Z) (error : string) (message : string).
Arguments Success {A} statusCode data.
Arguments Failure {A} statusCode error message.

Module ErrorMiddleware.

(** An [Error] object with the properties the handler looks at. *)
Record error := mkError {
  message : string;
  statusCode : option Z;
  status : option Z
}.

(** [createError(message, statusCode)]. *)
Definition createError (message : string) (statusCode : Z) : error :=
  mkError message (Some statusCode) None.

Definition validationError (message : string) : error :=
  createError message 400.

Definition notFoundError (resource : string) : error :=
  createError (resource ++ " not found") 404.

(** The left operand of [v || w] counts when it is a number other than 0. *)
Definition truthy (v : option Z) : option Z :=
  match v with
  | Some c => if c =? 0 then None else Some c
  | None => None
  end.

(** The chain of [if (statusCode === ...) errorType = ...]. *)
Definition errorType (statusCode : Z) : string :=
  let t := "ServerError" in
  let t := if statusCode =? 400 then "ValidationError" else t in
  let t := if statusCode =? 401 then "AuthenticationError" else t in
  let t := if statusCode =? 403 then "AuthorizationError" else t in
  let t := if statusCode =? 404 then "NotFoundError" else t in
  let t := if statusCode =? 409 then "ConflictError" else t in
  let t := if statusCode =? 422 then "UnprocessableEntityError" else t in
  t.

(** [errorHandler(err, req, res, next)]: the response it sends. *)
Definition errorHandler {A} (err : error) : reply A :=
  let code :=
    match truthy (statusCode err) with
    | Some c => c
    | None => match truthy (status err) with Some c => c | None => 500 end
    end in
  Failure code (errorType code)
    (if String.eqb (message err) "" then "An unexpected error occurred"
     else message err).

End ErrorMiddleware.

(** ** Controllers (controllers/orders.controller.js,
    controllers/income.controller.js) and the validators in front of them *)

Module JSString.

(** [s.trim().length === 0] for a string held as the bytes of its UTF-8
    encoding: every character is white space or a line terminator of the
    language, that is one of U+0009 to U+000D, U+0020, U+00A0, U+1680,
    U+2000 to U+200A, U+2028, U+2029, U+202F, U+205F, U+3000 and U+FEFF. *)
Fixpoint isBlank (s : string) : bool :=
  match s with
  | EmptyString => true
  | String c r =>
      let n := nat_of_ascii c in
      if ((9 <=? n) && (n <=? 13) || (n =? 32))%nat then isBlank r
      else
        match r with
        | String c1 r1 =>
            let n1 := nat_of_ascii c1 in
            if ((n =? 194) && (n1 =? 160))%nat then isBlank r1
            else
              match r1 with
              | String c2 r2 =>
                  let n2 := nat_of_ascii c2 in
                  ((n =? 225) && (n1 =? 154) && (n2 =? 128)
                   || (n =? 226) && (n1 =? 128)
                      && ((128 <=? n2) && (n2 <=? 138)
                          || (n2 =? 168) || (n2 =? 169) || (n2 =? 175))
                   || (n =? 226) && (n1 =? 129) && (n2 =? 159)
                   || (n =? 227) && (n1 =? 128) && (n2 =? 128)
                   || (n =? 239) && (n1 =? 187) && (n2 =? 191))%nat
                  && isBlank r2
              | EmptyString => false
              end
        | EmptyString => false
        end
  end.

End JSString.

Module OrdersValidators.

(** [validateOrderStatus]: [None] is a missing or empty [status]; [inl] is
    the 400 response the validator sends, [inr] the status handed on. *)
Definition validateOrderStatus {A} (status : option string)
  : reply A + string :=
  match status with
  | None => inr "all"
  | Some st =>
      if existsb (String.eqb st) ["ongoing"; "completed"; "all"] then inr st
      else inl (Failure 400 "Invalid status parameter"
                  "Status must be one of: ongoing, completed, all")
  end.

(** [validateOrderId], on the string the router took from the path:
    [Some] is the 400 response the validator sends, [None] is [next()]. *)
Definition validateOrderId {A} (orderId : string) : option (reply A) :=
  if String.eqb orderId "" then
    Some (Failure 400 "Missing order ID" "Order ID is required")
  else if JSString.isBlank orderId then
    Some (Failure 400 "Invalid order ID" "Order ID must be a non-empty string")
  else None.

(** What [parseInt] made of a query parameter: [None] is [NaN]. *)
Definition parsedInt : Type := option Z.

(** [validatePagination]: a missing or empty parameter takes its default;
    [inr] is the pair [(page, limit)] handed on. *)
Definition validatePagination {A} (page limit : option parsedInt)
  : reply A + (Z * Z) :=
  let page' := match page with Some v => v | None => Some 1 end in
  let limit' := match limit with Some v => v | None => Some 10 end in
  match page' with
  | None => inl (Failure 400 "Invalid page number"
                   "Page must be a positive integer")
  | Some pg =>
      if pg <? 1 then
        inl (Failure 400 "Invalid page number"
               "Page must be a positive integer")
      else
        match limit' with
        | None => inl (Failure 400 "Invalid limit"
                         "Limit must be between 1 and 100")
        | Some lm =>
            if (lm <? 1) || (100 <? lm) then
              inl (Failure 400 "Invalid limit"
                     "Limit must be between 1 and 100")
            else inr (pg, lm)
        end
  end.

End OrdersValidators.

Module OrdersController.

(** [getOrders], behind [validateOrderStatus]: the route GET /orders. *)
Definition getOrders (status : option string) (s : store)
  : reply (string * nat * list Order.t) * store :=
  match OrdersValidators.validateOrderStatus status with
  | inl r => (r, s)
  | inr st =>
      let '(orders, s') := OrdersService.getOrdersByStatus st s in
      (Success 200 (st, length orders, orders), s')
  end.

(** [getOrderById]. *)
Definition getOrderById (orderId : string) (s : store)
  : reply Order.t * store :=
  match OrdersService.getOrderById orderId s with
  | (None, s') =>
      (ErrorMiddleware.errorHandler (ErrorMiddleware.notFoundError "Order"), s')
  | (Some order, s') => (Success 200 order, s')
  end.

(** [getRecentOrders]: [limit] is [parseInt(req.query.limit)]. *)
Definition getRecentOrders (limit : OrdersValidators.parsedInt) (s : store)
  : reply (Z * nat * list Order.t) * store :=
  let limit' :=
    match limit with
    | Some n => if n =? 0 then 10 else n
    | None => 10
    end in
  let '(orders, s') := OrdersService.getRecentOrders limit' s in
  (Success 200 (limit', length orders, orders), s').

End OrdersController.

Module IncomeController.

(** [updateWithdrawalStatus].  [status] is the body field, [None] when it
    is not a string or not there: no such value is among the valid ones.
    [notes] is the body field when it is a string, [None] when the body has
    none, where the default [''] of the service applies; a body whose notes
    are there without being a string is outside this embedding. *)
Definition updateWithdrawalStatus (withdrawalId : string)
    (status notes : option string) (now : Z) (s : store)
  : reply Withdrawal.t * store :=
  let invalid :=
    (ErrorMiddleware.errorHandler
       (ErrorMiddleware.validationError
          "Status must be one of: completed, rejected"), s) in
  match status with
  | None => invalid
  | Some st =>
      if negb (existsb (String.eqb st) ["completed"; "rejected"]) then invalid
      else
        match IncomeService.updateWithdrawalStatus withdrawalId st
                (match notes with Some n => n | None => "" end) now s
        with
        | (None, s') =>
            (ErrorMiddleware.errorHandler
               (ErrorMiddleware.notFoundError "Withdrawal request"), s')
        | (Some withdrawal, s') => (Success 200 withdrawal, s')
        end
  end.

End IncomeController.

Module IncomeValidators.

(** [validateWithdrawalId], on the string the router took from the path:
    [Some] is the 400 response the validator sends, [None] is [next()]. *)
Definition validateWithdrawalId {A} (withdrawalId : string)
  : option (reply A) :=
  if String.eqb withdrawalId "" then
    Some (Failure 400 "Missing withdrawal ID" "Withdrawal ID is required")
  else if JSString.isBlank withdrawalId then
    Some (Failure 400 "Invalid withdrawal ID"
            "Withdrawal ID must be a non-empty string")
  else None.

End IncomeValidators.

(** The routes whose validator stands in front of the controller
    (routes/orders.routes.js, routes/income.routes.js). *)
Module Routes.

(** [router.get('/order/:orderId', validateOrderId, getOrderById)]. *)
Definition getOrderById (orderId : string) (s : store)
  : reply Order.t * store :=
  match OrdersValidators.validateOrderId orderId with
  | Some r => (r, s)
  | None => OrdersController.getOrderById orderId s
  end.

(** [router.put('/income/withdraw/:withdrawalId', validateWithdrawalId,
    updateWithdrawalStatus)]. *)
Definition putWithdrawal (withdrawalId : string)
    (status notes : option string) (now : Z) (s : store)
  : reply Withdrawal.t * store :=
  match IncomeValidators.validateWithdrawalId withdrawalId with
  | Some r => (r, s)
  | None =>
      IncomeController.updateWithdrawalStatus withdrawalId status notes now s
  end.

End Routes.

(** ** KPI log (services/kpi.service.js) *)

Module KPIService.

Definition comma : ascii := ","%char.
Definition newline : ascii := "010"%char.
Definition quote : ascii := "034"%char.

(** [value.includes(c)] for a one-character [c]. *)
Fixpoint includes (c : ascii) (value : string) : bool :=
  match value with
  | EmptyString => false
  | String x r => Ascii.eqb x c || includes c r
  end.

(** The global [value.replace] of the quote character: every quote becomes
    two. *)
Fixpoint doubleQuotes (value : string) : string :=
  match value with
  | EmptyString => EmptyString
  | String x r =>
      if Ascii.eqb x quote then String quote (String quote (doubleQuotes r))
      else String x (doubleQuotes r)
  end.

(** [escapeCSV(value)] on a string. *)
Definition escapeCSV (value : string) : string :=
  if includes comma value || includes newline value || includes quote value
  then String quote (doubleQuotes value ++ String quote EmptyString)
  else value.

End KPIService.

(** ** Binary64 numbers

    The arithmetic on the money fields as the engine performs it.  A
    JavaScript number is an IEEE 754 binary64 value: [SpecFloat] gives the
    values (signed zeros, infinities, [NaN], and [m * 2^e] with a sign) and
    the correctly rounded operations, for 53 bits of precision and rounding
    to nearest, ties to even. *)

Module Double.

Definition t : Type := spec_float.

Definition prec : Z := 53.
Definition emax : Z := 1024.

(** The numbers of the engine are the values in normal form. *)
Definition valid (x : t) : bool := valid_binary prec emax x.

Definition zero : t := S754_zero false.

Definition add (x y : t) : t := SFadd prec emax x y.
Definition sub (x y : t) : t := SFsub prec emax x y.

(** [x < y], [x <= y] and [x === y]: false as soon as one side is [NaN]. *)
Definition ltb (x y : t) : bool := SFltb x y.
Definition leb (x y : t) : bool := SFleb x y.
Definition eqb (x y : t) : bool := SFeqb x y.

(** The number nearest to [n / d]: what a decimal literal denotes, and what
    [parseFloat] and [JSON.parse] make of decimal text, [d] being the power
    of ten of its fractional digits. *)
Definition ofRatio (n : Z) (d : positive) : t :=
  match n with
  | Z0 => zero
  | Zpos p => SFdiv prec emax (S754_finite false p 0) (S754_finite false d 0)
  | Zneg p => SFdiv prec emax (S754_finite true p 0) (S754_finite false d 0)
  end.

Definition ofZ (n : Z) : t := ofRatio n 1.

(** The literal with the digits of [n], the last [k] of them after the
    point: [dec 1005 3] is [1.005]. *)
Definition dec (n : Z) (k : nat) : t := ofRatio n (Z.to_pos (10 ^ Z.of_nat k)).

(** The real number [m * 2^e]. *)
Definition magnitude (m : positive) (e : Z) : Q :=
  if 0 <=? e then inject_Z (Zpos m * 2 ^ e)
  else Zpos m # Z.to_pos (2 ^ (- e)).

(** [parseFloat(x.toFixed(2))].  [toFixed] prints a number that is not
    finite as [toString] does; of any other it splits off the sign (a zero
    has none), prints a magnitude of 10^21 or more as [toString] does, and
    for a smaller one prints the integer [n] for which [n / 100] is nearest
    to it, the larger [n] when two are as near.  [parseFloat] reads the text
    back: the number itself where [toString] printed it, else the number
    nearest to [n / 100], which for [n = 0] is the zero of that sign. *)
Definition toFixed2 (x : t) : t :=
  match x with
  | S754_nan => S754_nan
  | S754_infinity s => S754_infinity s
  | S754_zero _ => zero
  | S754_finite s m e =>
      let a := magnitude m e in
      if Qle_bool (inject_Z (10 ^ 21)) a then x
      else
        match Qfloor (a * 100 + (1 # 2)) with
        | Zpos n => ofRatio (if s then Zneg n else Zpos n) 100
        | _ => S754_zero s
        end
  end.

(** [v || 0] on an optional number: a zero and [NaN] are falsy. *)
Definition or_zero (v : option t) : t :=
  match v with
  | Some (S754_finite s m e) => S754_finite s m e
  | Some (S754_infinity s) => S754_infinity s
  | _ => zero
  end.

(** [let acc = 0; l.forEach(x => acc += x)]. *)
Definition sum (l : list t) : t := fold_left add l zero.

End Double.

(** ** The services on binary64 money

    The same documents and the same code as above, with the fee of an order,
    the amount of a withdrawal and the running total held as binary64
    numbers and added, subtracted, compared and rounded as the engine does
    it.  The functions that compute with money are embedded here a second
    time; the claims about amounts are stated on these. *)

Module Binary64.

Module Order.
Record t := mk {
  orderId : string;
  status : string;
  deliveryFee : option Double.t;
  createdAt : Z;
  deliveredAt : option Z
}.

(** [order.deliveredAt || order.createdAt]. *)
Definition effectiveDate (o : t) : Z :=
  match deliveredAt o with Some d => d | None => createdAt o end.

Definition isDelivered (o : t) : bool := String.eqb (status o) "delivered".

(** [order.deliveryFee || 0]. *)
Definition fee (o : t) : Double.t := Double.or_zero (deliveryFee o).
End Order.

Module Withdrawal.
Record t := mk {
  withdrawalId : string;
  riderId : string;
  amount : Double.t;
  accountInfo : string;
  status : string;
  requestedAt : Z;
  processedAt : option Z;
  notes : string
}.

Definition hasStatus (s : string) (w : t) : bool := String.eqb (status w) s.
End Withdrawal.

Module OrdersDoc.
Record t := mk { orders : option (list Order.t) }.
End OrdersDoc.

Module IncomeData.
Record t := mk {
  riderId : string;
  withdrawals : list Withdrawal.t;
  totalWithdrawn : Double.t;
  lastUpdated : Z
}.
End IncomeData.

Record store : Type := mkStore {
  ordersSlot : slot OrdersDoc.t;
  incomeSlot : slot IncomeData.t
}.

Module Stats.
Record t := mk {
  total : nat;
  ongoing : nat;
  completed : nat;
  cancelled : nat;
  totalEarnings : Double.t;
  todayEarnings : Double.t;
  todayOrders : nat
}.
End Stats.

Module OrdersService.

Definition defaultDoc : OrdersDoc.t := OrdersDoc.mk (Some []).

(** [getAllOrders()]. *)
Definition getAllOrders (s : store) : list Order.t * store :=
  let '(data, _, sl) := DataStore.read (ordersSlot s) defaultDoc in
  (match OrdersDoc.orders data with Some l => l | None => [] end,
   mkStore sl (incomeSlot s)).

Definition isOngoing (o : Order.t) : bool :=
  existsb (String.eqb (Order.status o)) ["assigned"; "picked_up"; "in_transit"].

(** Body of the [forEach] of [getOrderStatistics]. *)
Definition statsStep (today : Z) (st : Stats.t) (o : Order.t) : Stats.t :=
  let st1 :=
    if isOngoing o then
      Stats.mk (Stats.total st) (S (Stats.ongoing st)) (Stats.completed st)
        (Stats.cancelled st) (Stats.totalEarnings st)
        (Stats.todayEarnings st) (Stats.todayOrders st)
    else if String.eqb (Order.status o) "delivered" then
      Stats.mk (Stats.total st) (Stats.ongoing st) (S (Stats.completed st))
        (Stats.cancelled st)
        (Double.add (Stats.totalEarnings st) (Order.fee o))
        (Stats.todayEarnings st) (Stats.todayOrders st)
    else if String.eqb (Order.status o) "cancelled" then
      Stats.mk (Stats.total st) (Stats.ongoing st) (Stats.completed st)
        (S (Stats.cancelled st)) (Stats.totalEarnings st)
        (Stats.todayEarnings st) (Stats.todayOrders st)
    else st in
  if Time.startsWithDay (Order.effectiveDate o) today then
    Stats.mk (Stats.total st1) (Stats.ongoing st1) (Stats.completed st1)
      (Stats.cancelled st1) (Stats.totalEarnings st1)
      (if String.eqb (Order.status o) "delivered"
       then Double.add (Stats.todayEarnings st1) (Order.fee o)
       else Stats.todayEarnings st1)
      (S (Stats.todayOrders st1))
  else st1.

Definition roundStats (st : Stats.t) : Stats.t :=
  Stats.mk (Stats.total st) (Stats.ongoing st) (Stats.completed st)
    (Stats.cancelled st) (Double.toFixed2 (Stats.totalEarnings st))
    (Double.toFixed2 (Stats.todayEarnings st)) (Stats.todayOrders st).

(** [getOrderStatistics()]. *)
Definition getOrderStatistics (now : Z) (s : store) : Stats.t * store :=
  let '(orders, s') := getAllOrders s in
  let stats :=
    Stats.mk (length orders) 0 0 0 Double.zero Double.zero 0 in
  let today := Time.utcDay now in
  (roundStats (fold_left (statsStep today) orders stats), s').

End OrdersService.

Module Snapshot.
Record t := mk {
  riderId : string;
  totalEarnings : Double.t;
  todayEarnings : Double.t;
  weekEarnings : Double.t;
  monthEarnings : Double.t;
  totalWithdrawn : Double.t;
  availableBalance : Double.t;
  pendingWithdrawals : nat;
  lastUpdated : Z
}.
End Snapshot.

Module Trend.
Record t := mk {
  period : string;
  labels : list string;
  earnings : list Double.t;
  orderCounts : list nat
}.
End Trend.

Module IncomeService.

Definition riderId : string := "rider_001".

Definition defaultData (now : Z) : IncomeData.t :=
  IncomeData.mk riderId [] Double.zero now.

(** [getIncomeData()]. *)
Definition getIncomeData (now : Z) (s : store)
  : IncomeData.t * handle * store :=
  let '(data, h, sl) := DataStore.read (incomeSlot s) (defaultData now) in
  (data, h, mkStore (ordersSlot s) sl).

(** [getPendingWithdrawalsCount()]. *)
Definition getPendingWithdrawalsCount (now : Z) (s : store) : nat * store :=
  let '(incomeData, _, s') := getIncomeData now s in
  (length (List.filter (Withdrawal.hasStatus "pending")
             (IncomeData.withdrawals incomeData)), s').

(** The four running sums of [getRealTimeIncome]. *)
Record sums := mkSums {
  sumTotal : Double.t;
  sumToday : Double.t;
  sumWeek : Double.t;
  sumMonth : Double.t
}.

(** Body of the [forEach] of [getRealTimeIncome]. *)
Definition incomeStep (now : Z) (acc : sums) (order : Order.t) : sums :=
  if Order.isDelivered order then
    let earnings := Order.fee order in
    let today := Time.utcDay now in
    let weekAgo := now - 7 * 24 * 60 * 60 * 1000 in
    let monthAgo := now - 30 * 24 * 60 * 60 * 1000 in
    let orderDate := Order.effectiveDate order in
    mkSums
      (Double.add (sumTotal acc) earnings)
      (match Order.deliveredAt order with
       | Some d =>
           if Time.startsWithDay d today
           then Double.add (sumToday acc) earnings
           else sumToday acc
       | None => sumToday acc
       end)
      (if weekAgo <=? orderDate then Double.add (sumWeek acc) earnings
       else sumWeek acc)
      (if monthAgo <=? orderDate then Double.add (sumMonth acc) earnings
       else sumMonth acc)
  else acc.

(** [getRealTimeIncome()]. *)
Definition getRealTimeIncome (now : Z) (s : store) : Snapshot.t * store :=
  let '(orders, s1) := OrdersService.getAllOrders s in
  let '(incomeData, _, s2) := getIncomeData now s1 in
  let acc :=
    fold_left (incomeStep now) orders
      (mkSums Double.zero Double.zero Double.zero Double.zero) in
  let availableBalance :=
    Double.sub (sumTotal acc) (IncomeData.totalWithdrawn incomeData) in
  let '(pending, s3) := getPendingWithdrawalsCount now s2 in
  (Snapshot.mk riderId
     (Double.toFixed2 (sumTotal acc))
     (Double.toFixed2 (sumToday acc))
     (Double.toFixed2 (sumWeek acc))
     (Double.toFixed2 (sumMonth acc))
     (Double.toFixed2 (IncomeData.totalWithdrawn incomeData))
     (Double.toFixed2 availableBalance)
     pending
     now,
   s3).

(** The identifier [`WD${Date.now()}`]. *)
Definition withdrawalIdAt (now : Z) : string :=
  "WD" ++ NilEmpty.string_of_int (Z.to_int now).

(** [submitWithdrawal(amount, accountInfo)]; [inl] is a thrown error.  The
    two guards are the comparisons of the engine, both false on [NaN]. *)
Definition submitWithdrawal (amount : Double.t) (accountInfo : string)
    (now : Z) (s : store) : (withdrawError + Withdrawal.t) * store :=
  let '(incomeData, _, s1) := getIncomeData now s in
  let '(realTimeIncome, s2) := getRealTimeIncome now s1 in
  if Double.leb amount Double.zero then (inl InvalidAmountError, s2)
  else if Double.ltb (Snapshot.availableBalance realTimeIncome) amount
  then (inl InsufficientBalanceError, s2)
  else
    let withdrawal :=
      Withdrawal.mk (withdrawalIdAt now) riderId (Double.toFixed2 amount)
        accountInfo "pending" now None "" in
    let incomeData' :=
      IncomeData.mk (IncomeData.riderId incomeData)
        (IncomeData.withdrawals incomeData ++ [withdrawal])
        (IncomeData.totalWithdrawn incomeData)
        now in
    (inr withdrawal,
     mkStore (ordersSlot s2) (DataStore.write (incomeSlot s2) incomeData')).

(** [updateWithdrawalStatus(withdrawalId, newStatus, notes)]; [None] is
    the [null] returned for an unknown identifier. *)
Definition updateWithdrawalStatus (withdrawalId newStatus notes : string)
    (now : Z) (s : store) : option Withdrawal.t * store :=
  let '(incomeData, _, s1) := getIncomeData now s in
  let ws := IncomeData.withdrawals incomeData in
  match JSArray.findIndex
          (fun w => String.eqb (Withdrawal.withdrawalId w) withdrawalId) ws
  with
  | None => (None, s1)
  | Some withdrawalIndex =>
      match ws !! withdrawalIndex with
      | None => (None, s1)
      | Some w =>
          let withdrawal :=
            Withdrawal.mk (Withdrawal.withdrawalId w) (Withdrawal.riderId w)
              (Withdrawal.amount w) (Withdrawal.accountInfo w)
              newStatus (Withdrawal.requestedAt w) (Some now) notes in
          let incomeData' :=
            IncomeData.mk (IncomeData.riderId incomeData)
              (<[withdrawalIndex := withdrawal]> ws)
              (if String.eqb newStatus "completed"
               then Double.add (IncomeData.totalWithdrawn incomeData)
                      (Withdrawal.amount withdrawal)
               else IncomeData.totalWithdrawn incomeData)
              now in
          (Some withdrawal,
           mkStore (ordersSlot s1)
             (DataStore.write (incomeSlot s1) incomeData'))
      end
  end.

(** Body of the [forEach] of the daily branch of [getIncomeTrend].
    [isoDate] prints the UTC day of a timestamp as the date prefix
    [YYYY-MM-DD] that [split('T')[0]] cuts off; [findIndex] with string
    equality is [labels.indexOf(orderDate)].  The seven labels make every
    index found one of the seven buckets. *)
Definition dailyStep (isoDate : Z -> string) (labels : list string)
    (acc : list Double.t * list nat) (order : Order.t)
  : list Double.t * list nat :=
  let orderDate := isoDate (Time.utcDay (Order.effectiveDate order)) in
  match JSArray.findIndex (fun l => String.eqb l orderDate) labels with
  | Some index =>
      (alter (fun e => Double.add e (Order.fee order)) index (fst acc),
       alter S index (snd acc))
  | None => acc
  end.

(** [getIncomeTrend('daily')].  [labels] is what [getLast7Days()] returned:
    seven date strings, found by stepping back calendar days of the time
    zone of the process and printed as UTC dates, so that which dates they
    are, and whether two of them coincide, depends on that zone. *)
Definition getIncomeTrendDaily (isoDate : Z -> string) (labels : list string)
    (s : store) : Trend.t * store :=
  let '(orders, s') := OrdersService.getAllOrders s in
  let deliveredOrders := List.filter Order.isDelivered orders in
  let acc :=
    fold_left (dailyStep isoDate labels) deliveredOrders
      (repeat Double.zero 7, repeat O 7) in
  (Trend.mk "daily" labels (map Double.toFixed2 (fst acc)) (snd acc), s').

End IncomeService.

(** The orders a call to [getAllOrders] returns. *)
Definition ordersView (s : store) : list Order.t :=
  (OrdersService.getAllOrders s).1.

(** The income document a call to [getIncomeData] returns. *)
Definition incomeDoc (now : Z) (s : store) : IncomeData.t :=
  (IncomeService.getIncomeData now s).1.1.

Definition hasId (withdrawalId : string) (w : Withdrawal.t) : bool :=
  String.eqb (Withdrawal.withdrawalId w) withdrawalId.

(** The record [updateWithdrawalStatus] leaves in place of [w]. *)
Definition resolved (w : Withdrawal.t) (newStatus notes : string) (now : Z)
  : Withdrawal.t :=
  Withdrawal.mk (Withdrawal.withdrawalId w) (Withdrawal.riderId w)
    (Withdrawal.amount w) (Withdrawal.accountInfo w)
    newStatus (Withdrawal.requestedAt w) (Some now) notes.

(** The date string of the order is the label at [i] and at no earlier
    position: [labels.indexOf(orderDate) === i]. *)
Definition inBucket (isoDate : Z -> string) (labels : list string) (i : nat)
    (o : Order.t) : bool :=
  match JSArray.findIndex
          (fun l =>
             String.eqb l (isoDate (Time.utcDay (Order.effectiveDate o))))
          labels
  with
  | Some j => Nat.eqb j i
  | None => false
  end.

(** The store once both files have been read. *)
Definition warm (s : store) : store :=
  mkStore (DataStore.read (ordersSlot s) OrdersService.defaultDoc).2
          (DataStore.read (incomeSlot s) (IncomeService.defaultData 0)).2.

(** The fees [getRealTimeIncome] and [getOrderStatistics] add up, in the
    order of the array. *)
Definition deliveredFees (orders : list Order.t) : list Double.t :=
  map Order.fee (List.filter Order.isDelivered orders).

(** A store holding [orders] and an income document with the given
    withdrawals and running total, in the cache and in the files. *)
Definition storeOf (orders : list Order.t) (ws : list Withdrawal.t)
    (withdrawn : Double.t) : store :=
  let od := OrdersDoc.mk (Some orders) in
  let idoc := IncomeData.mk "rider_001" ws withdrawn 0 in
  mkStore (mkSlot (Some od) (FileContent od))
          (mkSlot (Some idoc) (FileContent idoc)).

(** The snapshot as a function of what was read. *)
Definition snapshotOf (now : Z) (orders : list Order.t) (d : IncomeData.t)
  : Snapshot.t :=
  let acc :=
    fold_left (IncomeService.incomeStep now) orders
      (IncomeService.mkSums Double.zero Double.zero Double.zero Double.zero) in
  Snapshot.mk IncomeService.riderId
    (Double.toFixed2 (IncomeService.sumTotal acc))
    (Double.toFixed2 (IncomeService.sumToday acc))
    (Double.toFixed2 (IncomeService.sumWeek acc))
    (Double.toFixed2 (IncomeService.sumMonth acc))
    (Double.toFixed2 (IncomeData.totalWithdrawn d))
    (Double.toFixed2
       (Double.sub (IncomeService.sumTotal acc) (IncomeData.totalWithdrawn d)))
    (length (List.filter (Withdrawal.hasStatus "pending")
               (IncomeData.withdrawals d)))
    now.

Definition isCancelled (o : Order.t) : bool :=
  String.eqb (Order.status o) "cancelled".

(** The order's effective date falls on the UTC day of [now]. *)
Definition isToday (now : Z) (o : Order.t) : bool :=
  Time.startsWithDay (Order.effectiveDate o) (Time.utcDay now).

(** The record [submitWithdrawal] creates. *)
Definition newWithdrawal (amount : Double.t) (accountInfo : string) (now : Z)
  : Withdrawal.t :=
  Withdrawal.mk (IncomeService.withdrawalIdAt now) IncomeService.riderId
    (Double.toFixed2 amount) accountInfo "pending" now None "".

(** The scenario of the specification at the instant [now]: O1 delivered
    an hour ago for 15.00, O2 delivered ten days ago for 8.50, O3 cancelled,
    created two days ago, fee 5.00. *)
Definition scenarioOrders (now : Z) : list Order.t :=
  [ Order.mk "O1" "delivered" (Some (Double.dec 1500 2))
      (now - 2 * 3600000) (Some (now - 3600000));
    Order.mk "O2" "delivered" (Some (Double.dec 850 2))
      (now - 11 * Time.ms_per_day) (Some (now - 10 * Time.ms_per_day));
    Order.mk "O3" "cancelled" (Some (Double.dec 500 2))
      (now - 2 * Time.ms_per_day) None ].

Definition scenarioStore (now : Z) : store :=
  storeOf (scenarioOrders now) [] Double.zero.

End Binary64.

(** * Properties *)

(** ** Rounding *)

Section RoundingFacts.
Local Open Scope Q_scope.

Lemma Qfloor_unique (x : Q) (n : Z) :
  inject_Z n <= x -> x < inject_Z (n + 1) -> Qfloor x = n.
Proof.
  intros Hle Hlt.
  pose proof (Qfloor_le x) as H1.
  pose proof (Qlt_floor x) as H2.
  assert (Hn : inject_Z n < inject_Z (Qfloor x + 1))
    by (eapply Qle_lt_trans; eauto).
  assert (Hm : inject_Z (Qfloor x) < inject_Z (n + 1))
    by (eapply Qle_lt_trans; eauto).
  rewrite <- Zlt_Qlt in Hn, Hm. lia.
Qed.

Lemma Qfloor_add_Z (x : Q) (k : Z) :
  Qfloor (x + inject_Z k) = (Qfloor x + k)%Z.
Proof.
  apply Qfloor_unique.
  - rewrite inject_Z_plus. pose proof (Qfloor_le x). lra.
  - pose proof (Qlt_floor x) as H.
    replace (Qfloor x + k + 1)%Z with ((Qfloor x + 1) + k)%Z by lia.
    rewrite inject_Z_plus. lra.
Qed.

#[global] Instance round_half_away_comp :
  Proper (Qeq ==> eq) Num.round_half_away.
Proof.
  intros x y Hxy. unfold Num.round_half_away.
  rewrite Hxy. destruct (Qle_bool 0 y); now rewrite Hxy.
Qed.

#[global] Instance cents_comp : Proper (Qeq ==> eq) Num.cents.
Proof. intros x y Hxy. unfold Num.cents. now rewrite Hxy. Qed.

#[global] Instance toFixed2_comp : Proper (Qeq ==> eq) Num.toFixed2.
Proof. intros x y Hxy. unfold Num.toFixed2. now rewrite Hxy. Qed.


Lemma round_half_away_Z (k : Z) : Num.round_half_away (inject_Z k) = k.
Proof.
  unfold Num.round_half_away.
  destruct (Qle_bool 0 (inject_Z k)) eqn:E.
  - apply Qfloor_unique; rewrite ?inject_Z_plus;
      change (inject_Z 1) with 1; lra.
  - assert (Qfloor (- inject_Z k + (1 # 2)) = (- k)%Z) as ->; [|lia].
    apply Qfloor_unique; rewrite ?inject_Z_plus, ?inject_Z_opp;
      change (inject_Z 1) with 1; lra.
Qed.

Lemma hundredths (k : Z) : (k # 100) * 100 == inject_Z k.
Proof. unfold Qeq, Qmult, inject_Z. simpl. lia. Qed.

(** An amount of whole cents is printed as it is. *)
Lemma cents_whole (x : Q) (k : Z) : x == k # 100 -> Num.cents x = k.
Proof.
  intros H. unfold Num.cents. rewrite H, hundredths.
  apply round_half_away_Z.
Qed.

Lemma toFixed2_whole (x : Q) : Num.whole_cents x -> Num.toFixed2 x == x.
Proof.
  intros [k Hk]. unfold Num.toFixed2. rewrite (cents_whole x k Hk).
  now symmetry.
Qed.

End RoundingFacts.

(** ** Sorting by date *)

Section SortFacts.
Context {A : Type} (key : A -> Z).

(** [a] may stand before [b]: it is not older. *)
Definition notOlder (a b : A) : Prop := key b <= key a.

Lemma insertDesc_perm (x : A) (l : list A) :
  Permutation (JSArray.insertDesc key x l) (x :: l).
Proof.
  induction l as [|y l IH]; cbn.
  - reflexivity.
  - destruct (key y <=? key x); [reflexivity|].
    rewrite IH. apply perm_swap.
Qed.

Lemma sortDesc_perm (l : list A) : Permutation (JSArray.sortDesc key l) l.
Proof.
  induction l as [|x l IH]; cbn.
  - reflexivity.
  - unfold JSArray.sortDesc in IH. rewrite insertDesc_perm.
    now apply perm_skip.
Qed.

Lemma insertDesc_sorted (x : A) (l : list A) :
  StronglySorted notOlder l ->
  StronglySorted notOlder (JSArray.insertDesc key x l).
Proof.
  induction 1 as [|y l Hs IH Hy]; cbn.
  - repeat constructor.
  - destruct (Z.leb_spec (key y) (key x)) as [Hle|Hgt].
    + constructor; [constructor; assumption|].
      constructor; [exact Hle|].
      eapply List.Forall_impl; [|exact Hy].
      intros b Hb. unfold notOlder in *. lia.
    + constructor; [exact IH|].
      eapply Permutation_Forall; [symmetry; apply insertDesc_perm|].
      constructor; [unfold notOlder; lia | exact Hy].
Qed.

Lemma sortDesc_sorted (l : list A) :
  StronglySorted notOlder (JSArray.sortDesc key l).
Proof.
  induction l as [|x l IH]; cbn.
  - constructor.
  - apply insertDesc_sorted, IH.
Qed.

(** Sorting an array that is already in order leaves it as it is. *)
Lemma sortDesc_sorted_id (l : list A) :
  StronglySorted notOlder l -> JSArray.sortDesc key l = l.
Proof.
  induction 1 as [|x l Hs IH Hx]; cbn; [reflexivity|].
  unfold JSArray.sortDesc in IH. rewrite IH.
  destruct l as [|y l]; [reflexivity|]. cbn.
  apply Forall_inv in Hx. unfold notOlder in Hx.
  destruct (Z.leb_spec (key y) (key x)); [reflexivity | lia].
Qed.

Lemma filter_sorted (p : A -> bool) (l : list A) :
  StronglySorted notOlder l -> StronglySorted notOlder (List.filter p l).
Proof.
  induction 1 as [|x l Hs IH Hx]; cbn; [constructor|].
  destruct (p x); [|exact IH].
  constructor; [exact IH|].
  apply List.Forall_forall. intros b Hb.
  apply List.filter_In in Hb as [Hb _].
  revert b Hb. apply List.Forall_forall. exact Hx.
Qed.

End SortFacts.

(** ** What the services see of the store *)

(** The orders a call to [getAllOrders] returns. *)
Definition ordersView (s : store) : list Order.t :=
  (OrdersService.getAllOrders s).1.

(** The income document a call to [getIncomeData] returns. *)
Definition incomeDoc (now : Z) (s : store) : IncomeData.t :=
  (IncomeService.getIncomeData now s).1.1.

(** The store once both files have been read: parsed files sit in the cache. *)
Definition warm (s : store) : store :=
  mkStore (DataStore.read (ordersSlot s) OrdersService.defaultDoc).2
          (DataStore.read (incomeSlot s) (IncomeService.defaultData 0)).2.

(** Sum of the fees of a list of orders. *)
Definition sumFees (l : list Order.t) : Q :=
  fold_right (fun o acc => (Order.fee o + acc)%Q) 0%Q l.

(** Lifetime earnings: the fees of the delivered orders. *)
Definition deliveredEarnings (orders : list Order.t) : Q :=
  sumFees (List.filter Order.isDelivered orders).

(** The snapshot as a function of what was read. *)
Definition snapshotOf (now : Z) (orders : list Order.t) (d : IncomeData.t)
  : Snapshot.t :=
  let acc :=
    fold_left (IncomeService.incomeStep now) orders
      (IncomeService.mkSums 0 0 0 0)%Q in
  Snapshot.mk IncomeService.riderId
    (Num.toFixed2 (IncomeService.sumTotal acc))
    (Num.toFixed2 (IncomeService.sumToday acc))
    (Num.toFixed2 (IncomeService.sumWeek acc))
    (Num.toFixed2 (IncomeService.sumMonth acc))
    (Num.toFixed2 (IncomeData.totalWithdrawn d))
    (Num.toFixed2 (IncomeService.sumTotal acc - IncomeData.totalWithdrawn d))
    (length (List.filter (Withdrawal.hasStatus "pending")
               (IncomeData.withdrawals d)))
    now.

Ltac destruct_slot sl :=
  let c := fresh "c" in
  let f := fresh "f" in
  destruct sl as [c f]; destruct c as [?|]; destruct f as [| |?].

Ltac destruct_store s :=
  let os := fresh "os" in
  let is_ := fresh "is_" in
  destruct s as [os is_]; destruct_slot os; destruct_slot is_.

Section StoreFacts.

Lemma ordersView_warm (s : store) : ordersView (warm s) = ordersView s.
Proof.
  unfold ordersView, OrdersService.getAllOrders,
    OrdersService.getAllOrders_ref.
  destruct_store s; simpl; try reflexivity;
    match goal with |- context [OrdersDoc.orders ?d] =>
      destruct (OrdersDoc.orders d) end; reflexivity.
Qed.

Lemma incomeDoc_warm (now : Z) (s : store) :
  incomeDoc now (warm s) = incomeDoc now s.
Proof. unfold incomeDoc. destruct_store s; reflexivity. Qed.

Lemma warm_warm (s : store) : warm (warm s) = warm s.
Proof. destruct_store s; reflexivity. Qed.

(** Closed form of [getRealTimeIncome]. *)
Lemma getRealTimeIncome_eq (now : Z) (s : store) :
  IncomeService.getRealTimeIncome now s
  = (snapshotOf now (ordersView s) (incomeDoc now s), warm s).
Proof.
  unfold IncomeService.getRealTimeIncome, snapshotOf, ordersView, incomeDoc,
    IncomeService.getPendingWithdrawalsCount, IncomeService.getIncomeData,
    OrdersService.getAllOrders, OrdersService.getAllOrders_ref.
  destruct_store s; simpl; try reflexivity;
    match goal with |- context [OrdersDoc.orders ?d] =>
      destruct (OrdersDoc.orders d) end; reflexivity.
Qed.

End StoreFacts.

(** ** Real-time income *)

Section RealTimeIncome.
Local Open Scope Q_scope.

Lemma incomeStep_total (now : Z) (l : list Order.t) (acc : IncomeService.sums) :
  IncomeService.sumTotal (fold_left (IncomeService.incomeStep now) l acc)
  == IncomeService.sumTotal acc + deliveredEarnings l.
Proof.
  revert acc. induction l as [|o l IH]; intros acc; simpl.
  - unfold deliveredEarnings; simpl. ring.
  - rewrite IH. unfold IncomeService.incomeStep, deliveredEarnings. simpl.
    destruct (Order.isDelivered o); simpl; ring.
Qed.

(** The three fields of the snapshot that enter the balance equation, each
    rounded from its own unrounded value. *)
Lemma realtime_fields (now : Z) (s : store) :
  let snap := (IncomeService.getRealTimeIncome now s).1 in
  let earned := deliveredEarnings (ordersView s) in
  let withdrawn := IncomeData.totalWithdrawn (incomeDoc now s) in
  Snapshot.totalEarnings snap = Num.toFixed2 earned
  /\ Snapshot.totalWithdrawn snap = Num.toFixed2 withdrawn
  /\ Snapshot.availableBalance snap = Num.toFixed2 (earned - withdrawn).
Proof.
  rewrite getRealTimeIncome_eq. simpl.
  pose proof (incomeStep_total now (ordersView s)
                (IncomeService.mkSums 0 0 0 0)) as H.
  simpl in H. rewrite Qplus_0_l in H.
  repeat split; apply toFixed2_comp; rewrite H; reflexivity.
Qed.

End RealTimeIncome.

(** An order store holding [orders] in its cache and an income document with
    the given withdrawals and running total. *)
Definition storeOf (orders : list Order.t) (ws : list Withdrawal.t)
    (withdrawn : Q) : store :=
  let od := OrdersDoc.mk (Some orders) in
  let idoc := IncomeData.mk "rider_001" ws withdrawn 0 in
  mkStore (mkSlot (Some od) (FileContent od))
          (mkSlot (Some idoc) (FileContent idoc)).

Section Repeatability.

Lemma incomeDoc_withdrawals_now (now now' : Z) (s : store) :
  IncomeData.withdrawals (incomeDoc now s)
  = IncomeData.withdrawals (incomeDoc now' s).
Proof. unfold incomeDoc. destruct_store s; reflexivity. Qed.

Lemma incomeDoc_totalWithdrawn_now (now now' : Z) (s : store) :
  IncomeData.totalWithdrawn (incomeDoc now s)
  = IncomeData.totalWithdrawn (incomeDoc now' s).
Proof. unfold incomeDoc. destruct_store s; reflexivity. Qed.

End Repeatability.

(** C7, counterexample: with the store untouched, a call one day after the
    first returns a snapshot with another lastUpdated and another
    todayEarnings. *)
Lemma realtime_income_twice_counterexample :
  let s := storeOf [Order.mk "O1" "delivered" (Some 15%Q) 0 (Some 0)] [] 0%Q in
  let r1 := IncomeService.getRealTimeIncome 1000 s in
  let r2 := IncomeService.getRealTimeIncome (1000 + Time.ms_per_day) r1.2 in
  r1.2 = s
  /\ Snapshot.lastUpdated r1.1 <> Snapshot.lastUpdated r2.1
  /\ ~ (Snapshot.todayEarnings r1.1 == Snapshot.todayEarnings r2.1)%Q
  /\ r1.1 <> r2.1.
Proof.
  vm_compute. repeat split; intros H; discriminate H.
Qed.

(** C7, amended: a second call of getRealTimeIncome at the same clock reading
    returns the identical snapshot and leaves the store as the first call left
    it; at any other clock reading the fields riderId, totalEarnings,
    totalWithdrawn, availableBalance and pendingWithdrawals are still those
    of the first snapshot, and lastUpdated is the reading of the call. *)
Theorem realtime_income_repeatable (now now' : Z) (s : store) :
  let r1 := IncomeService.getRealTimeIncome now s in
  let r2 := IncomeService.getRealTimeIncome now' r1.2 in
  IncomeService.getRealTimeIncome now r1.2 = r1
  /\ r2.2 = r1.2
  /\ Snapshot.riderId r2.1 = Snapshot.riderId r1.1
  /\ Snapshot.totalEarnings r2.1 = Snapshot.totalEarnings r1.1
  /\ Snapshot.totalWithdrawn r2.1 = Snapshot.totalWithdrawn r1.1
  /\ Snapshot.availableBalance r2.1 = Snapshot.availableBalance r1.1
  /\ Snapshot.pendingWithdrawals r2.1 = Snapshot.pendingWithdrawals r1.1
  /\ Snapshot.lastUpdated r2.1 = now'.
Proof.
  intros r1 r2. subst r1 r2.
  rewrite !getRealTimeIncome_eq. simpl fst. simpl snd.
  rewrite warm_warm, ordersView_warm, !incomeDoc_warm.
  split; [reflexivity|]. split; [reflexivity|]. split; [reflexivity|].
  pose proof (incomeStep_total now (ordersView s)
                (IncomeService.mkSums 0 0 0 0)%Q) as H1.
  pose proof (incomeStep_total now' (ordersView s)
                (IncomeService.mkSums 0 0 0 0)%Q) as H2.
  simpl.
  rewrite (incomeDoc_totalWithdrawn_now now' now s).
  rewrite (incomeDoc_withdrawals_now now' now s).
  repeat split; apply toFixed2_comp; rewrite H1, H2; reflexivity.
Qed.

(** ** Order statistics *)

Definition isCancelled (o : Order.t) : bool :=
  String.eqb (Order.status o) "cancelled".

(** The order's effective date falls on the UTC day of [now]. *)
Definition isToday (now : Z) (o : Order.t) : bool :=
  Time.startsWithDay (Order.effectiveDate o) (Time.utcDay now).

Definition count {A} (p : A -> bool) (l : list A) : nat :=
  length (List.filter p l).

Section Statistics.
Local Open Scope Q_scope.

Lemma delivered_not_ongoing (o : Order.t) :
  Order.isDelivered o = true -> OrdersService.isOngoing o = false.
Proof.
  unfold Order.isDelivered, OrdersService.isOngoing.
  intros H. apply String.eqb_eq in H. rewrite H. reflexivity.
Qed.

Lemma cancelled_not_ongoing (o : Order.t) :
  isCancelled o = true -> OrdersService.isOngoing o = false.
Proof.
  unfold isCancelled, OrdersService.isOngoing.
  intros H. apply String.eqb_eq in H. rewrite H. reflexivity.
Qed.

Lemma cancelled_not_delivered (o : Order.t) :
  isCancelled o = true -> Order.isDelivered o = false.
Proof.
  unfold isCancelled, Order.isDelivered.
  intros H. apply String.eqb_eq in H. rewrite H. reflexivity.
Qed.

Lemma statsStep_fold (now : Z) (l : list Order.t) (st : Stats.t) :
  let r := fold_left (OrdersService.statsStep (Time.utcDay now)) l st in
  Stats.total r = Stats.total st
  /\ Stats.ongoing r = (Stats.ongoing st + count OrdersService.isOngoing l)%nat
  /\ Stats.completed r = (Stats.completed st + count Order.isDelivered l)%nat
  /\ Stats.cancelled r = (Stats.cancelled st + count isCancelled l)%nat
  /\ Stats.totalEarnings r == Stats.totalEarnings st + deliveredEarnings l
  /\ Stats.todayEarnings r
     == Stats.todayEarnings st
        + deliveredEarnings (List.filter (isToday now) l)
  /\ Stats.todayOrders r = (Stats.todayOrders st + count (isToday now) l)%nat.
Proof.
  revert st. induction l as [|o l IH]; intros st.
  - unfold count, deliveredEarnings; simpl.
    repeat split; try lia; ring.
  - cbn [fold_left]. cbv zeta.
    destruct (IH (OrdersService.statsStep (Time.utcDay now) st o))
      as (H1 & H2 & H3 & H4 & H5 & H6 & H7).
    rewrite H1, H2, H3, H4, H5, H6, H7. clear IH H1 H2 H3 H4 H5 H6 H7.
    unfold OrdersService.statsStep, count, deliveredEarnings.
    cbn [List.filter].
    fold (Order.isDelivered o). fold (isCancelled o). fold (isToday now o).
    destruct (Order.isDelivered o) eqn:Ed, (isCancelled o) eqn:Ec,
      (OrdersService.isOngoing o) eqn:Eo, (isToday now o);
      try (rewrite (delivered_not_ongoing o Ed) in Eo; discriminate Eo);
      try (rewrite (cancelled_not_delivered o Ec) in Ed; discriminate Ed);
      try (rewrite (cancelled_not_ongoing o Ec) in Eo; discriminate Eo);
      cbn; rewrite ?Ed; cbn; unfold sumFees;
      repeat split; try lia; ring.
Qed.

End Statistics.

(** The scenario of the specification: noon of day 20000; O1 delivered an
    hour ago for 15.00, O2 delivered ten days ago for 8.50, O3 cancelled,
    created two days ago, fee 5.00. *)
Definition scenarioNow : Z := 20000 * Time.ms_per_day + 12 * 3600000.

Definition scenarioOrders : list Order.t :=
  [ Order.mk "O1" "delivered" (Some 15%Q)
      (scenarioNow - 2 * 3600000) (Some (scenarioNow - 3600000));
    Order.mk "O2" "delivered" (Some (85 # 10)%Q)
      (scenarioNow - 11 * Time.ms_per_day)
      (Some (scenarioNow - 10 * Time.ms_per_day));
    Order.mk "O3" "cancelled" (Some 5%Q)
      (scenarioNow - 2 * Time.ms_per_day) None ].

Definition scenarioStore : store := storeOf scenarioOrders [] 0%Q.

(** ** Weekly income trend *)

(** The order's effective date lies [i] whole weeks before [now]. *)
Definition inWeek (now : Z) (i : nat) (o : Order.t) : bool :=
  IncomeService.getWeekIndex now (Order.effectiveDate o) =? Z.of_nat i.

Section WeeklyTrend.
Local Open Scope Q_scope.

Lemma updateAt_lookup {A} (w : Z) (f : A -> A) (l : list A) (i : nat) :
  JSArray.updateAt w f l !! i
  = if (w =? Z.of_nat i)%Z then f <$> l !! i else l !! i.
Proof.
  unfold JSArray.updateAt.
  destruct (Z.ltb_spec w 0) as [Hneg|Hpos].
  - destruct (Z.eqb_spec w (Z.of_nat i)); [lia | reflexivity].
  - destruct (Z.eqb_spec w (Z.of_nat i)) as [->|Hne].
    + rewrite Nat2Z.id. apply list_lookup_alter_eq.
    + apply list_lookup_alter_ne. lia.
Qed.

Lemma weeklyStep_lookup (now : Z) (o : Order.t) (es : list Q)
    (cs : list nat) (i : nat) :
  (i < 4)%nat ->
  (IncomeService.weeklyStep now (es, cs) o).1 !! i
    = (if inWeek now i o then (fun e => e + Order.fee o) <$> es !! i
       else es !! i)
  /\ (IncomeService.weeklyStep now (es, cs) o).2 !! i
    = (if inWeek now i o then S <$> cs !! i else cs !! i).
Proof.
  intros Hi. unfold IncomeService.weeklyStep, inWeek.
  set (w := IncomeService.getWeekIndex now (Order.effectiveDate o)).
  destruct (negb (w =? -1)%Z && (w <? 4)%Z) eqn:G; cbn [fst snd].
  - rewrite !updateAt_lookup. split; reflexivity.
  - destruct (Z.eqb_spec w (Z.of_nat i)) as [E|E]; [|split; reflexivity].
    exfalso. apply andb_false_iff in G as [G|G].
    + apply negb_false_iff, Z.eqb_eq in G. lia.
    + apply Z.ltb_ge in G. lia.
Qed.

Lemma weeklyStep_fold (now : Z) (l : list Order.t) (i : nat) :
  (i < 4)%nat ->
  forall (es : list Q) (cs : list nat) (q : Q) (c : nat),
    es !! i = Some q -> cs !! i = Some c ->
    (exists q',
        (fold_left (IncomeService.weeklyStep now) l (es, cs)).1 !! i = Some q'
        /\ q' == q + sumFees (List.filter (inWeek now i) l))
    /\ (fold_left (IncomeService.weeklyStep now) l (es, cs)).2 !! i
       = Some (c + count (inWeek now i) l)%nat.
Proof.
  intros Hi. induction l as [|o l IH]; intros es cs q c Hq Hc.
  - cbn. split; [exists q; split; [assumption | ring]|].
    rewrite Hc. f_equal. unfold count. simpl. lia.
  - cbn [fold_left].
    destruct (weeklyStep_lookup now o es cs i Hi) as [He Hn].
    destruct (IncomeService.weeklyStep now (es, cs) o) as [es' cs'] eqn:E.
    cbn [fst snd] in He, Hn.
    unfold count. cbn [List.filter].
    destruct (inWeek now i o).
    + rewrite Hq in He. rewrite Hc in Hn.
      cbn [fmap option_fmap option_map] in He, Hn.
      destruct (IH es' cs' _ _ He Hn) as [(q' & Hq' & Eq') Hc'].
      split.
      * exists q'. split; [assumption|]. rewrite Eq'.
        unfold sumFees. cbn [fold_right]. ring.
      * rewrite Hc'. f_equal. unfold count. cbn [length]. lia.
    + rewrite Hq in He. rewrite Hc in Hn.
      apply (IH es' cs' _ _ He Hn).
Qed.

Lemma updateAt_length {A} (w : Z) (f : A -> A) (l : list A) :
  length (JSArray.updateAt w f l) = length l.
Proof.
  unfold JSArray.updateAt. destruct (w <? 0)%Z; [reflexivity|].
  apply length_alter.
Qed.

Lemma weeklyStep_fold_length (now : Z) (l : list Order.t) (es : list Q)
    (cs : list nat) :
  length (fold_left (IncomeService.weeklyStep now) l (es, cs)).1 = length es
  /\ length (fold_left (IncomeService.weeklyStep now) l (es, cs)).2 = length cs.
Proof.
  revert es cs. induction l as [|o l IH]; intros es cs; cbn [fold_left].
  - split; reflexivity.
  - unfold IncomeService.weeklyStep at 2 4.
    destruct (negb _ && _); cbn [fst snd]; [|apply IH].
    destruct (IH (JSArray.updateAt
                    (IncomeService.getWeekIndex now (Order.effectiveDate o))
                    (fun e => e + Order.fee o) es)
                 (JSArray.updateAt
                    (IncomeService.getWeekIndex now (Order.effectiveDate o))
                    S cs)) as [H1 H2].
    rewrite H1, H2, !updateAt_length. split; reflexivity.
Qed.

(** What the code does: the bucket at array position [i] collects the
    delivered orders whose week index is [i]; every other order leaves it
    alone. *)
Lemma weekly_buckets (now : Z) (s : store) (i : nat) :
  (i < 4)%nat ->
  let t := (IncomeService.getIncomeTrendWeekly now s).1 in
  let delivered := List.filter Order.isDelivered (ordersView s) in
  Trend.labels t = ["Week 1"; "Week 2"; "Week 3"; "Week 4"]
  /\ length (Trend.earnings t) = 4%nat
  /\ length (Trend.orderCounts t) = 4%nat
  /\ Trend.earnings t !! i
     = Some (Num.toFixed2 (sumFees (List.filter (inWeek now i) delivered)))
  /\ Trend.orderCounts t !! i = Some (count (inWeek now i) delivered).
Proof.
  intros Hi t delivered. subst t delivered.
  unfold IncomeService.getIncomeTrendWeekly, ordersView.
  destruct (OrdersService.getAllOrders s) as [orders s'].
  cbn [fst snd Trend.labels Trend.earnings Trend.orderCounts].
  split; [reflexivity|].
  destruct (weeklyStep_fold_length now (List.filter Order.isDelivered orders)
              (repeat 0 4) (repeat O 4)) as [L1 L2].
  split; [rewrite length_fmap; exact L1|]. split; [exact L2|].
  assert (Hq : repeat 0 4 !! i = Some 0)
    by (do 4 (destruct i as [|i]; [reflexivity|]); lia).
  assert (Hc : repeat O 4 !! i = Some O)
    by (do 4 (destruct i as [|i]; [reflexivity|]); lia).
  destruct (weeklyStep_fold now (List.filter Order.isDelivered orders) i Hi
              _ _ _ _ Hq Hc) as [(q' & Hq' & Eq') Hc'].
  split.
  - rewrite list_lookup_fmap, Hq'. cbn. f_equal.
    apply toFixed2_comp. rewrite Eq'. ring.
  - rewrite Hc'. reflexivity.
Qed.

End WeeklyTrend.

(** C5: with a single order, delivered an hour before [now] for 15.00, the
    week index is 0 and the claim puts the 15.00 at array position 3, under
    the newest label "Week 4"; the code puts it at position 0, under the
    oldest label "Week 1". *)
Theorem weekly_trend_newest_week_position :
  let now := scenarioNow in
  let o := Order.mk "O1" "delivered" (Some 15%Q)
             (now - 2 * 3600000) (Some (now - 3600000)) in
  let t := (IncomeService.getIncomeTrendWeekly now (storeOf [o] [] 0%Q)).1 in
  IncomeService.getWeekIndex now (Order.effectiveDate o) = 0
  /\ Trend.labels t = ["Week 1"; "Week 2"; "Week 3"; "Week 4"]
  /\ Trend.earnings t = [(1500 # 100)%Q; (0 # 100)%Q; (0 # 100)%Q; (0 # 100)%Q]
  /\ Trend.orderCounts t = [1%nat; 0%nat; 0%nat; 0%nat]
  /\ Trend.earnings t !! 3%nat <> Some (1500 # 100)%Q.
Proof. vm_compute. repeat split. discriminate. Qed.

(** ** Withdrawals *)

(** The record [submitWithdrawal] creates. *)
Definition newWithdrawal (amount : Q) (accountInfo : string) (now : Z)
  : Withdrawal.t :=
  Withdrawal.mk (IncomeService.withdrawalIdAt now) IncomeService.riderId
    (Num.toFixed2 amount) accountInfo "pending" now None "".

(** The record [updateWithdrawalStatus] leaves in place of [w]. *)
Definition resolved (w : Withdrawal.t) (newStatus notes : string) (now : Z)
  : Withdrawal.t :=
  Withdrawal.mk (Withdrawal.withdrawalId w) (Withdrawal.riderId w)
    (Withdrawal.amount w) (Withdrawal.accountInfo w)
    newStatus (Withdrawal.requestedAt w) (Some now) notes.

Definition hasId (withdrawalId : string) (w : Withdrawal.t) : bool :=
  String.eqb (Withdrawal.withdrawalId w) withdrawalId.

(** Sum of the amounts of the completed withdrawals. *)
Definition sumCompleted (ws : list Withdrawal.t) : Q :=
  fold_right
    (fun w acc =>
       if Withdrawal.hasStatus "completed" w then (Withdrawal.amount w + acc)%Q
       else acc)
    0%Q ws.

(** The invariant of the income document. *)
Definition ledgerConsistent (d : IncomeData.t) : Prop :=
  (sumCompleted (IncomeData.withdrawals d) == IncomeData.totalWithdrawn d)%Q.

Section WithdrawalFacts.
Local Open Scope Q_scope.

Lemma incomeDoc_after_write (now : Z) (so : slot OrdersDoc.t)
    (si : slot IncomeData.t) (d : IncomeData.t) :
  incomeDoc now (mkStore so (DataStore.write si d)) = d.
Proof. reflexivity. Qed.

(** Closed form of [submitWithdrawal]. *)
Lemma submitWithdrawal_eq (amount : Q) (accountInfo : string) (now : Z)
    (s : store) :
  IncomeService.submitWithdrawal amount accountInfo now s
  = let d := incomeDoc now s in
    let balance :=
      Snapshot.availableBalance (IncomeService.getRealTimeIncome now s).1 in
    if Qle_bool amount 0 then (inl InvalidAmountError, warm s)
    else if negb (Qle_bool amount balance)
    then (inl InsufficientBalanceError, warm s)
    else
      (inr (newWithdrawal amount accountInfo now),
       mkStore (ordersSlot (warm s))
         (DataStore.write (incomeSlot (warm s))
            (IncomeData.mk (IncomeData.riderId d)
               (IncomeData.withdrawals d
                ++ [newWithdrawal amount accountInfo now])
               (IncomeData.totalWithdrawn d) now))).
Proof.
  unfold IncomeService.submitWithdrawal.
  rewrite !getRealTimeIncome_eq.
  unfold incomeDoc, ordersView, IncomeService.getIncomeData,
    OrdersService.getAllOrders, OrdersService.getAllOrders_ref.
  destruct_store s;
    repeat match goal with d : OrdersDoc.t |- _ => destruct d as [[?|]] end;
    reflexivity.
Qed.

(** Closed form of [updateWithdrawalStatus]. *)
Lemma updateWithdrawalStatus_eq (withdrawalId newStatus notes : string)
    (now : Z) (s : store) :
  IncomeService.updateWithdrawalStatus withdrawalId newStatus notes now s
  = let d := incomeDoc now s in
    let ws := IncomeData.withdrawals d in
    let s1 := mkStore (ordersSlot s)
                (DataStore.read (incomeSlot s)
                   (IncomeService.defaultData now)).2 in
    match JSArray.findIndex (hasId withdrawalId) ws with
    | None => (None, s1)
    | Some i =>
        match ws !! i with
        | None => (None, s1)
        | Some w =>
            (Some (resolved w newStatus notes now),
             mkStore (ordersSlot s)
               (DataStore.write (incomeSlot s1)
                  (IncomeData.mk (IncomeData.riderId d)
                     (<[i := resolved w newStatus notes now]> ws)
                     (if String.eqb newStatus "completed"
                      then IncomeData.totalWithdrawn d + Withdrawal.amount w
                      else IncomeData.totalWithdrawn d)
                     now)))
        end
    end.
Proof.
  unfold IncomeService.updateWithdrawalStatus, incomeDoc,
    IncomeService.getIncomeData.
  destruct (DataStore.read (incomeSlot s) (IncomeService.defaultData now))
    as [[d h] sl].
  cbn [fst snd]. fold (hasId withdrawalId).
  destruct (JSArray.findIndex (hasId withdrawalId) (IncomeData.withdrawals d))
    as [i|]; [|reflexivity].
  destruct (IncomeData.withdrawals d !! i) as [w|]; reflexivity.
Qed.

Lemma findIndex_lookup {A} (p : A -> bool) (l : list A) (i : nat) :
  JSArray.findIndex p l = Some i ->
  exists x, l !! i = Some x /\ p x = true.
Proof.
  revert i. induction l as [|y l IH]; intros i H; [discriminate|].
  cbn in H. destruct (p y) eqn:E.
  - injection H as <-. exists y. split; [reflexivity | assumption].
  - destruct (JSArray.findIndex p l) as [j|]; [|discriminate].
    injection H as <-. destruct (IH j eq_refl) as (x & Hx & Hp).
    exists x. split; assumption.
Qed.

Lemma findIndex_first {A} (p : A -> bool) (l : list A) (i : nat) :
  JSArray.findIndex p l = Some i ->
  forall j x, (j < i)%nat -> l !! j = Some x -> p x = false.
Proof.
  revert i. induction l as [|y l IH]; intros i H j x Hj Hx; [discriminate|].
  cbn in H. destruct (p y) eqn:E.
  - injection H as <-. lia.
  - destruct (JSArray.findIndex p l) as [k|]; [|discriminate].
    injection H as <-. destruct j as [|j].
    + cbn in Hx. injection Hx as <-. exact E.
    + cbn in Hx. apply (IH k eq_refl j x); [lia | exact Hx].
Qed.

Lemma findIndex_absent {A} (p : A -> bool) (l : list A) :
  List.Forall (fun x => p x = false) l -> JSArray.findIndex p l = None.
Proof.
  induction 1 as [|y l Hy Hl IH]; cbn; [reflexivity|].
  now rewrite Hy, IH.
Qed.

Lemma sumCompleted_app (ws ws' : list Withdrawal.t) :
  sumCompleted (ws ++ ws') == sumCompleted ws + sumCompleted ws'.
Proof.
  induction ws as [|w ws IH]; unfold sumCompleted in *;
    cbn [fold_right app].
  - ring.
  - destruct (Withdrawal.hasStatus "completed" w); rewrite IH; ring.
Qed.

Definition completedAmount (w : Withdrawal.t) : Q :=
  if Withdrawal.hasStatus "completed" w then Withdrawal.amount w else 0.

Lemma sumCompleted_insert (ws : list Withdrawal.t) (i : nat)
    (w w' : Withdrawal.t) :
  ws !! i = Some w ->
  sumCompleted (<[i := w']> ws)
  == sumCompleted ws - completedAmount w + completedAmount w'.
Proof.
  revert i. induction ws as [|x ws IH]; intros i H; [discriminate|].
  unfold sumCompleted in *.
  destruct i as [|i]; cbn [insert list_insert fold_right].
  - injection H as ->. unfold completedAmount.
    destruct (Withdrawal.hasStatus "completed" w),
      (Withdrawal.hasStatus "completed" w'); ring.
  - cbn in H. specialize (IH i H).
    destruct (Withdrawal.hasStatus "completed" x); rewrite IH; ring.
Qed.

End WithdrawalFacts.

Section WithdrawalIds.

Lemma withdrawalIdAt_inj (t t' : Z) :
  IncomeService.withdrawalIdAt t = IncomeService.withdrawalIdAt t' -> t = t'.
Proof.
  unfold IncomeService.withdrawalIdAt. cbn [String.append]. intros H.
  injection H as H.
  apply DecimalZ.to_int_inj.
  pose proof (NilEmpty.isi (Z.to_int t)) as H1.
  pose proof (NilEmpty.isi (Z.to_int t')) as H2.
  rewrite H in H1. rewrite H1 in H2. now injection H2.
Qed.

End WithdrawalIds.

(** A ledger with one withdrawal of 50.00, already completed at instant 500,
    and a running total of 50.00. *)
Definition completedWithdrawal : Withdrawal.t :=
  Withdrawal.mk "WD1" "rider_001" 50%Q "acct" "completed" 100 (Some 500) "paid".

Definition completedLedger : store := storeOf [] [completedWithdrawal] 50%Q.

(** C3, counterexample: a call that rejects the completed withdrawal does
    not fail: it returns the withdrawal with status rejected and a new
    processedAt, and that is what the document then holds. *)
Lemma completed_withdrawal_resolved_again_counterexample :
  let r := IncomeService.updateWithdrawalStatus "WD1" "rejected" "" 2000
             completedLedger in
  Withdrawal.status completedWithdrawal = "completed"
  /\ Withdrawal.processedAt completedWithdrawal = Some 500
  /\ (exists w, r.1 = Some w
                /\ Withdrawal.status w = "rejected"
                /\ Withdrawal.processedAt w = Some 2000
                /\ IncomeData.withdrawals (incomeDoc 2000 r.2) = [w]).
Proof. vm_compute. repeat split. eexists. repeat split. Qed.

(** C3, amended: updateWithdrawalStatus does not look at the current status
    of the withdrawal.  When no withdrawal has the identifier it returns null
    and leaves the document as it is; otherwise it succeeds on the first
    withdrawal with that identifier, whatever its status: the withdrawal
    returned and stored in its place has status = newStatus, processedAt = now
    and notes = notes, and keeps its identifier, amount, account and
    requestedAt; the other withdrawals are untouched. *)
Theorem updateWithdrawalStatus_any_status
    (withdrawalId newStatus notes : string) (now : Z) (s : store) :
  let r :=
    IncomeService.updateWithdrawalStatus withdrawalId newStatus notes now s in
  let ws := IncomeData.withdrawals (incomeDoc now s) in
  (List.Forall (fun w => Withdrawal.withdrawalId w <> withdrawalId) ws ->
     r.1 = None /\ incomeDoc now r.2 = incomeDoc now s)
  /\ (forall i, JSArray.findIndex (hasId withdrawalId) ws = Some i ->
        exists w,
          ws !! i = Some w
          /\ Withdrawal.withdrawalId w = withdrawalId
          /\ (forall j w', (j < i)%nat -> ws !! j = Some w' ->
                Withdrawal.withdrawalId w' <> withdrawalId)
          /\ r.1 = Some (resolved w newStatus notes now)
          /\ Withdrawal.status (resolved w newStatus notes now) = newStatus
          /\ Withdrawal.processedAt (resolved w newStatus notes now) = Some now
          /\ Withdrawal.notes (resolved w newStatus notes now) = notes
          /\ IncomeData.withdrawals (incomeDoc now r.2)
             = <[i := resolved w newStatus notes now]> ws).
Proof.
  intros r ws. subst r ws.
  rewrite updateWithdrawalStatus_eq. cbv zeta.
  split.
  - intros Hall.
    rewrite findIndex_absent.
    + cbn [fst snd]. split; [reflexivity|].
      unfold incomeDoc, IncomeService.getIncomeData.
      destruct_store s; reflexivity.
    + eapply List.Forall_impl; [|exact Hall].
      intros w Hw. now apply String.eqb_neq.
  - intros i Hi. rewrite Hi.
    destruct (findIndex_lookup _ _ _ Hi) as (w & Hw & Hp).
    exists w. rewrite Hw. cbn [fst snd].
    rewrite incomeDoc_after_write.
    split; [reflexivity|]. split; [now apply String.eqb_eq|].
    split; [|repeat split].
    intros j w' Hj Hw'. apply String.eqb_neq.
    exact (findIndex_first _ _ _ Hi j w' Hj Hw').
Qed.

Lemma updateWithdrawalStatus_any_status_witness :
  exists w,
    IncomeData.withdrawals (incomeDoc 2000 completedLedger) !! 0%nat = Some w
    /\ (IncomeService.updateWithdrawalStatus "WD1" "rejected" "" 2000
          completedLedger).1
       = Some (resolved w "rejected" "" 2000).
Proof.
  destruct (updateWithdrawalStatus_any_status "WD1" "rejected" "" 2000
              completedLedger) as [_ H].
  destruct (H 0%nat) as (w & Hw & _ & _ & Hr & _).
  - vm_compute. reflexivity.
  - exists w. split; assumption.
Defined.

Section LedgerInvariant.
Local Open Scope Q_scope.

(** X26: a successful or failed submission keeps the ledger invariant (the
    completed amounts add up to totalWithdrawn) and the running total. *)
Lemma submitWithdrawal_keeps_ledger (amount : Q) (accountInfo : string)
    (now : Z) (s : store) :
  let s' := (IncomeService.submitWithdrawal amount accountInfo now s).2 in
  IncomeData.totalWithdrawn (incomeDoc now s')
  = IncomeData.totalWithdrawn (incomeDoc now s)
  /\ (ledgerConsistent (incomeDoc now s) ->
      ledgerConsistent (incomeDoc now s')).
Proof.
  cbv zeta. rewrite submitWithdrawal_eq. cbv zeta.
  destruct (Qle_bool amount 0); cbn [snd];
    [rewrite incomeDoc_warm; split; [reflexivity | trivial]|].
  destruct (negb (Qle_bool amount _)); cbn [snd];
    [rewrite incomeDoc_warm; split; [reflexivity | trivial]|].
  rewrite incomeDoc_after_write. split; [reflexivity|].
  unfold ledgerConsistent. cbn [IncomeData.withdrawals
                                 IncomeData.totalWithdrawn].
  intros H. rewrite sumCompleted_app, H.
  unfold sumCompleted, newWithdrawal. cbn. ring.
Qed.

(** The queries leave the document alone. *)
Lemma getRealTimeIncome_keeps_ledger (now : Z) (s : store) :
  incomeDoc now (IncomeService.getRealTimeIncome now s).2 = incomeDoc now s.
Proof. rewrite getRealTimeIncome_eq. apply incomeDoc_warm. Qed.

Lemma sumCompleted_perm (ws ws' : list Withdrawal.t) :
  Permutation ws ws' -> sumCompleted ws == sumCompleted ws'.
Proof.
  unfold sumCompleted.
  induction 1 as [|w l l' Hp IH|w w' l|l l' l'' H1 IH1 H2 IH2];
    cbn [fold_right].
  - reflexivity.
  - destruct (Withdrawal.hasStatus "completed" w); rewrite IH; reflexivity.
  - destruct (Withdrawal.hasStatus "completed" w),
      (Withdrawal.hasStatus "completed" w'); ring.
  - now rewrite IH1.
Qed.

(** X28: listing the withdrawals may reorder the array of the document; the
    withdrawals stay the same up to order, and so do the running total and
    the ledger invariant. *)
Lemma getWithdrawalRecords_keeps_ledger (status : string) (now : Z)
    (s : store) :
  let s' := (IncomeService.getWithdrawalRecords status now s).2 in
  IncomeData.totalWithdrawn (incomeDoc now s')
  = IncomeData.totalWithdrawn (incomeDoc now s)
  /\ Permutation (IncomeData.withdrawals (incomeDoc now s'))
       (IncomeData.withdrawals (incomeDoc now s))
  /\ (ledgerConsistent (incomeDoc now s) ->
      ledgerConsistent (incomeDoc now s')).
Proof.
  cbv zeta. unfold ledgerConsistent.
  assert (Hperm : forall d,
             sumCompleted (IncomeData.withdrawals (IncomeService.sortData d))
             == sumCompleted (IncomeData.withdrawals d))
    by (intros d; apply sumCompleted_perm, sortDesc_perm).
  unfold IncomeService.getWithdrawalRecords, incomeDoc,
    IncomeService.getIncomeData.
  destruct (negb (String.eqb status "all"));
    destruct_store s; cbn; repeat split; trivial;
    try (intros H; rewrite <- H; apply Hperm);
    apply sortDesc_perm.
Qed.

(** Resolving a withdrawal that is not yet completed keeps the invariant,
    and the running total moves only when the new status is completed. *)
Lemma updateWithdrawalStatus_keeps_ledger
    (withdrawalId newStatus notes : string) (now : Z) (s : store)
    (i : nat) (w : Withdrawal.t) :
  let ws := IncomeData.withdrawals (incomeDoc now s) in
  let s' := (IncomeService.updateWithdrawalStatus withdrawalId newStatus
               notes now s).2 in
  JSArray.findIndex (hasId withdrawalId) ws = Some i ->
  ws !! i = Some w ->
  Withdrawal.hasStatus "completed" w = false ->
  (IncomeData.totalWithdrawn (incomeDoc now s')
   == IncomeData.totalWithdrawn (incomeDoc now s)
      + (if String.eqb newStatus "completed" then Withdrawal.amount w else 0))
  /\ (ledgerConsistent (incomeDoc now s) ->
      ledgerConsistent (incomeDoc now s')).
Proof.
  cbv zeta. intros Hi Hw Hc.
  rewrite updateWithdrawalStatus_eq. cbv zeta. rewrite Hi, Hw.
  cbn [snd]. rewrite incomeDoc_after_write.
  unfold ledgerConsistent.
  cbn [IncomeData.withdrawals IncomeData.totalWithdrawn].
  rewrite (sumCompleted_insert _ i w _ Hw).
  unfold completedAmount. rewrite Hc.
  unfold Withdrawal.hasStatus, resolved.
  cbn [Withdrawal.status Withdrawal.amount].
  destruct (String.eqb newStatus "completed"); split; try ring;
    intros H; rewrite H; ring.
Qed.

End LedgerInvariant.

(** C2: on the ledger whose only withdrawal is already completed, the
    invariant holds; completing that withdrawal again raises the running
    total to 100.00 while the completed amounts still sum to 50.00, and
    rejecting it leaves the running total at 50.00 while the completed
    amounts sum to 0: either call breaks the invariant. *)
Theorem resolving_completed_breaks_ledger :
  let again :=
    (IncomeService.updateWithdrawalStatus "WD1" "completed" "" 2000
       completedLedger).2 in
  let undone :=
    (IncomeService.updateWithdrawalStatus "WD1" "rejected" "" 2000
       completedLedger).2 in
  ledgerConsistent (incomeDoc 0 completedLedger)
  /\ (IncomeData.totalWithdrawn (incomeDoc 0 again) == 100)%Q
  /\ (sumCompleted (IncomeData.withdrawals (incomeDoc 0 again)) == 50)%Q
  /\ ~ ledgerConsistent (incomeDoc 0 again)
  /\ (IncomeData.totalWithdrawn (incomeDoc 0 undone) == 50)%Q
  /\ (sumCompleted (IncomeData.withdrawals (incomeDoc 0 undone)) == 0)%Q
  /\ ~ ledgerConsistent (incomeDoc 0 undone).
Proof.
  vm_compute. repeat split; intros H; discriminate H.
Qed.

(** ** Withdrawal bounds *)

(** C8, counterexample: with a balance of 20000.00 the core accepts 9.99 and
    10000.01 and creates a pending withdrawal for each; it holds no check of
    the bounds. *)
Lemma core_accepts_out_of_bounds_counterexample :
  let s := storeOf [Order.mk "O1" "delivered" (Some 20000%Q) 0 (Some 0)] [] 0%Q in
  (exists w, (IncomeService.submitWithdrawal (999 # 100)%Q "acct" 1000 s).1 = inr w
             /\ Withdrawal.status w = "pending"
             /\ (Withdrawal.amount w == 999 # 100)%Q)
  /\ (exists w, (IncomeService.submitWithdrawal (1000001 # 100)%Q "acct" 1000 s).1
                = inr w
                /\ Withdrawal.status w = "pending"
                /\ (Withdrawal.amount w == 1000001 # 100)%Q).
Proof. vm_compute. split; eexists; repeat split. Qed.

(** C8, amended: the bounds [10, 10000] are enforced by the boundary
    validator only.  A POST /income/withdraw whose amount is below 10 or above
    10000 is answered with a 400 response by validateWithdrawalRequest, the
    service is not called and the store is untouched; the core
    submitWithdrawal checks only amount > 0 and amount <= availableBalance. *)
Theorem bounds_enforced_at_boundary (q : Q) (accountInfo : bodyAccount)
    (now : Z) (s : store) :
  (q < 10 \/ 10000 < q)%Q ->
  exists error message,
    Boundary.validateWithdrawalRequest (AmountNumber q) accountInfo
    = inl (Rejected 400 error message)
    /\ Boundary.postWithdraw (AmountNumber q) accountInfo now s
       = (Rejected 400 error message, s).
Proof.
  intros H. unfold Boundary.postWithdraw, Boundary.validateWithdrawalRequest.
  destruct (Qle_bool q 0); [do 2 eexists; split; reflexivity|].
  destruct (negb (Num.isValidDecimalPlaces2 q));
    [do 2 eexists; split; reflexivity|].
  destruct (Qle_bool Boundary.minWithdrawal q) eqn:Emin; cbn [negb];
    [|do 2 eexists; split; reflexivity].
  destruct (Qle_bool q Boundary.maxWithdrawal) eqn:Emax; cbn [negb];
    [|do 2 eexists; split; reflexivity].
  apply Qle_bool_iff in Emin, Emax.
  unfold Boundary.minWithdrawal, Boundary.maxWithdrawal in *.
  exfalso. destruct H; lra.
Qed.

Lemma bounds_enforced_at_boundary_witness :
  let s := storeOf [Order.mk "O1" "delivered" (Some 20000%Q) 0 (Some 0)] [] 0%Q in
  (exists error message,
      Boundary.postWithdraw (AmountNumber (999 # 100)%Q) (AccountString "acct")
        1000 s = (Rejected 400 error message, s))
  /\ (exists error message,
      Boundary.postWithdraw (AmountNumber (1000001 # 100)%Q)
        (AccountString "acct") 1000 s = (Rejected 400 error message, s)).
Proof.
  intros s. split.
  - destruct (bounds_enforced_at_boundary (999 # 100)%Q (AccountString "acct")
                1000 s) as (e & m & _ & H).
    + left. vm_compute. reflexivity.
    + exists e, m. exact H.
  - destruct (bounds_enforced_at_boundary (1000001 # 100)%Q
                (AccountString "acct") 1000 s) as (e & m & _ & H).
    + right. vm_compute. reflexivity.
    + exists e, m. exact H.
Defined.

(** The messages the validator gives for the two amounts of the
    specification. *)
Example validator_rejects_9_99 :
  Boundary.validateWithdrawalRequest (AmountNumber (999 # 100)%Q) AccountAbsent
  = inl (Rejected 400 "Amount too low" "Minimum withdrawal amount is $10").
Proof. reflexivity. Qed.

Example validator_rejects_10000_01 :
  Boundary.validateWithdrawalRequest (AmountNumber (1000001 # 100)%Q)
    AccountAbsent
  = inl (Rejected 400 "Amount too high" "Maximum withdrawal amount is $10000").
Proof. reflexivity. Qed.

(** ** Listing the orders *)

(** [data.orders || []]. *)
Definition ordersOf (d : OrdersDoc.t) : list Order.t :=
  match OrdersDoc.orders d with Some l => l | None => [] end.

(** The orders file cannot be read or parsed and nothing is cached. *)
Definition storageUnavailable (s : store) : Prop :=
  cache (ordersSlot s) = None /\ file (ordersSlot s) = FileUnreadable.

(** C9, counterexample: with an unreadable orders file getAllOrders returns
    the empty array like any successful call; the failure does not reach the
    caller. *)
Lemma getAllOrders_swallows_failure_counterexample :
  let s := mkStore (mkSlot None FileUnreadable) (mkSlot None FileMissing) in
  storageUnavailable s /\ OrdersService.getAllOrders s = ([], s)
  /\ (OrdersFile.getAllOrders (OrdersFile.ofSlot (ordersSlot s))).1 = inr [].
Proof. cbn. repeat split. Qed.

(** C9, amended: getAllOrders returns the orders array of the cached
    document when there is one, else of the document in the file, in the
    order the array has there.  Storage unavailability is swallowed, not
    propagated: when the file is missing, and also when it cannot be read or
    parsed, the call returns the empty array.  The one failure that reaches
    the caller is not a storage failure: when the file holds the JSON
    literal null, the call throws a TypeError.  On a store whose documents
    are objects the call never throws. *)
Theorem getAllOrders_spec (s : store) :
  (forall d, cache (ordersSlot s) = Some d -> ordersView s = ordersOf d)
  /\ (forall d, cache (ordersSlot s) = None ->
        file (ordersSlot s) = FileContent d -> ordersView s = ordersOf d)
  /\ (cache (ordersSlot s) = None -> file (ordersSlot s) = FileMissing ->
        ordersView s = [])
  /\ (storageUnavailable s -> ordersView s = [])
  /\ (OrdersFile.getAllOrders (OrdersFile.ofSlot (ordersSlot s))).1
     = inr (ordersView s)
  /\ (forall sl : slot OrdersFile.t,
        (cache sl = None \/ cache sl = Some OrdersFile.Null) ->
        file sl = FileContent OrdersFile.Null ->
        (OrdersFile.getAllOrders sl).1 = inl OrdersFile.TypeError)
  /\ (forall sl : slot OrdersFile.t,
        (cache sl = None \/ cache sl = Some OrdersFile.Null) ->
        file sl = FileMissing \/ file sl = FileUnreadable ->
        (OrdersFile.getAllOrders sl).1 = inr []).
Proof.
  unfold ordersView, OrdersService.getAllOrders,
    OrdersService.getAllOrders_ref, DataStore.read, ordersOf,
    storageUnavailable, OrdersFile.getAllOrders, OrdersFile.read,
    OrdersFile.ofSlot.
  destruct s as [[c f] si]. cbn [ordersSlot cache file].
  split; [|split; [|split; [|split; [|split; [|split]]]]].
  - intros d ->. destruct (OrdersDoc.orders d); reflexivity.
  - intros d -> ->. destruct (OrdersDoc.orders d); reflexivity.
  - intros -> ->. reflexivity.
  - intros [-> ->]. reflexivity.
  - destruct c as [d|]; cbn [option_map].
    + destruct (OrdersDoc.orders d); reflexivity.
    + destruct f as [| |d]; try reflexivity.
      destruct (OrdersDoc.orders d); reflexivity.
  - intros [c' f'] [Hc|Hc] Hf; cbn [cache file] in *; subst; reflexivity.
  - intros [c' f'] [Hc|Hc] [Hf|Hf]; cbn [cache file] in *; subst; reflexivity.
Qed.

Lemma getAllOrders_spec_witness :
  ordersView scenarioStore = scenarioOrders
  /\ ordersView (mkStore (mkSlot None FileUnreadable) (mkSlot None FileMissing))
     = []
  /\ (OrdersFile.getAllOrders (mkSlot None (FileContent OrdersFile.Null))).1
     = inl OrdersFile.TypeError.
Proof.
  split; [|split].
  - destruct (getAllOrders_spec scenarioStore) as (H & _).
    apply (H (OrdersDoc.mk (Some scenarioOrders))). reflexivity.
  - destruct (getAllOrders_spec
                (mkStore (mkSlot None FileUnreadable) (mkSlot None FileMissing)))
      as (_ & _ & _ & H & _).
    apply H. split; reflexivity.
  - destruct (getAllOrders_spec scenarioStore) as (_ & _ & _ & _ & _ & H & _).
    apply H; [left|]; reflexivity.
Defined.

(** ** The recent-orders query and the shared array *)

(** The read operations of the orders service. *)
Inductive query : Type :=
| QAll
| QByStatus (status : string)
| QRecent (limit : Z)
| QStatistics (now : Z).

Definition runQuery (s : store) (q : query) : store :=
  match q with
  | QAll => (OrdersService.getAllOrders s).2
  | QByStatus status => (OrdersService.getOrdersByStatus status s).2
  | QRecent limit => (OrdersService.getRecentOrders limit s).2
  | QStatistics now => (OrdersService.getOrderStatistics now s).2
  end.

Section RecentOrders.

Ltac crush_store s :=
  destruct_store s;
  repeat match goal with d : OrdersDoc.t |- _ => destruct d as [[?|]] end;
  reflexivity.

Lemma getRecentOrders_view (limit : Z) (s : store) :
  ordersView (OrdersService.getRecentOrders limit s).2
  = OrdersService.sortNewestFirst (ordersView s).
Proof. crush_store s. Qed.

Lemma getRecentOrders_result (limit : Z) (s : store) :
  (OrdersService.getRecentOrders limit s).1
  = JSArray.slice0 limit (OrdersService.sortNewestFirst (ordersView s)).
Proof. crush_store s. Qed.

Lemma getAllOrders_view (s : store) :
  ordersView (OrdersService.getAllOrders s).2 = ordersView s.
Proof. crush_store s. Qed.

Lemma getOrdersByStatus_view (status : string) (s : store) :
  ordersView (OrdersService.getOrdersByStatus status s).2 = ordersView s.
Proof.
  unfold OrdersService.getOrdersByStatus.
  pose proof (getAllOrders_view s) as H.
  destruct (OrdersService.getAllOrders s) as [l s'].
  destruct (String.eqb status "all"); exact H.
Qed.

Lemma getOrderStatistics_view (now : Z) (s : store) :
  ordersView (OrdersService.getOrderStatistics now s).2 = ordersView s.
Proof.
  unfold OrdersService.getOrderStatistics.
  pose proof (getAllOrders_view s) as H.
  destruct (OrdersService.getAllOrders s) as [l s']. exact H.
Qed.

Lemma getOrdersByStatus_sorted (status : string) (s : store) :
  StronglySorted (notOlder Order.createdAt) (ordersView s) ->
  StronglySorted (notOlder Order.createdAt)
    (OrdersService.getOrdersByStatus status s).1.
Proof.
  unfold OrdersService.getOrdersByStatus, ordersView.
  destruct (OrdersService.getAllOrders s) as [l s']. cbn [fst].
  intros H. destruct (String.eqb status "all"); cbn [fst];
    [exact H | now apply filter_sorted].
Qed.

(** Once the array is in order, no read operation changes it. *)
Lemma runQuery_sorted_view (s : store) (q : query) :
  StronglySorted (notOlder Order.createdAt) (ordersView s) ->
  ordersView (runQuery s q) = ordersView s.
Proof.
  intros H. destruct q as [|status|limit|now]; cbn [runQuery].
  - apply getAllOrders_view.
  - apply getOrdersByStatus_view.
  - rewrite getRecentOrders_view. now apply sortDesc_sorted_id.
  - apply getOrderStatistics_view.
Qed.

Lemma runQueries_sorted_view (qs : list query) (s : store) :
  StronglySorted (notOlder Order.createdAt) (ordersView s) ->
  ordersView (fold_left runQuery qs s) = ordersView s.
Proof.
  revert s. induction qs as [|q qs IH]; intros s H; cbn [fold_left].
  - reflexivity.
  - rewrite IH; rewrite runQuery_sorted_view; auto.
Qed.

End RecentOrders.

Section RecentOrdersCache.

(** The orders slot holds the document with the array [orders]: in the
    cache, or in the file with nothing cached. *)
Definition holdsOrders (s : store) (orders : list Order.t) : Prop :=
  cache (ordersSlot s) = Some (OrdersDoc.mk (Some orders))
  \/ (cache (ordersSlot s) = None
      /\ file (ordersSlot s) = FileContent (OrdersDoc.mk (Some orders))).

Lemma getRecentOrders_cache (limit : Z) (s : store) (orders : list Order.t) :
  holdsOrders s orders ->
  cache (ordersSlot (OrdersService.getRecentOrders limit s).2)
  = Some (OrdersDoc.mk (Some (OrdersService.sortNewestFirst orders)))
  /\ file (ordersSlot (OrdersService.getRecentOrders limit s).2)
     = file (ordersSlot s).
Proof.
  destruct s as [[c f] si].
  intros [H|[H1 H2]]; cbn [ordersSlot cache file] in *; subst;
    split; reflexivity.
Qed.

(** Once the cached array is in order, no read operation changes the cache
    or the file. *)
Lemma runQuery_sorted_cache (s : store) (q : query) (l : list Order.t) :
  StronglySorted (notOlder Order.createdAt) l ->
  cache (ordersSlot s) = Some (OrdersDoc.mk (Some l)) ->
  cache (ordersSlot (runQuery s q)) = Some (OrdersDoc.mk (Some l))
  /\ file (ordersSlot (runQuery s q)) = file (ordersSlot s).
Proof.
  intros Hs Hc. destruct s as [[c f] si]. cbn [ordersSlot cache] in Hc.
  subst c.
  destruct q as [|status|limit|now]; cbn [runQuery].
  - split; reflexivity.
  - unfold OrdersService.getOrdersByStatus. cbn.
    destruct (String.eqb status "all"); split; reflexivity.
  - unfold OrdersService.getRecentOrders, OrdersService.getAllOrders_ref,
      DataStore.read, DataStore.mutate, OrdersService.sortDoc,
      OrdersService.sortNewestFirst.
    cbn [ordersSlot incomeSlot cache file OrdersDoc.orders option_map snd].
    rewrite (sortDesc_sorted_id Order.createdAt l Hs). split; reflexivity.
  - split; reflexivity.
Qed.

Lemma runQueries_sorted_cache (qs : list query) (s : store)
    (l : list Order.t) :
  StronglySorted (notOlder Order.createdAt) l ->
  cache (ordersSlot s) = Some (OrdersDoc.mk (Some l)) ->
  cache (ordersSlot (fold_left runQuery qs s)) = Some (OrdersDoc.mk (Some l))
  /\ file (ordersSlot (fold_left runQuery qs s)) = file (ordersSlot s).
Proof.
  intros Hs. revert s. induction qs as [|q qs IH]; intros s Hc;
    cbn [fold_left].
  - split; [exact Hc | reflexivity].
  - destruct (runQuery_sorted_cache s q l Hs Hc) as [H1 H2].
    destruct (IH (runQuery s q) H1) as [H3 H4].
    split; [exact H3 | now rewrite H4].
Qed.

End RecentOrdersCache.

(** C10: getRecentOrders sorts the array held by the cache.  When the store
    holds a document with the array [orders] (cached, or in the file and then
    cached by the call), getAllOrders returned [orders] before the call;
    after the call the cached document holds [orders] sorted newest first by
    createdAt, the file is as it was, and both stay so under any further read
    operations, so that getAllOrders now returns the sorted array.  For every
    store, after a call and any further read operations getAllOrders and
    getOrdersByStatus('all') return the orders formerly returned, stably
    sorted newest first, and getOrdersByStatus returns a newest-first list
    for every status. *)
Theorem getRecentOrders_reorders_store (limit : Z) (s : store)
    (later : list query) :
  let s1 := (OrdersService.getRecentOrders limit s).2 in
  let s' := fold_left runQuery later s1 in
  (forall orders,
      holdsOrders s orders ->
      (OrdersService.getAllOrders s).1 = orders
      /\ cache (ordersSlot s1)
         = Some (OrdersDoc.mk (Some (OrdersService.sortNewestFirst orders)))
      /\ cache (ordersSlot s')
         = Some (OrdersDoc.mk (Some (OrdersService.sortNewestFirst orders)))
      /\ file (ordersSlot s') = file (ordersSlot s)
      /\ (OrdersService.getAllOrders s').1
         = OrdersService.sortNewestFirst orders)
  /\ (OrdersService.getAllOrders s').1
     = OrdersService.sortNewestFirst (OrdersService.getAllOrders s).1
  /\ StronglySorted (notOlder Order.createdAt) (OrdersService.getAllOrders s').1
  /\ Permutation (OrdersService.getAllOrders s').1
       (OrdersService.getAllOrders s).1
  /\ (OrdersService.getOrdersByStatus "all" s').1
     = OrdersService.sortNewestFirst (OrdersService.getAllOrders s).1
  /\ (forall status,
        StronglySorted (notOlder Order.createdAt)
          (OrdersService.getOrdersByStatus status s').1).
Proof.
  intros s1 s'.
  assert (Hv : ordersView s' = OrdersService.sortNewestFirst (ordersView s)).
  { subst s' s1. rewrite runQueries_sorted_view; rewrite getRecentOrders_view;
      [reflexivity | apply sortDesc_sorted]. }
  assert (Hs : StronglySorted (notOlder Order.createdAt) (ordersView s'))
    by (rewrite Hv; apply sortDesc_sorted).
  fold (ordersView s') (ordersView s).
  split.
  { intros orders Hh.
    assert (Ho : ordersView s = orders).
    { destruct s as [[c f] si].
      destruct Hh as [H|[H1 H2]]; cbn [ordersSlot cache file] in *; subst;
        reflexivity. }
    destruct (getRecentOrders_cache limit s orders Hh) as [Hc Hf].
    fold s1 in Hc, Hf.
    destruct (runQueries_sorted_cache later s1
                (OrdersService.sortNewestFirst orders)
                (sortDesc_sorted _ _) Hc) as [Hc' Hf'].
    fold s' in Hc', Hf'.
    split; [exact Ho|]. split; [exact Hc|]. split; [exact Hc'|].
    split; [now rewrite Hf'|]. now rewrite Hv, Ho. }
  split; [exact Hv|]. split; [exact Hs|].
  split; [rewrite Hv; apply sortDesc_perm|].
  split; [|intros status; now apply getOrdersByStatus_sorted].
  unfold OrdersService.getOrdersByStatus. rewrite <- Hv. unfold ordersView.
  destruct (OrdersService.getAllOrders s') as [l s'']. reflexivity.
Qed.

(** The reordering on two orders stored oldest first: listed oldest first
    before the query for the most recent order, newest first after it. *)
Lemma getRecentOrders_reorders_store_witness :
  let old := Order.mk "O1" "delivered" (Some 15%Q) 1000 None in
  let new := Order.mk "O2" "assigned" (Some 8%Q) 2000 None in
  let s := storeOf [old; new] [] 0%Q in
  (OrdersService.getAllOrders s).1 = [old; new]
  /\ (OrdersService.getAllOrders (OrdersService.getRecentOrders 1 s).2).1
     = [new; old].
Proof.
  intros old new s.
  destruct (getRecentOrders_reorders_store 1 s []) as [H _].
  destruct (H [old; new]) as (H1 & _ & _ & _ & H2);
    [left; reflexivity|].
  split; [exact H1 | exact H2].
Defined.


(** * Money in binary64 *)

(** ** What the services see of the store *)

Section Binary64Store.

Lemma double_incomeDoc_warm (now : Z) (s : Binary64.store) :
  Binary64.incomeDoc now (Binary64.warm s) = Binary64.incomeDoc now s.
Proof. unfold Binary64.incomeDoc. destruct_store s; reflexivity. Qed.

Lemma double_warm_files (s : Binary64.store) :
  file (Binary64.ordersSlot (Binary64.warm s)) = file (Binary64.ordersSlot s)
  /\ file (Binary64.incomeSlot (Binary64.warm s))
     = file (Binary64.incomeSlot s).
Proof. destruct_store s; split; reflexivity. Qed.

(** Closed form of [getRealTimeIncome]. *)
Lemma double_getRealTimeIncome_eq (now : Z) (s : Binary64.store) :
  Binary64.IncomeService.getRealTimeIncome now s
  = (Binary64.snapshotOf now (Binary64.ordersView s)
       (Binary64.incomeDoc now s),
     Binary64.warm s).
Proof.
  unfold Binary64.IncomeService.getRealTimeIncome, Binary64.snapshotOf,
    Binary64.ordersView, Binary64.incomeDoc,
    Binary64.IncomeService.getPendingWithdrawalsCount,
    Binary64.IncomeService.getIncomeData,
    Binary64.OrdersService.getAllOrders.
  destruct_store s; reflexivity.
Qed.

End Binary64Store.

(** ** Real-time income *)

Section Binary64Income.

(** The lifetime sum of the loop is the sum of the fees of the delivered
    orders, added one by one in the order of the array. *)
Lemma double_incomeStep_total (now : Z) (l : list Binary64.Order.t)
    (acc : Binary64.IncomeService.sums) :
  Binary64.IncomeService.sumTotal
    (fold_left (Binary64.IncomeService.incomeStep now) l acc)
  = fold_left Double.add (Binary64.deliveredFees l)
      (Binary64.IncomeService.sumTotal acc).
Proof.
  revert acc. induction l as [|o l IH]; intros acc; [reflexivity|].
  cbn [fold_left]. rewrite IH.
  unfold Binary64.deliveredFees, Binary64.IncomeService.incomeStep.
  cbn [List.filter].
  destruct (Binary64.Order.isDelivered o); reflexivity.
Qed.

(** Subtracting a zero changes nothing that [toFixed] prints. *)
Lemma toFixed2_sub_zero (x : Double.t) (b : bool) :
  Double.toFixed2 (Double.sub x (S754_zero b)) = Double.toFixed2 x.
Proof. destruct x as [[|]| | |]; destruct b; reflexivity. Qed.

Lemma sub_zero (x : Double.t) : Double.sub x Double.zero = x.
Proof. destruct x as [[|]| | |]; reflexivity. Qed.

Lemma eqb_zero (x : Double.t) :
  Double.eqb x Double.zero = true -> exists b, x = S754_zero b.
Proof.
  destruct x as [b|[|]| |[|] m e]; try discriminate.
  intros _. now exists b.
Qed.

(** The three fields of the snapshot that enter the balance equation, each
    rounded from its own unrounded value. *)
Lemma double_realtime_fields (now : Z) (s : Binary64.store) :
  let snap := (Binary64.IncomeService.getRealTimeIncome now s).1 in
  let earned := Double.sum (Binary64.deliveredFees (Binary64.ordersView s)) in
  let withdrawn :=
    Binary64.IncomeData.totalWithdrawn (Binary64.incomeDoc now s) in
  Binary64.Snapshot.totalEarnings snap = Double.toFixed2 earned
  /\ Binary64.Snapshot.totalWithdrawn snap = Double.toFixed2 withdrawn
  /\ Binary64.Snapshot.availableBalance snap
     = Double.toFixed2 (Double.sub earned withdrawn).
Proof.
  cbv zeta. rewrite double_getRealTimeIncome_eq. cbn [fst].
  unfold Binary64.snapshotOf.
  cbn [Binary64.Snapshot.totalEarnings Binary64.Snapshot.totalWithdrawn
       Binary64.Snapshot.availableBalance].
  rewrite double_incomeStep_total.
  repeat split.
Qed.

End Binary64Income.

(** C1, counterexample: one delivered order of fee 1.004 and a persisted
    running total of 0.006 give a snapshot with totalEarnings 1, totalWithdrawn
    0.01 and availableBalance 1, while 1 - 0.01 is 0.99.  With a fee of 0.055
    and a running total of 0.01, a whole number of cents, the difference
    0.055 - 0.01 falls just below 0.045 in binary64: the snapshot has
    totalEarnings 0.06, totalWithdrawn 0.01 and availableBalance 0.04, while
    0.06 - 0.01 is 0.05 to within binary rounding.  In neither snapshot is
    availableBalance equal to totalEarnings - totalWithdrawn. *)
Lemma realtime_balance_rounded_counterexample :
  let order fee := Binary64.Order.mk "O1" "delivered" (Some fee) 0 (Some 0) in
  let snap fee withdrawn :=
    (Binary64.IncomeService.getRealTimeIncome 1000
       (Binary64.storeOf [order fee] [] withdrawn)).1 in
  let a := snap (Double.dec 1004 3) (Double.dec 6 3) in
  let b := snap (Double.dec 55 3) (Double.dec 1 2) in
  Binary64.Snapshot.totalEarnings a = Double.ofZ 1
  /\ Binary64.Snapshot.totalWithdrawn a = Double.dec 1 2
  /\ Binary64.Snapshot.availableBalance a = Double.ofZ 1
  /\ Double.sub (Binary64.Snapshot.totalEarnings a)
       (Binary64.Snapshot.totalWithdrawn a) = Double.dec 99 2
  /\ Double.eqb (Binary64.Snapshot.availableBalance a)
       (Double.sub (Binary64.Snapshot.totalEarnings a)
          (Binary64.Snapshot.totalWithdrawn a)) = false
  /\ Binary64.Snapshot.totalEarnings b = Double.dec 6 2
  /\ Binary64.Snapshot.totalWithdrawn b = Double.dec 1 2
  /\ Binary64.Snapshot.availableBalance b = Double.dec 4 2
  /\ Double.toFixed2
       (Double.sub (Binary64.Snapshot.totalEarnings b)
          (Binary64.Snapshot.totalWithdrawn b)) = Double.dec 5 2
  /\ Double.eqb (Binary64.Snapshot.availableBalance b)
       (Double.sub (Binary64.Snapshot.totalEarnings b)
          (Binary64.Snapshot.totalWithdrawn b)) = false.
Proof. vm_compute. repeat split. Qed.

(** C1, amended: each of the three fields is rounded on its own.  The
    snapshot's totalEarnings is the sum of deliveryFee over the delivered
    orders, added in binary64 in the order of the array and then rounded to
    two decimals; totalWithdrawn is the persisted total rounded to two
    decimals; availableBalance is the binary64 difference of the two
    unrounded values, rounded to two decimals.  When the persisted total is
    zero the fields satisfy availableBalance == totalEarnings -
    totalWithdrawn: totalWithdrawn is 0 and availableBalance is
    totalEarnings. *)
Theorem realtime_balance_rounded_fields (now : Z) (s : Binary64.store) :
  let snap := (Binary64.IncomeService.getRealTimeIncome now s).1 in
  let earned := Double.sum (Binary64.deliveredFees (Binary64.ordersView s)) in
  let withdrawn :=
    Binary64.IncomeData.totalWithdrawn (Binary64.incomeDoc now s) in
  Binary64.Snapshot.totalEarnings snap = Double.toFixed2 earned
  /\ Binary64.Snapshot.totalWithdrawn snap = Double.toFixed2 withdrawn
  /\ Binary64.Snapshot.availableBalance snap
     = Double.toFixed2 (Double.sub earned withdrawn)
  /\ (Double.eqb withdrawn Double.zero = true ->
      Binary64.Snapshot.totalWithdrawn snap = Double.zero
      /\ Binary64.Snapshot.availableBalance snap
         = Binary64.Snapshot.totalEarnings snap
      /\ Binary64.Snapshot.availableBalance snap
         = Double.sub (Binary64.Snapshot.totalEarnings snap)
             (Binary64.Snapshot.totalWithdrawn snap)).
Proof.
  cbv zeta. destruct (double_realtime_fields now s) as (He & Hw & Ha).
  cbv zeta in He, Hw, Ha. rewrite He, Hw, Ha.
  split; [reflexivity|]. split; [reflexivity|]. split; [reflexivity|].
  intros Hz. destruct (eqb_zero _ Hz) as [b ->].
  rewrite toFixed2_sub_zero.
  change (Double.toFixed2 (S754_zero b)) with Double.zero.
  rewrite sub_zero. repeat split.
Qed.

Lemma realtime_balance_rounded_fields_witness :
  let s :=
    Binary64.storeOf
      [Binary64.Order.mk "O1" "delivered" (Some (Double.dec 1004 3)) 0 (Some 0)]
      [] Double.zero in
  let snap := (Binary64.IncomeService.getRealTimeIncome 1000 s).1 in
  Binary64.Snapshot.availableBalance snap
  = Double.sub (Binary64.Snapshot.totalEarnings snap)
      (Binary64.Snapshot.totalWithdrawn snap).
Proof.
  intros s snap.
  apply (realtime_balance_rounded_fields 1000 s). reflexivity.
Defined.

(** ** Order statistics *)

Section Binary64Statistics.

Lemma double_delivered_not_ongoing (o : Binary64.Order.t) :
  Binary64.Order.isDelivered o = true ->
  Binary64.OrdersService.isOngoing o = false.
Proof.
  unfold Binary64.Order.isDelivered, Binary64.OrdersService.isOngoing.
  intros H. apply String.eqb_eq in H. rewrite H. reflexivity.
Qed.

Lemma double_cancelled_not_ongoing (o : Binary64.Order.t) :
  Binary64.isCancelled o = true -> Binary64.OrdersService.isOngoing o = false.
Proof.
  unfold Binary64.isCancelled, Binary64.OrdersService.isOngoing.
  intros H. apply String.eqb_eq in H. rewrite H. reflexivity.
Qed.

Lemma double_cancelled_not_delivered (o : Binary64.Order.t) :
  Binary64.isCancelled o = true -> Binary64.Order.isDelivered o = false.
Proof.
  unfold Binary64.isCancelled, Binary64.Order.isDelivered.
  intros H. apply String.eqb_eq in H. rewrite H. reflexivity.
Qed.

(** The single pass: the counters count, and each of the two sums adds the
    fees of its delivered orders one by one in the order of the array. *)
Lemma double_statsStep_fold (now : Z) (l : list Binary64.Order.t)
    (st : Binary64.Stats.t) :
  let r :=
    fold_left (Binary64.OrdersService.statsStep (Time.utcDay now)) l st in
  Binary64.Stats.total r = Binary64.Stats.total st
  /\ Binary64.Stats.ongoing r
     = (Binary64.Stats.ongoing st
        + count Binary64.OrdersService.isOngoing l)%nat
  /\ Binary64.Stats.completed r
     = (Binary64.Stats.completed st + count Binary64.Order.isDelivered l)%nat
  /\ Binary64.Stats.cancelled r
     = (Binary64.Stats.cancelled st + count Binary64.isCancelled l)%nat
  /\ Binary64.Stats.totalEarnings r
     = fold_left Double.add (Binary64.deliveredFees l)
         (Binary64.Stats.totalEarnings st)
  /\ Binary64.Stats.todayEarnings r
     = fold_left Double.add
         (Binary64.deliveredFees (List.filter (Binary64.isToday now) l))
         (Binary64.Stats.todayEarnings st)
  /\ Binary64.Stats.todayOrders r
     = (Binary64.Stats.todayOrders st + count (Binary64.isToday now) l)%nat.
Proof.
  revert st. induction l as [|o l IH]; intros st.
  - unfold count; cbn. repeat split; lia.
  - cbn [fold_left]. cbv zeta.
    destruct (IH (Binary64.OrdersService.statsStep (Time.utcDay now) st o))
      as (H1 & H2 & H3 & H4 & H5 & H6 & H7).
    rewrite H1, H2, H3, H4, H5, H6, H7. clear IH H1 H2 H3 H4 H5 H6 H7.
    unfold Binary64.OrdersService.statsStep, count, Binary64.deliveredFees.
    cbn [List.filter].
    fold (Binary64.Order.isDelivered o). fold (Binary64.isCancelled o).
    fold (Binary64.isToday now o).
    destruct (Binary64.Order.isDelivered o) eqn:Ed,
      (Binary64.isCancelled o) eqn:Ec,
      (Binary64.OrdersService.isOngoing o) eqn:Eo,
      (Binary64.isToday now o);
      try (rewrite (double_delivered_not_ongoing o Ed) in Eo; discriminate Eo);
      try (rewrite (double_cancelled_not_delivered o Ec) in Ed;
           discriminate Ed);
      try (rewrite (double_cancelled_not_ongoing o Ec) in Eo; discriminate Eo);
      cbn; rewrite ?Ed; cbn; repeat split; lia.
Qed.

End Binary64Statistics.

(** C6, counterexample: on the scenario orders the code counts both delivered
    orders, so completed is 2 and not the 1 of the claim. *)
Lemma order_statistics_scenario_counterexample :
  let st :=
    (Binary64.OrdersService.getOrderStatistics scenarioNow
       (Binary64.scenarioStore scenarioNow)).1 in
  Binary64.Stats.completed st = 2%nat /\ Binary64.Stats.completed st <> 1%nat.
Proof. vm_compute. split; [reflexivity | discriminate]. Qed.

(** C6, amended: getOrderStatistics returns total = number of orders; ongoing,
    completed and cancelled = number of orders whose status is one of
    assigned/picked_up/in_transit, is delivered, is cancelled; totalEarnings =
    the sum of deliveryFee over the delivered orders, added in binary64 in the
    order of the array and then rounded to two decimals; todayEarnings = the
    same over the delivered orders whose effective date is today; todayOrders
    = number of orders of any status whose effective date is today.  On the
    scenario it yields total 3, ongoing 0, completed 2, cancelled 1,
    totalEarnings 23.5, todayEarnings 15, todayOrders 1. *)
Theorem order_statistics_spec :
  (forall (now : Z) (s : Binary64.store),
      let st := (Binary64.OrdersService.getOrderStatistics now s).1 in
      let orders := Binary64.ordersView s in
      Binary64.Stats.total st = length orders
      /\ Binary64.Stats.ongoing st
         = count Binary64.OrdersService.isOngoing orders
      /\ Binary64.Stats.completed st = count Binary64.Order.isDelivered orders
      /\ Binary64.Stats.cancelled st = count Binary64.isCancelled orders
      /\ Binary64.Stats.totalEarnings st
         = Double.toFixed2 (Double.sum (Binary64.deliveredFees orders))
      /\ Binary64.Stats.todayEarnings st
         = Double.toFixed2
             (Double.sum
                (Binary64.deliveredFees
                   (List.filter (Binary64.isToday now) orders)))
      /\ Binary64.Stats.todayOrders st = count (Binary64.isToday now) orders)
  /\ (let st :=
        (Binary64.OrdersService.getOrderStatistics scenarioNow
           (Binary64.scenarioStore scenarioNow)).1 in
      Binary64.Stats.total st = 3%nat /\ Binary64.Stats.ongoing st = 0%nat
      /\ Binary64.Stats.completed st = 2%nat
      /\ Binary64.Stats.cancelled st = 1%nat
      /\ Binary64.Stats.totalEarnings st = Double.dec 2350 2
      /\ Binary64.Stats.todayEarnings st = Double.ofZ 15
      /\ Binary64.Stats.todayOrders st = 1%nat).
Proof.
  split.
  - intros now s st orders. subst st orders.
    unfold Binary64.OrdersService.getOrderStatistics, Binary64.ordersView.
    destruct (Binary64.OrdersService.getAllOrders s) as [orders s'] eqn:E.
    cbn [fst snd].
    destruct (double_statsStep_fold now orders
                (Binary64.Stats.mk (length orders) 0 0 0 Double.zero
                   Double.zero 0))
      as (H1 & H2 & H3 & H4 & H5 & H6 & H7).
    cbn [Binary64.Stats.total Binary64.Stats.ongoing Binary64.Stats.completed
         Binary64.Stats.cancelled Binary64.Stats.totalEarnings
         Binary64.Stats.todayEarnings Binary64.Stats.todayOrders] in *.
    unfold Binary64.OrdersService.roundStats.
    cbn [Binary64.Stats.total Binary64.Stats.ongoing Binary64.Stats.completed
         Binary64.Stats.cancelled Binary64.Stats.totalEarnings
         Binary64.Stats.todayEarnings Binary64.Stats.todayOrders].
    rewrite H5, H6. repeat split; assumption.
  - vm_compute. repeat split.
Qed.

(** ** Submitting a withdrawal *)

Section Binary64Submit.

Lemma double_incomeDoc_after_write (now : Z)
    (so : slot Binary64.OrdersDoc.t) (si : slot Binary64.IncomeData.t)
    (d : Binary64.IncomeData.t) :
  Binary64.incomeDoc now (Binary64.mkStore so (DataStore.write si d)) = d.
Proof. reflexivity. Qed.

(** Closed form of [submitWithdrawal]. *)
Lemma double_submitWithdrawal_eq (amount : Double.t) (accountInfo : string)
    (now : Z) (s : Binary64.store) :
  Binary64.IncomeService.submitWithdrawal amount accountInfo now s
  = let d := Binary64.incomeDoc now s in
    let balance :=
      Binary64.Snapshot.availableBalance
        (Binary64.IncomeService.getRealTimeIncome now s).1 in
    if Double.leb amount Double.zero
    then (inl InvalidAmountError, Binary64.warm s)
    else if Double.ltb balance amount
    then (inl InsufficientBalanceError, Binary64.warm s)
    else
      (inr (Binary64.newWithdrawal amount accountInfo now),
       Binary64.mkStore (Binary64.ordersSlot (Binary64.warm s))
         (DataStore.write (Binary64.incomeSlot (Binary64.warm s))
            (Binary64.IncomeData.mk (Binary64.IncomeData.riderId d)
               (Binary64.IncomeData.withdrawals d
                ++ [Binary64.newWithdrawal amount accountInfo now])
               (Binary64.IncomeData.totalWithdrawn d) now))).
Proof.
  unfold Binary64.IncomeService.submitWithdrawal.
  rewrite !double_getRealTimeIncome_eq.
  unfold Binary64.incomeDoc, Binary64.ordersView,
    Binary64.IncomeService.getIncomeData,
    Binary64.OrdersService.getAllOrders.
  destruct_store s; reflexivity.
Qed.

Lemma double_withdrawalIdAt_inj (t t' : Z) :
  Binary64.IncomeService.withdrawalIdAt t
  = Binary64.IncomeService.withdrawalIdAt t' -> t = t'.
Proof. apply withdrawalIdAt_inj. Qed.

End Binary64Submit.

(** C4, counterexample: two submissions handled in the same millisecond both
    succeed and get the same identifier, so the identifier generated for the
    second one is not unique in the collection. *)
Lemma submitWithdrawal_unique_id_counterexample :
  let s :=
    Binary64.storeOf
      [Binary64.Order.mk "O1" "delivered" (Some (Double.ofZ 100)) 0 (Some 0)]
      [] Double.zero in
  let r1 :=
    Binary64.IncomeService.submitWithdrawal (Double.ofZ 10) "acct" 1000 s in
  let r2 :=
    Binary64.IncomeService.submitWithdrawal (Double.ofZ 20) "acct" 1000 r1.2 in
  exists w1 w2,
    r1.1 = inr w1 /\ r2.1 = inr w2
    /\ Binary64.IncomeData.withdrawals (Binary64.incomeDoc 1000 r2.2)
       = [w1; w2]
    /\ Binary64.Withdrawal.withdrawalId w1 = "WD1000"
    /\ Binary64.Withdrawal.withdrawalId w2 = "WD1000".
Proof. vm_compute. do 2 eexists. repeat split. Qed.

(** C4, amended: submitWithdrawal fails with the invalid-amount error when
    amount <= 0 and, failing that, with the insufficient-balance error when
    amount > availableBalance of getRealTimeIncome at the call; on either
    failure the income document and both files on disk are as before.
    Otherwise it appends exactly one withdrawal and returns it: status
    pending, requestedAt = now, not processed, the amount rounded to two
    decimals, identifier "WD" followed by the millisecond clock reading, which
    differs from the identifier generated at any other clock reading;
    totalWithdrawn is unchanged, lastUpdated is now, and the document with
    the withdrawal appended is what the cache and the income file hold
    afterwards. *)
Theorem submitWithdrawal_spec (amount : Double.t) (accountInfo : string)
    (now : Z) (s : Binary64.store) :
  let r := Binary64.IncomeService.submitWithdrawal amount accountInfo now s in
  let before := Binary64.incomeDoc now s in
  let after := Binary64.incomeDoc now r.2 in
  let balance :=
    Binary64.Snapshot.availableBalance
      (Binary64.IncomeService.getRealTimeIncome now s).1 in
  file (Binary64.ordersSlot r.2) = file (Binary64.ordersSlot s)
  /\ (Double.leb amount Double.zero = true ->
      r.1 = inl InvalidAmountError /\ after = before
      /\ file (Binary64.incomeSlot r.2) = file (Binary64.incomeSlot s))
  /\ (Double.leb amount Double.zero = false ->
      Double.ltb balance amount = true ->
      r.1 = inl InsufficientBalanceError /\ after = before
      /\ file (Binary64.incomeSlot r.2) = file (Binary64.incomeSlot s))
  /\ (Double.leb amount Double.zero = false ->
      Double.ltb balance amount = false ->
      exists w,
        r.1 = inr w
        /\ Binary64.Withdrawal.status w = "pending"
        /\ Binary64.Withdrawal.requestedAt w = now
        /\ Binary64.Withdrawal.processedAt w = None
        /\ Binary64.Withdrawal.amount w = Double.toFixed2 amount
        /\ Binary64.Withdrawal.accountInfo w = accountInfo
        /\ Binary64.Withdrawal.withdrawalId w
           = Binary64.IncomeService.withdrawalIdAt now
        /\ (forall now', now' <> now ->
              Binary64.IncomeService.withdrawalIdAt now'
              <> Binary64.Withdrawal.withdrawalId w)
        /\ Binary64.IncomeData.withdrawals after
           = (Binary64.IncomeData.withdrawals before ++ [w])%list
        /\ Binary64.IncomeData.totalWithdrawn after
           = Binary64.IncomeData.totalWithdrawn before
        /\ Binary64.IncomeData.riderId after
           = Binary64.IncomeData.riderId before
        /\ Binary64.IncomeData.lastUpdated after = now
        /\ cache (Binary64.incomeSlot r.2) = Some after
        /\ file (Binary64.incomeSlot r.2) = FileContent after).
Proof.
  intros r before after balance. subst r before after balance.
  rewrite double_submitWithdrawal_eq. cbv zeta.
  set (balance :=
         Binary64.Snapshot.availableBalance
           (Binary64.IncomeService.getRealTimeIncome now s).1).
  destruct (double_warm_files s) as [Hfo Hfi].
  split.
  { destruct (Double.leb amount Double.zero); [exact Hfo|].
    destruct (Double.ltb balance amount); exact Hfo. }
  split; [|split].
  - intros ->. cbn [fst snd].
    split; [reflexivity|]. split; [apply double_incomeDoc_warm | exact Hfi].
  - intros -> ->. cbn [fst snd].
    split; [reflexivity|]. split; [apply double_incomeDoc_warm | exact Hfi].
  - intros -> ->. cbn [fst snd].
    exists (Binary64.newWithdrawal amount accountInfo now).
    rewrite double_incomeDoc_after_write.
    repeat split.
    intros now' Hne Heq. apply Hne. now apply double_withdrawalIdAt_inj.
Qed.

Lemma submitWithdrawal_spec_witness :
  let s :=
    Binary64.storeOf
      [Binary64.Order.mk "O1" "delivered" (Some (Double.ofZ 100)) 0 (Some 0)]
      [] Double.zero in
  (Binary64.IncomeService.submitWithdrawal Double.zero "acct" 1000 s).1
  = inl InvalidAmountError
  /\ (Binary64.IncomeService.submitWithdrawal (Double.dec 10001 2) "acct"
        1000 s).1
     = inl InsufficientBalanceError
  /\ exists w,
      (Binary64.IncomeService.submitWithdrawal (Double.dec 1005 3) "acct"
         1000 s).1 = inr w
      /\ Binary64.Withdrawal.amount w = Double.ofZ 1
      /\ file (Binary64.incomeSlot
                 (Binary64.IncomeService.submitWithdrawal (Double.dec 1005 3)
                    "acct" 1000 s).2)
         = FileContent
             (Binary64.IncomeData.mk "rider_001" [w] Double.zero 1000).
Proof.
  intros s. split; [|split].
  - apply (submitWithdrawal_spec Double.zero "acct" 1000 s). reflexivity.
  - apply (submitWithdrawal_spec (Double.dec 10001 2) "acct" 1000 s);
      vm_compute; reflexivity.
  - destruct (submitWithdrawal_spec (Double.dec 1005 3) "acct" 1000 s)
      as (_ & _ & _ & H).
    destruct H
      as (w & Hw & _ & _ & _ & Ha & _ & _ & _ & Hws & Ht & Hr & Hl & _ & Hf);
      [vm_compute; reflexivity | vm_compute; reflexivity |].
    exists w. split; [exact Hw|]. split; [rewrite Ha; vm_compute; reflexivity|].
    rewrite Hf.
    destruct (Binary64.incomeDoc 1000
                (Binary64.IncomeService.submitWithdrawal (Double.dec 1005 3)
                   "acct" 1000 s).2) as [rid ws tw lu].
    cbn [Binary64.IncomeData.withdrawals Binary64.IncomeData.totalWithdrawn
         Binary64.IncomeData.riderId Binary64.IncomeData.lastUpdated]
      in Hws, Ht, Hr, Hl.
    rewrite Hws, Ht, Hr, Hl. reflexivity.
Defined.

(** ** Resolving a withdrawal *)

Section Binary64Resolve.

Lemma double_incomeDoc_now (now now' : Z) (s : Binary64.store) :
  Binary64.IncomeData.withdrawals (Binary64.incomeDoc now s)
  = Binary64.IncomeData.withdrawals (Binary64.incomeDoc now' s)
  /\ Binary64.IncomeData.totalWithdrawn (Binary64.incomeDoc now s)
     = Binary64.IncomeData.totalWithdrawn (Binary64.incomeDoc now' s).
Proof. unfold Binary64.incomeDoc. destruct_store s; split; reflexivity. Qed.

(** Closed form of [updateWithdrawalStatus]. *)
Lemma double_updateWithdrawalStatus_eq
    (withdrawalId newStatus notes : string) (now : Z) (s : Binary64.store) :
  Binary64.IncomeService.updateWithdrawalStatus withdrawalId newStatus notes
    now s
  = let d := Binary64.incomeDoc now s in
    let ws := Binary64.IncomeData.withdrawals d in
    let s1 := Binary64.mkStore (Binary64.ordersSlot s)
                (DataStore.read (Binary64.incomeSlot s)
                   (Binary64.IncomeService.defaultData now)).2 in
    match JSArray.findIndex (Binary64.hasId withdrawalId) ws with
    | None => (None, s1)
    | Some i =>
        match ws !! i with
        | None => (None, s1)
        | Some w =>
            (Some (Binary64.resolved w newStatus notes now),
             Binary64.mkStore (Binary64.ordersSlot s)
               (DataStore.write (Binary64.incomeSlot s1)
                  (Binary64.IncomeData.mk (Binary64.IncomeData.riderId d)
                     (<[i := Binary64.resolved w newStatus notes now]> ws)
                     (if String.eqb newStatus "completed"
                      then Double.add (Binary64.IncomeData.totalWithdrawn d)
                             (Binary64.Withdrawal.amount w)
                      else Binary64.IncomeData.totalWithdrawn d)
                     now)))
        end
    end.
Proof.
  unfold Binary64.IncomeService.updateWithdrawalStatus, Binary64.incomeDoc,
    Binary64.IncomeService.getIncomeData.
  destruct (DataStore.read (Binary64.incomeSlot s)
              (Binary64.IncomeService.defaultData now)) as [[d h] sl].
  cbn [fst snd]. fold (Binary64.hasId withdrawalId).
  destruct (JSArray.findIndex (Binary64.hasId withdrawalId)
              (Binary64.IncomeData.withdrawals d)) as [i|]; [|reflexivity].
  destruct (Binary64.IncomeData.withdrawals d !! i) as [w|]; reflexivity.
Qed.

Lemma double_ordersView_ordersSlot (s s' : Binary64.store) :
  Binary64.ordersSlot s' = Binary64.ordersSlot s ->
  Binary64.ordersView s' = Binary64.ordersView s.
Proof.
  unfold Binary64.ordersView, Binary64.OrdersService.getAllOrders.
  intros ->. destruct (DataStore.read _ _) as [[d h] sl]. reflexivity.
Qed.

End Binary64Resolve.

(** X16: resolving a withdrawal to completed replaces the running total by
    the binary64 sum of the total and the amount of the withdrawal, and the
    next real-time snapshot reports that total rounded to two decimals, the
    balance of the earnings less that total, and the total earnings it
    reported before; resolving it to any other status leaves the running
    total alone, and with it the totalWithdrawn and the availableBalance of
    the snapshot. *)
Theorem resolve_then_income (withdrawalId newStatus notes : string)
    (now now' : Z) (s : Binary64.store) (i : nat) (w : Binary64.Withdrawal.t) :
  let ws := Binary64.IncomeData.withdrawals (Binary64.incomeDoc now s) in
  let total := Binary64.IncomeData.totalWithdrawn (Binary64.incomeDoc now s) in
  let s' :=
    (Binary64.IncomeService.updateWithdrawalStatus withdrawalId newStatus
       notes now s).2 in
  let total' :=
    Binary64.IncomeData.totalWithdrawn (Binary64.incomeDoc now' s') in
  let earned := Double.sum (Binary64.deliveredFees (Binary64.ordersView s)) in
  let before := (Binary64.IncomeService.getRealTimeIncome now' s).1 in
  let after := (Binary64.IncomeService.getRealTimeIncome now' s').1 in
  JSArray.findIndex (Binary64.hasId withdrawalId) ws = Some i ->
  ws !! i = Some w ->
  total'
  = (if String.eqb newStatus "completed"
     then Double.add total (Binary64.Withdrawal.amount w)
     else total)
  /\ Binary64.Snapshot.totalWithdrawn after = Double.toFixed2 total'
  /\ Binary64.Snapshot.availableBalance after
     = Double.toFixed2 (Double.sub earned total')
  /\ Binary64.Snapshot.totalEarnings after
     = Binary64.Snapshot.totalEarnings before
  /\ (String.eqb newStatus "completed" = false ->
      Binary64.Snapshot.totalWithdrawn after
      = Binary64.Snapshot.totalWithdrawn before
      /\ Binary64.Snapshot.availableBalance after
         = Binary64.Snapshot.availableBalance before).
Proof.
  cbv zeta. intros Hi Hw.
  destruct (double_realtime_fields now' s) as (He0 & Hw0 & Ha0).
  destruct (double_realtime_fields now'
              (Binary64.IncomeService.updateWithdrawalStatus withdrawalId
                 newStatus notes now s).2) as (He1 & Hw1 & Ha1).
  rewrite He0, Hw0, Ha0, He1, Hw1, Ha1. clear He0 Hw0 Ha0 He1 Hw1 Ha1.
  destruct (double_incomeDoc_now now now' s) as [_ Ht]. rewrite <- Ht.
  rewrite double_updateWithdrawalStatus_eq. cbv zeta. rewrite Hi, Hw.
  cbn [snd]. rewrite double_incomeDoc_after_write.
  cbn [Binary64.IncomeData.totalWithdrawn].
  match goal with
  | |- context [Binary64.ordersView
                  (Binary64.mkStore (Binary64.ordersSlot s) ?x)] =>
      rewrite (double_ordersView_ordersSlot s
                 (Binary64.mkStore (Binary64.ordersSlot s) x) eq_refl)
  end.
  split; [reflexivity|]. split; [reflexivity|]. split; [reflexivity|].
  split; [reflexivity|]. intros ->. split; reflexivity.
Qed.

(** Completing a withdrawal of 20.2 on a running total of 10.1 leaves a
    running total of 30.299999999999997. *)
Lemma resolve_then_income_witness :
  let w :=
    Binary64.Withdrawal.mk "WD1" "rider_001" (Double.dec 202 1) "acct"
      "pending" 100 None "" in
  let s :=
    Binary64.storeOf
      [Binary64.Order.mk "O1" "delivered" (Some (Double.ofZ 100)) 0 (Some 0)]
      [w] (Double.dec 101 1) in
  Binary64.IncomeData.totalWithdrawn
    (Binary64.incomeDoc 3000
       (Binary64.IncomeService.updateWithdrawalStatus "WD1" "completed" ""
          2000 s).2)
  = Double.dec 30299999999999997 15.
Proof.
  intros w s.
  destruct (resolve_then_income "WD1" "completed" "" 2000 3000 s 0%nat w)
    as [H _]; [reflexivity | reflexivity |].
  rewrite H. vm_compute. reflexivity.
Defined.

(** ** Daily income trend *)

Section Binary64Daily.

(** A bucket that a step feeds with the selected orders holds, after the
    loop, what it held before with their fees added one by one, and their
    number more. *)
Lemma double_bucket_fold
    (step : list Double.t * list nat -> Binary64.Order.t
            -> list Double.t * list nat)
    (sel : Binary64.Order.t -> bool) (i : nat) :
  (forall es cs o,
      (step (es, cs) o).1 !! i
      = (if sel o
         then (fun e => Double.add e (Binary64.Order.fee o)) <$> es !! i
         else es !! i)
      /\ (step (es, cs) o).2 !! i
         = (if sel o then S <$> cs !! i else cs !! i)) ->
  forall (l : list Binary64.Order.t) (es : list Double.t) (cs : list nat)
         (q : Double.t) (c : nat),
    es !! i = Some q -> cs !! i = Some c ->
    (fold_left step l (es, cs)).1 !! i
    = Some (fold_left Double.add
              (map Binary64.Order.fee (List.filter sel l)) q)
    /\ (fold_left step l (es, cs)).2 !! i = Some (c + count sel l)%nat.
Proof.
  intros Hstep. induction l as [|o l IH]; intros es cs q c Hq Hc.
  - cbn [fold_left fst snd List.filter map]. unfold count.
    cbn [List.filter length]. split; [exact Hq|].
    rewrite Hc. f_equal. lia.
  - cbn [fold_left]. destruct (Hstep es cs o) as [He Hn].
    destruct (step (es, cs) o) as [es' cs']. cbn [fst snd] in He, Hn.
    unfold count. cbn [List.filter]. rewrite Hq in He. rewrite Hc in Hn.
    destruct (sel o).
    + cbn [fmap option_fmap option_map] in He, Hn.
      destruct (IH es' cs' _ _ He Hn) as [Hq' Hc'].
      split; [exact Hq'|].
      rewrite Hc'. f_equal. unfold count. cbn [length]. lia.
    + apply (IH es' cs' _ _ He Hn).
Qed.

Lemma double_dailyStep_lookup (isoDate : Z -> string) (labels : list string)
    (o : Binary64.Order.t) (es : list Double.t) (cs : list nat) (i : nat) :
  let step := Binary64.IncomeService.dailyStep isoDate labels in
  let sel := Binary64.inBucket isoDate labels i in
  (step (es, cs) o).1 !! i
  = (if sel o
     then (fun e => Double.add e (Binary64.Order.fee o)) <$> es !! i
     else es !! i)
  /\ (step (es, cs) o).2 !! i = (if sel o then S <$> cs !! i else cs !! i).
Proof.
  cbv zeta. unfold Binary64.IncomeService.dailyStep, Binary64.inBucket.
  destruct (JSArray.findIndex _ labels) as [j|]; cbn [fst snd];
    [|split; reflexivity].
  destruct (Nat.eqb_spec j i) as [->|Hne].
  - rewrite !list_lookup_alter_eq. split; reflexivity.
  - rewrite !list_lookup_alter_ne by exact Hne. split; reflexivity.
Qed.

(** In a list without repetition the first position of a label is its
    position. *)
Lemma findIndex_NoDup (labels : list string) (i : nat) (l d : string) :
  List.NoDup labels -> labels !! i = Some l ->
  match JSArray.findIndex (fun x => String.eqb x d) labels with
  | Some j => Nat.eqb j i
  | None => false
  end = String.eqb d l.
Proof.
  intros Hnd. revert i. induction Hnd as [|x r Hx Hnd IH]; intros i Hl;
    [discriminate|].
  cbn [JSArray.findIndex].
  destruct i as [|i]; cbn in Hl.
  - injection Hl as ->. rewrite (String.eqb_sym l d).
    destruct (String.eqb d l); [reflexivity|].
    destruct (JSArray.findIndex _ r); reflexivity.
  - destruct (String.eqb_spec x d) as [->|Hne].
    + cbn [Nat.eqb]. symmetry. apply String.eqb_neq. intros ->.
      apply Hx. apply list_elem_of_In. eapply list_elem_of_lookup_2. exact Hl.
    + specialize (IH i Hl).
      destruct (JSArray.findIndex _ r) as [j|]; cbn [option_map Nat.eqb];
        exact IH.
Qed.

End Binary64Daily.

(** X20: the daily trend carries the seven labels it was given and seven
    buckets.  The bucket at a position holds the number of the delivered
    orders whose date string, that of deliveredAt or else of createdAt, is
    found first at that position among the labels, and the sum of their
    fees, added in binary64 in the order of the array and then rounded to
    two decimals; an order whose date is not among the labels is in no
    bucket.  When no label occurs twice, the bucket of a label holds the
    delivered orders of that date. *)
Theorem daily_buckets (isoDate : Z -> string) (labels : list string)
    (s : Binary64.store) (i : nat) :
  length labels = 7%nat ->
  (i < 7)%nat ->
  let t :=
    (Binary64.IncomeService.getIncomeTrendDaily isoDate labels s).1 in
  let delivered :=
    List.filter Binary64.Order.isDelivered (Binary64.ordersView s) in
  let dateOf o := isoDate (Time.utcDay (Binary64.Order.effectiveDate o)) in
  let bucket := List.filter (Binary64.inBucket isoDate labels i) delivered in
  Binary64.Trend.labels t = labels
  /\ length (Binary64.Trend.earnings t) = 7%nat
  /\ length (Binary64.Trend.orderCounts t) = 7%nat
  /\ Binary64.Trend.earnings t !! i
     = Some (Double.toFixed2 (Double.sum (map Binary64.Order.fee bucket)))
  /\ Binary64.Trend.orderCounts t !! i = Some (length bucket)
  /\ (forall o, In o bucket -> labels !! i = Some (dateOf o))
  /\ (forall l, List.NoDup labels -> labels !! i = Some l ->
        bucket = List.filter (fun o => String.eqb (dateOf o) l) delivered).
Proof.
  intros Hlen Hi. cbv zeta.
  unfold Binary64.IncomeService.getIncomeTrendDaily, Binary64.ordersView.
  destruct (Binary64.OrdersService.getAllOrders s) as [orders s'].
  cbn [fst snd Binary64.Trend.labels Binary64.Trend.earnings
       Binary64.Trend.orderCounts].
  set (delivered := List.filter Binary64.Order.isDelivered orders).
  assert (Hq : repeat Double.zero 7 !! i = Some Double.zero)
    by (do 7 (destruct i as [|i]; [reflexivity|]); lia).
  assert (Hc : repeat O 7 !! i = Some O)
    by (do 7 (destruct i as [|i]; [reflexivity|]); lia).
  assert (Hlens : forall l es cs,
             length es = 7%nat -> length cs = 7%nat ->
             length (fold_left (Binary64.IncomeService.dailyStep isoDate labels)
                       l (es, cs)).1 = 7%nat
             /\ length (fold_left
                          (Binary64.IncomeService.dailyStep isoDate labels)
                          l (es, cs)).2 = 7%nat).
  { induction l as [|o l IH]; intros es cs He Hn; cbn [fold_left];
      [split; assumption|].
    unfold Binary64.IncomeService.dailyStep at 2 4.
    destruct (JSArray.findIndex _ labels); cbn [fst snd];
      apply IH; rewrite ?length_alter; assumption. }
  destruct (Hlens delivered (repeat Double.zero 7) (repeat O 7)
              eq_refl eq_refl) as [Hl1 Hl2].
  destruct (double_bucket_fold
              (Binary64.IncomeService.dailyStep isoDate labels)
              (Binary64.inBucket isoDate labels i) i
              (fun es cs o => double_dailyStep_lookup isoDate labels o es cs i)
              delivered _ _ _ _ Hq Hc) as [Hq' Hc'].
  split; [reflexivity|].
  split; [now rewrite length_map|]. split; [exact Hl2|].
  split; [rewrite list_lookup_fmap, Hq'; reflexivity|].
  split; [rewrite Hc'; reflexivity|].
  split.
  - intros o Hin. apply List.filter_In in Hin as [_ Hb].
    unfold Binary64.inBucket in Hb.
    destruct (JSArray.findIndex _ labels) as [j|] eqn:Hj; [|discriminate].
    apply Nat.eqb_eq in Hb. subst j.
    destruct (findIndex_lookup _ _ _ Hj) as (l & Hl & Heq).
    apply String.eqb_eq in Heq. now rewrite Hl, Heq.
  - intros l Hnd Hl. apply List.filter_ext. intros o.
    unfold Binary64.inBucket. apply (findIndex_NoDup labels i l _ Hnd Hl).
Qed.

(** Day numbers printed in decimal stand for the ISO dates. *)
Definition decimalDay (d : Z) : string := NilEmpty.string_of_int (Z.to_int d).

(** On the scenario, with the labels of the seven days up to today: O1,
    delivered today, is in the last bucket; O2, delivered ten days ago, is
    in none. *)
Lemma daily_buckets_witness :
  let today := Time.utcDay scenarioNow in
  let labels := map (fun k => decimalDay (today - k)) [6; 5; 4; 3; 2; 1; 0] in
  let t :=
    (Binary64.IncomeService.getIncomeTrendDaily decimalDay labels
       (Binary64.scenarioStore scenarioNow)).1 in
  Binary64.Trend.orderCounts t !! 6%nat = Some 1%nat
  /\ Binary64.Trend.earnings t !! 6%nat = Some (Double.ofZ 15)
  /\ Binary64.Trend.orderCounts t = [0; 0; 0; 0; 0; 0; 1]%nat.
Proof.
  intros today labels t.
  destruct (daily_buckets decimalDay labels
              (Binary64.scenarioStore scenarioNow) 6%nat)
    as (_ & _ & _ & He & Hc & _); [reflexivity | lia |].
  fold t in He, Hc.
  split; [rewrite Hc; vm_compute; reflexivity|].
  split; [rewrite He; vm_compute; reflexivity|].
  vm_compute. reflexivity.
Defined.

(** * Further properties of the services *)

(** ** The store under reads and writes *)

(** [clearCache()] without a file name. *)
Definition clearAllCache (s : store) : store :=
  mkStore (DataStore.clearCache (ordersSlot s))
          (DataStore.clearCache (incomeSlot s)).

(** The calls of the two services that only read. *)
Inductive readCall : Type :=
| RAllOrders
| RByStatus (status : string)
| ROrderById (orderId : string)
| RDateRange (startDate endDate : Z)
| RRecent (limit : Z)
| RStatistics (now : Z)
| RRealTimeIncome (now : Z)
| RTrendWeekly (now : Z)
| RWithdrawalRecords (status : string) (now : Z)
| RPendingCount (now : Z).

Definition runRead (s : store) (c : readCall) : store :=
  match c with
  | RAllOrders => (OrdersService.getAllOrders s).2
  | RByStatus status => (OrdersService.getOrdersByStatus status s).2
  | ROrderById orderId => (OrdersService.getOrderById orderId s).2
  | RDateRange a b => (OrdersService.getOrdersByDateRange a b s).2
  | RRecent limit => (OrdersService.getRecentOrders limit s).2
  | RStatistics now => (OrdersService.getOrderStatistics now s).2
  | RRealTimeIncome now => (IncomeService.getRealTimeIncome now s).2
  | RTrendWeekly now => (IncomeService.getIncomeTrendWeekly now s).2
  | RWithdrawalRecords status now =>
      (IncomeService.getWithdrawalRecords status now s).2
  | RPendingCount now => (IncomeService.getPendingWithdrawalsCount now s).2
  end.

Ltac crush_files s :=
  destruct_store s;
  repeat match goal with d : OrdersDoc.t |- _ => destruct d as [[?|]] end;
  split; reflexivity.

Lemma runRead_files (s : store) (c : readCall) :
  file (ordersSlot (runRead s c)) = file (ordersSlot s)
  /\ file (incomeSlot (runRead s c)) = file (incomeSlot s).
Proof.
  destruct c as [|status|orderId|a b|limit|now|now|now|status now|now];
    cbn [runRead].
  - crush_files s.
  - unfold OrdersService.getOrdersByStatus.
    destruct (String.eqb status "all"); crush_files s.
  - crush_files s.
  - crush_files s.
  - crush_files s.
  - crush_files s.
  - rewrite getRealTimeIncome_eq. crush_files s.
  - crush_files s.
  - unfold IncomeService.getWithdrawalRecords.
    destruct (negb (String.eqb status "all")); crush_files s.
  - crush_files s.
Qed.

Lemma ordersView_clear (s : store) :
  ordersView (clearAllCache s)
  = match file (ordersSlot s) with
    | FileContent d => ordersOf d
    | _ => []
    end.
Proof.
  destruct s as [[c f] si]. destruct f as [| |[[l|]]]; reflexivity.
Qed.

Lemma incomeDoc_clear (now : Z) (s : store) :
  incomeDoc now (clearAllCache s)
  = match file (incomeSlot s) with
    | FileContent d => d
    | _ => IncomeService.defaultData now
    end.
Proof.
  destruct s as [so [c f]]. destruct f; reflexivity.
Qed.

(** X2: the reading calls never write a file.  After any sequence of them
    both files are as before, so once the cache is cleared the orders and
    the income document are again those of the files: the reorderings done
    by getRecentOrders and getWithdrawalRecords live in the cache only. *)
Theorem reads_never_write (calls : list readCall) (now : Z) (s : store) :
  let s' := fold_left runRead calls s in
  file (ordersSlot s') = file (ordersSlot s)
  /\ file (incomeSlot s') = file (incomeSlot s)
  /\ ordersView (clearAllCache s') = ordersView (clearAllCache s)
  /\ incomeDoc now (clearAllCache s') = incomeDoc now (clearAllCache s).
Proof.
  cbv zeta.
  assert (H : file (ordersSlot (fold_left runRead calls s)) = file (ordersSlot s)
              /\ file (incomeSlot (fold_left runRead calls s))
                 = file (incomeSlot s)).
  { revert s. induction calls as [|c calls IH]; intros s; cbn [fold_left].
    - split; reflexivity.
    - destruct (IH (runRead s c)) as [H1 H2].
      destruct (runRead_files s c) as [H3 H4].
      rewrite H1, H2, H3, H4. split; reflexivity. }
  destruct H as [Ho Hi]. repeat split; try assumption.
  - rewrite !ordersView_clear, Ho. reflexivity.
  - rewrite !incomeDoc_clear, Hi. reflexivity.
Qed.

(** ** Looking up and filtering orders *)

Definition hasOrderId (orderId : string) (o : Order.t) : bool :=
  String.eqb (Order.orderId o) orderId.

(** The order was created in the inclusive range. *)
Definition inRange (startDate endDate : Z) (o : Order.t) : bool :=
  (startDate <=? Order.createdAt o) && (Order.createdAt o <=? endDate).

(** The order was created before the range starts or after it ends. *)
Definition outOfRange (startDate endDate : Z) (o : Order.t) : bool :=
  (Order.createdAt o <? startDate) || (endDate <? Order.createdAt o).

Section OrderQueries.

Lemma getOrderById_eq (orderId : string) (s : store) :
  OrdersService.getOrderById orderId s
  = (List.find (hasOrderId orderId) (ordersView s),
     (OrdersService.getAllOrders s).2).
Proof.
  unfold OrdersService.getOrderById, ordersView.
  destruct (OrdersService.getAllOrders s) as [l s']. reflexivity.
Qed.

Lemma getOrdersByDateRange_eq (a b : Z) (s : store) :
  OrdersService.getOrdersByDateRange a b s
  = (List.filter (inRange a b) (ordersView s),
     (OrdersService.getAllOrders s).2).
Proof.
  unfold OrdersService.getOrdersByDateRange, ordersView.
  destruct (OrdersService.getAllOrders s) as [l s']. reflexivity.
Qed.

Lemma getOrdersByStatus_eq (status : string) (s : store) :
  (OrdersService.getOrdersByStatus status s).1
  = if String.eqb status "all" then ordersView s
    else List.filter
           (fun o =>
              if String.eqb status "ongoing" then OrdersService.isOngoing o
              else if String.eqb status "completed"
                   then OrdersService.isCompletedOrCancelled o
                   else false)
           (ordersView s).
Proof.
  unfold OrdersService.getOrdersByStatus, ordersView.
  destruct (OrdersService.getAllOrders s) as [l s'].
  destruct (String.eqb status "all"); reflexivity.
Qed.

Lemma find_findIndex {A} (p : A -> bool) (l : list A) :
  List.find p l
  = match JSArray.findIndex p l with Some i => l !! i | None => None end.
Proof.
  induction l as [|x l IH]; cbn; [reflexivity|].
  destruct (p x); [reflexivity|]. rewrite IH.
  destruct (JSArray.findIndex p l); reflexivity.
Qed.

Lemma filter_sublist {A} (p : A -> bool) (l : list A) :
  sublist (List.filter p l) l.
Proof.
  induction l as [|x l IH]; cbn; [constructor|].
  destruct (p x); constructor; exact IH.
Qed.

Lemma filter_split_length {A} (p : A -> bool) (l : list A) :
  (length (List.filter p l) + length (List.filter (fun x => negb (p x)) l)
   = length l)%nat.
Proof.
  induction l as [|x l IH]; cbn; [reflexivity|].
  destruct (p x); cbn; lia.
Qed.

Lemma ongoing_not_completed (o : Order.t) :
  OrdersService.isOngoing o = true ->
  OrdersService.isCompletedOrCancelled o = false.
Proof.
  unfold OrdersService.isOngoing, OrdersService.isCompletedOrCancelled.
  cbn [existsb].
  destruct (String.eqb_spec (Order.status o) "delivered") as [E|_];
    [rewrite E; discriminate|].
  destruct (String.eqb_spec (Order.status o) "cancelled") as [E|_];
    [rewrite E; discriminate|].
  reflexivity.
Qed.

Lemma completed_split (o : Order.t) :
  OrdersService.isCompletedOrCancelled o
  = Order.isDelivered o || isCancelled o.
Proof.
  unfold OrdersService.isCompletedOrCancelled, Order.isDelivered, isCancelled.
  cbn [existsb]. now rewrite orb_false_r.
Qed.

End OrderQueries.

(** X3: the route GET /order/:orderId answers 400 "Invalid order ID" without
    reading the store when the identifier consists of white space only (and
    400 "Missing order ID" when it is empty); otherwise it answers 200 with
    the first order of the array whose orderId equals the parameter exactly,
    and 404 NotFoundError "Order not found" when no order has that orderId.
    So an order whose orderId is blank cannot be fetched. *)
Theorem getOrderById_route (orderId : string) (s : store) :
  match Routes.getOrderById orderId s with
  | (Success c o, s') =>
      c = 200
      /\ JSString.isBlank orderId = false
      /\ Order.orderId o = orderId
      /\ In o (ordersView s)
      /\ exists i, JSArray.findIndex (hasOrderId orderId) (ordersView s) = Some i
                   /\ ordersView s !! i = Some o
  | (Failure c e m, s') =>
      (c = 400 /\ e = "Missing order ID" /\ m = "Order ID is required"
       /\ orderId = "" /\ s' = s)
      \/ (c = 400 /\ e = "Invalid order ID"
          /\ m = "Order ID must be a non-empty string"
          /\ orderId <> "" /\ JSString.isBlank orderId = true /\ s' = s)
      \/ (c = 404 /\ e = "NotFoundError" /\ m = "Order not found"
          /\ JSString.isBlank orderId = false
          /\ List.Forall (fun o => Order.orderId o <> orderId) (ordersView s))
  end.
Proof.
  unfold Routes.getOrderById, OrdersValidators.validateOrderId.
  destruct (String.eqb_spec orderId "") as [->|Hne];
    [left; repeat split|].
  destruct (JSString.isBlank orderId) eqn:Hb;
    [right; left; repeat split; assumption|].
  unfold OrdersController.getOrderById. rewrite getOrderById_eq.
  destruct (List.find (hasOrderId orderId) (ordersView s)) as [o|] eqn:E.
  - apply List.find_some in E as E'. destruct E' as [Hin Hp].
    split; [reflexivity|]. split; [reflexivity|].
    split; [now apply String.eqb_eq|].
    split; [exact Hin|].
    rewrite find_findIndex in E.
    destruct (JSArray.findIndex (hasOrderId orderId) (ordersView s)) as [i|];
      [|discriminate].
    exists i. split; [reflexivity | exact E].
  - right. right. cbn. repeat split. apply List.Forall_forall. intros o Hin.
    apply String.eqb_neq. exact (List.find_none _ _ E o Hin).
Qed.

(** An identifier made of a space and a no-break space is answered 400. *)
Example getOrderById_route_blank (s : store) :
  Routes.getOrderById (String " " (String "194" (String "160" ""))) s
  = (Failure 400 "Invalid order ID" "Order ID must be a non-empty string", s).
Proof. reflexivity. Qed.

(** X4: the ongoing and the completed listing never share an order, each
    keeps the order of the array, and together with the orders of any other
    status they account for every order; their lengths are the counts the
    statistics report: ongoing, and completed plus cancelled. *)
Theorem orders_by_status_partition (now : Z) (s : store) :
  let all := ordersView s in
  let ongoing := (OrdersService.getOrdersByStatus "ongoing" s).1 in
  let completed := (OrdersService.getOrdersByStatus "completed" s).1 in
  let st := (OrdersService.getOrderStatistics now s).1 in
  (OrdersService.getOrdersByStatus "all" s).1 = all
  /\ sublist ongoing all /\ sublist completed all
  /\ List.Forall (fun o => OrdersService.isCompletedOrCancelled o = false) ongoing
  /\ List.Forall (fun o => OrdersService.isOngoing o = false) completed
  /\ (length ongoing + length completed
      + count (fun o => negb (OrdersService.isOngoing o)
                        && negb (OrdersService.isCompletedOrCancelled o)) all
      = length all)%nat
  /\ Stats.ongoing st = length ongoing
  /\ (Stats.completed st + Stats.cancelled st)%nat = length completed.
Proof.
  cbv zeta. rewrite !getOrdersByStatus_eq. cbn [String.eqb Ascii.eqb Bool.eqb].
  unfold OrdersService.getOrderStatistics. fold (ordersView s).
  assert (Hst : (let '(orders, s') := OrdersService.getAllOrders s in
                 (OrdersService.roundStats
                    (fold_left (OrdersService.statsStep (Time.utcDay now))
                       orders (Stats.mk (length orders) 0 0 0 0%Q 0%Q 0)),
                  s')).1
                = OrdersService.roundStats
                    (fold_left (OrdersService.statsStep (Time.utcDay now))
                       (ordersView s)
                       (Stats.mk (length (ordersView s)) 0 0 0 0%Q 0%Q 0))).
  { unfold ordersView.
    destruct (OrdersService.getAllOrders s) as [l s']. reflexivity. }
  rewrite Hst. clear Hst.
  destruct (statsStep_fold now (ordersView s)
              (Stats.mk (length (ordersView s)) 0 0 0 0%Q 0%Q 0))
    as (_ & Ho & Hc & Hx & _).
  cbn [Stats.ongoing Stats.completed Stats.cancelled] in Ho, Hc, Hx.
  unfold OrdersService.roundStats.
  cbn [Stats.ongoing Stats.completed Stats.cancelled].
  rewrite Ho, Hc, Hx. unfold count. cbn [Nat.add].
  set (all := ordersView s). clearbody all. clear.
  split; [reflexivity|].
  split; [apply filter_sublist|]. split; [apply filter_sublist|].
  split.
  { apply List.Forall_forall. intros o Hin.
    apply List.filter_In in Hin as [_ Hin]. now apply ongoing_not_completed. }
  split.
  { apply List.Forall_forall. intros o Hin.
    apply List.filter_In in Hin as [_ Hin].
    destruct (OrdersService.isOngoing o) eqn:E; [|reflexivity].
    rewrite (ongoing_not_completed o E) in Hin. discriminate. }
  split; [|split; [reflexivity|]].
  - induction all as [|o l IH]; cbn [List.filter length]; [reflexivity|].
    destruct (OrdersService.isOngoing o) eqn:E.
    + rewrite (ongoing_not_completed o E). cbn [negb andb length]. lia.
    + destruct (OrdersService.isCompletedOrCancelled o);
        cbn [negb andb length]; lia.
  - induction all as [|o l IH]; cbn [List.filter length]; [reflexivity|].
    pose proof (completed_split o) as Hs.
    destruct (OrdersService.isCompletedOrCancelled o);
      destruct (Order.isDelivered o) eqn:Ed;
      destruct (isCancelled o) eqn:Ec; try discriminate Hs;
      try (rewrite (cancelled_not_delivered o Ec) in Ed; discriminate Ed);
      cbn [length]; lia.
Qed.

(** X5: getOrdersByDateRange keeps the order of the array and returns the
    orders created from startDate to endDate, both ends included; every order
    it leaves out was created strictly before startDate or strictly after
    endDate; a range whose end lies before its start yields no order. *)
Theorem date_range_partition (startDate endDate : Z) (s : store) :
  let all := ordersView s in
  let r := (OrdersService.getOrdersByDateRange startDate endDate s).1 in
  sublist r all
  /\ List.Forall
       (fun o => startDate <= Order.createdAt o /\ Order.createdAt o <= endDate)
       r
  /\ (length r + count (outOfRange startDate endDate) all = length all)%nat
  /\ (endDate < startDate -> r = []).
Proof.
  cbv zeta. rewrite getOrdersByDateRange_eq. cbn [fst].
  set (all := ordersView s). clearbody all.
  split; [apply filter_sublist|]. split; [|split].
  - apply List.Forall_forall. intros o Hin.
    apply List.filter_In in Hin as [_ Hin]. unfold inRange in Hin.
    apply andb_true_iff in Hin as [H1 H2].
    apply Z.leb_le in H1, H2. split; assumption.
  - unfold count. rewrite <- (filter_split_length (inRange startDate endDate) all).
    f_equal. f_equal. apply List.filter_ext. intros o.
    unfold inRange, outOfRange.
    destruct (Z.leb_spec startDate (Order.createdAt o)),
      (Z.leb_spec (Order.createdAt o) endDate),
      (Z.ltb_spec (Order.createdAt o) startDate),
      (Z.ltb_spec endDate (Order.createdAt o)); cbn; try reflexivity; lia.
  - intros Hinv. induction all as [|o l IH]; cbn [List.filter]; [reflexivity|].
    unfold inRange at 1.
    destruct (Z.leb_spec startDate (Order.createdAt o)),
      (Z.leb_spec (Order.createdAt o) endDate); cbn [andb]; try exact IH; lia.
Qed.

Lemma date_range_partition_witness :
  (OrdersService.getOrdersByDateRange 2000 1000 scenarioStore).1 = [].
Proof.
  apply (date_range_partition 2000 1000 scenarioStore). lia.
Defined.

Section RecentOrdersResult.

Lemma sortDesc_stable {A} (key : A -> Z) (k : Z) (l : list A) :
  List.filter (fun x => key x =? k) (JSArray.sortDesc key l)
  = List.filter (fun x => key x =? k) l.
Proof.
  assert (Hins : forall x r,
             List.filter (fun y => key y =? k) (JSArray.insertDesc key x r)
             = List.filter (fun y => key y =? k) (x :: r)).
  { intros x r. induction r as [|y r IH]; cbn [JSArray.insertDesc];
      [reflexivity|].
    destruct (Z.leb_spec (key y) (key x)) as [Hle|Hgt]; [reflexivity|].
    cbn [List.filter] in *. rewrite IH.
    destruct (Z.eqb_spec (key y) k), (Z.eqb_spec (key x) k);
      try reflexivity; lia. }
  induction l as [|x l IH]; cbn [JSArray.sortDesc fold_right]; [reflexivity|].
  fold (JSArray.sortDesc key l). rewrite Hins. cbn [List.filter].
  now rewrite IH.
Qed.

Lemma sorted_app_inv {A} (R : A -> A -> Prop) (l1 l2 : list A) :
  StronglySorted R (l1 ++ l2) ->
  StronglySorted R l1 /\ List.Forall (fun a => List.Forall (R a) l2) l1.
Proof.
  induction l1 as [|x l1 IH]; cbn [app]; intros H.
  - split; constructor.
  - apply StronglySorted_inv in H as [Hs Hx].
    destruct (IH Hs) as [H1 H2].
    apply List.Forall_app in Hx as [Hx1 Hx2].
    split; constructor; assumption.
Qed.

End RecentOrdersResult.

(** X6: for a limit of 0 or more getRecentOrders returns min(limit, number of
    orders) orders, newest first, and they are the newest ones: every order
    left out was created no later than every order returned. *)
Theorem recent_orders_are_newest (limit : Z) (s : store) :
  0 <= limit ->
  let r := (OrdersService.getRecentOrders limit s).1 in
  length r = Nat.min (Z.to_nat limit) (length (ordersView s))
  /\ StronglySorted (notOlder Order.createdAt) r
  /\ exists rest,
      Permutation (r ++ rest) (ordersView s)
      /\ List.Forall
           (fun a =>
              List.Forall (fun b => Order.createdAt b <= Order.createdAt a) rest)
           r.
Proof.
  intros Hl. cbv zeta. rewrite getRecentOrders_result.
  unfold JSArray.slice0. destruct (Z.ltb_spec limit 0) as [|_]; [lia|].
  set (sorted := OrdersService.sortNewestFirst (ordersView s)).
  assert (Hperm : Permutation sorted (ordersView s)) by apply sortDesc_perm.
  assert (Hsorted : StronglySorted (notOlder Order.createdAt) sorted)
    by apply sortDesc_sorted.
  set (k := Z.to_nat limit). clearbody k.
  pose proof (Permutation_length Hperm) as Hlen.
  rewrite <- (firstn_skipn k sorted) in Hsorted, Hperm.
  split; [rewrite List.length_firstn; lia|].
  destruct (sorted_app_inv _ _ _ Hsorted) as [H1 H2].
  split; [exact H1|].
  exists (skipn k sorted). split; [exact Hperm | exact H2].
Qed.

Lemma recent_orders_are_newest_witness :
  length (OrdersService.getRecentOrders 2 scenarioStore).1 = 2%nat.
Proof.
  destruct (recent_orders_are_newest 2 scenarioStore) as [H _]; [lia|].
  exact H.
Defined.

(** X7: the sort of getRecentOrders is stable: in the reordered array the
    orders created at one and the same instant stand in the order they had
    before. *)
Theorem recent_orders_stable (limit k : Z) (s : store) :
  List.filter (fun o => Order.createdAt o =? k)
    (ordersView (OrdersService.getRecentOrders limit s).2)
  = List.filter (fun o => Order.createdAt o =? k) (ordersView s).
Proof.
  rewrite getRecentOrders_view. apply sortDesc_stable.
Qed.

(** X8: the controller of GET /orders/recent replaces a missing, non-numeric
    or zero limit by 10, so limit=0 returns up to ten orders; a negative
    limit is passed on and returns all orders but the -limit oldest. *)
Theorem recent_orders_limit_edges (n : Z) (s : store) :
  n < 0 ->
  OrdersController.getRecentOrders None s
  = OrdersController.getRecentOrders (Some 10) s
  /\ OrdersController.getRecentOrders (Some 0) s
     = OrdersController.getRecentOrders (Some 10) s
  /\ exists orders,
      (OrdersController.getRecentOrders (Some n) s).1
      = Success 200 (n, length orders, orders)
      /\ length orders = Z.to_nat (Z.of_nat (length (ordersView s)) + n)
      /\ orders
         = firstn (length orders)
             (OrdersService.sortNewestFirst (ordersView s)).
Proof.
  intros Hn. split; [reflexivity|]. split; [reflexivity|].
  unfold OrdersController.getRecentOrders.
  destruct (Z.eqb_spec n 0) as [|_]; [lia|].
  pose proof (getRecentOrders_result n s) as Hr.
  destruct (OrdersService.getRecentOrders n s) as [orders s'].
  cbn [fst] in *. exists orders. split; [reflexivity|].
  subst orders. unfold JSArray.slice0.
  destruct (Z.ltb_spec n 0) as [_|]; [|lia].
  set (sorted := OrdersService.sortNewestFirst (ordersView s)).
  assert (Hlen : length sorted = length (ordersView s))
    by apply Permutation_length, sortDesc_perm.
  rewrite Hlen, List.length_firstn, Hlen.
  split; [lia|]. f_equal. lia.
Qed.

Lemma recent_orders_limit_edges_witness :
  exists orders,
    (OrdersController.getRecentOrders (Some (-1)) scenarioStore).1
    = Success 200 (-1, length orders, orders)
    /\ length orders = 2%nat.
Proof.
  destruct (recent_orders_limit_edges (-1) scenarioStore) as (_ & _ & H);
    [lia|].
  destruct H as (orders & H1 & H2 & _).
  exists orders. split; [exact H1 | exact H2].
Defined.

(** ** Updating the status of an order *)

(** The order [updateOrderStatus] leaves in place of [o]. *)
Definition updatedOrder (o : Order.t) (newStatus : string) (now : Z)
  : Order.t :=
  Order.mk (Order.orderId o) newStatus (Order.deliveryFee o)
    (Order.createdAt o)
    (if String.eqb newStatus "delivered" then Some now
     else Order.deliveredAt o).

(** What the order contributes to the earnings. *)
Definition deliveredFee (o : Order.t) : Q :=
  if Order.isDelivered o then Order.fee o else 0%Q.

Section UpdateOrder.
Local Open Scope Q_scope.

(** Closed form of [updateOrderStatus]. *)
Lemma updateOrderStatus_eq (orderId newStatus : string) (now : Z) (s : store) :
  OrdersService.updateOrderStatus orderId newStatus now s
  = let l := ordersView s in
    let s1 := (OrdersService.getAllOrders s).2 in
    match JSArray.findIndex (hasOrderId orderId) l with
    | None => (None, s1)
    | Some i =>
        match l !! i with
        | None => (None, s1)
        | Some o =>
            (Some (updatedOrder o newStatus now),
             mkStore
               (DataStore.write (ordersSlot s1)
                  (OrdersDoc.mk
                     (Some (<[i := updatedOrder o newStatus now]> l))))
               (incomeSlot s))
        end
    end.
Proof.
  unfold OrdersService.updateOrderStatus, ordersView,
    OrdersService.getAllOrders, OrdersService.getAllOrders_ref.
  fold (hasOrderId orderId).
  destruct (DataStore.read (ordersSlot s) OrdersService.defaultDoc)
    as [[d h] sl].
  destruct d as [[l|]]; cbn [OrdersDoc.orders fst snd]; cbv zeta.
  - destruct (JSArray.findIndex (hasOrderId orderId) l) as [i|];
      [|reflexivity].
    destruct (l !! i); reflexivity.
  - reflexivity.
Qed.

Lemma ordersView_after_write (sl : slot OrdersDoc.t) (si : slot IncomeData.t)
    (l : list Order.t) :
  ordersView (mkStore (DataStore.write sl (OrdersDoc.mk (Some l))) si) = l
  /\ ordersView (clearAllCache
                   (mkStore (DataStore.write sl (OrdersDoc.mk (Some l))) si))
     = l.
Proof. split; reflexivity. Qed.

Lemma findIndex_insert {A} (p : A -> bool) (l : list A) (i : nat) (x : A) :
  JSArray.findIndex p l = Some i -> p x = true ->
  JSArray.findIndex p (<[i := x]> l) = Some i.
Proof.
  revert i. induction l as [|y l IH]; intros i H Hx; [discriminate|].
  cbn in H. destruct (p y) eqn:E.
  - injection H as <-. change (<[0%nat := x]> (y :: l)) with (x :: l).
    cbn [JSArray.findIndex]. now rewrite Hx.
  - destruct (JSArray.findIndex p l) as [j|]; [|discriminate].
    injection H as <-.
    change (<[S j := x]> (y :: l)) with (y :: <[j := x]> l).
    cbn [JSArray.findIndex]. rewrite E, (IH j eq_refl Hx). reflexivity.
Qed.

Lemma deliveredEarnings_insert (l : list Order.t) (i : nat) (o o' : Order.t) :
  l !! i = Some o ->
  deliveredEarnings (<[i := o']> l)
  == deliveredEarnings l - deliveredFee o + deliveredFee o'.
Proof.
  unfold deliveredEarnings, deliveredFee, sumFees.
  revert i. induction l as [|x l IH]; intros i H; [discriminate|].
  destruct i as [|i]; cbn [insert list_insert List.filter].
  - injection H as ->.
    destruct (Order.isDelivered o), (Order.isDelivered o');
      cbn [fold_right]; ring.
  - cbn in H. specialize (IH i H).
    destruct (Order.isDelivered x); cbn [fold_right]; rewrite IH; ring.
Qed.

Lemma sorted_by_keys {A} (key : A -> Z) (l l' : list A) :
  map key l = map key l' ->
  StronglySorted (notOlder key) l -> StronglySorted (notOlder key) l'.
Proof.
  revert l'. induction l as [|x l IH]; intros [|x' l'] E H;
    try discriminate; [constructor|].
  cbn in E. injection E as Ex El.
  apply StronglySorted_inv in H as [Hs Hx].
  constructor; [now apply IH|].
  apply List.Forall_forall. intros b Hb.
  apply (List.in_map key) in Hb. change (key <$> l') with (map key l') in Hb.
  rewrite <- El in Hb. apply List.in_map_iff in Hb as (a & Ea & Ha).
  rewrite List.Forall_forall in Hx. specialize (Hx a Ha).
  unfold notOlder in *. lia.
Qed.

Lemma insert_same_key {A} (key : A -> Z) (l : list A) (i : nat) (x x' : A) :
  l !! i = Some x -> key x' = key x ->
  map key (<[i := x']> l) = map key l.
Proof.
  revert i. induction l as [|y l IH]; intros i H E; [discriminate|].
  destruct i as [|i]; cbn in *.
  - injection H as ->. now rewrite E.
  - f_equal. now apply IH.
Qed.

End UpdateOrder.

(** X9: updateOrderStatus returns null and changes neither the orders nor
    the file when no order has the identifier.  Otherwise it rewrites the
    first order with that identifier: the status becomes newStatus,
    deliveredAt becomes now exactly when newStatus is delivered, identifier,
    fee and createdAt stay; the other orders and the length of the array are
    untouched, the new array is written to the file, and getOrderById then
    returns the order as updated. *)
Theorem updateOrderStatus_spec (orderId newStatus : string) (now : Z)
    (s : store) :
  let r := OrdersService.updateOrderStatus orderId newStatus now s in
  let l := ordersView s in
  (List.Forall (fun o => Order.orderId o <> orderId) l ->
     r.1 = None /\ ordersView r.2 = l
     /\ file (ordersSlot r.2) = file (ordersSlot s))
  /\ (forall i, JSArray.findIndex (hasOrderId orderId) l = Some i ->
        exists o,
          l !! i = Some o
          /\ r.1 = Some (updatedOrder o newStatus now)
          /\ Order.status (updatedOrder o newStatus now) = newStatus
          /\ Order.deliveredAt (updatedOrder o newStatus now)
             = (if String.eqb newStatus "delivered" then Some now
                else Order.deliveredAt o)
          /\ ordersView r.2 = <[i := updatedOrder o newStatus now]> l
          /\ length (ordersView r.2) = length l
          /\ ordersView (clearAllCache r.2) = ordersView r.2
          /\ (OrdersService.getOrderById orderId r.2).1
             = Some (updatedOrder o newStatus now)).
Proof.
  cbv zeta. rewrite updateOrderStatus_eq. cbv zeta. split.
  - intros Hall. rewrite findIndex_absent.
    + cbn [fst snd]. split; [reflexivity|].
      split; [apply getAllOrders_view|].
      apply (runRead_files s RAllOrders).
    + eapply List.Forall_impl; [|exact Hall].
      intros o Ho. now apply String.eqb_neq.
  - intros i Hi. rewrite Hi.
    destruct (findIndex_lookup _ _ _ Hi) as (o & Ho & Hp).
    exists o. rewrite Ho. cbn [fst snd].
    destruct (ordersView_after_write
                (ordersSlot (OrdersService.getAllOrders s).2) (incomeSlot s)
                (<[i := updatedOrder o newStatus now]> (ordersView s)))
      as [Hv Hc].
    rewrite Hv, Hc.
    repeat split.
    + apply length_insert.
    + rewrite getOrderById_eq. cbn [fst]. rewrite Hv, find_findIndex.
      rewrite (findIndex_insert _ _ _ _ Hi) by exact Hp.
      apply list_lookup_insert_eq. now apply lookup_lt_Some in Ho.
Qed.

Lemma updateOrderStatus_spec_witness :
  (OrdersService.updateOrderStatus "O9" "delivered" scenarioNow
     scenarioStore).1 = None
  /\ exists o,
      (OrdersService.updateOrderStatus "O3" "delivered" scenarioNow
         scenarioStore).1 = Some (updatedOrder o "delivered" scenarioNow).
Proof.
  split.
  - apply (updateOrderStatus_spec "O9" "delivered" scenarioNow scenarioStore).
    vm_compute. repeat constructor; discriminate.
  - destruct (updateOrderStatus_spec "O3" "delivered" scenarioNow
                scenarioStore) as [_ H].
    destruct (H 2%nat) as (o & _ & Hr & _); [reflexivity|].
    exists o. exact Hr.
Defined.

(** X10: an update after getRecentOrders makes the reordering permanent:
    the array written to the file is the one getRecentOrders sorted, so even
    with the cache cleared the orders come back newest first, at the
    creation dates of the sorted array. *)
Theorem update_persists_recent_order (limit : Z)
    (orderId newStatus : string) (now : Z) (s : store) (i : nat) :
  let sorted := OrdersService.sortNewestFirst (ordersView s) in
  let s1 := (OrdersService.getRecentOrders limit s).2 in
  let s2 := (OrdersService.updateOrderStatus orderId newStatus now s1).2 in
  JSArray.findIndex (hasOrderId orderId) sorted = Some i ->
  map Order.createdAt (ordersView (clearAllCache s2))
  = map Order.createdAt sorted
  /\ StronglySorted (notOlder Order.createdAt) (ordersView (clearAllCache s2))
  /\ file (ordersSlot s2)
     = FileContent (OrdersDoc.mk (Some (ordersView (clearAllCache s2)))).
Proof.
  cbv zeta. intros Hi.
  rewrite updateOrderStatus_eq. cbv zeta.
  rewrite getRecentOrders_view, Hi.
  destruct (findIndex_lookup _ _ _ Hi) as (o & Ho & _). rewrite Ho.
  cbn [snd].
  match goal with |- context [DataStore.write ?sl (OrdersDoc.mk (Some ?l))] =>
    destruct (ordersView_after_write sl
                (incomeSlot (OrdersService.getRecentOrders limit s).2) l)
      as [_ Hc] end.
  rewrite Hc.
  assert (Hk : map Order.createdAt
                 (<[i := updatedOrder o newStatus now]>
                    (OrdersService.sortNewestFirst (ordersView s)))
               = map Order.createdAt
                   (OrdersService.sortNewestFirst (ordersView s)))
    by (apply (insert_same_key Order.createdAt _ i o); [exact Ho | reflexivity]).
  split; [exact Hk|]. split; [|reflexivity].
  eapply sorted_by_keys; [symmetry; exact Hk | apply sortDesc_sorted].
Qed.

Lemma update_persists_recent_order_witness :
  let s1 := (OrdersService.getRecentOrders 1 scenarioStore).2 in
  let s2 := (OrdersService.updateOrderStatus "O3" "delivered" scenarioNow s1).2 in
  StronglySorted (notOlder Order.createdAt) (ordersView (clearAllCache s2)).
Proof.
  apply (update_persists_recent_order 1 "O3" "delivered" scenarioNow
           scenarioStore 1%nat).
  vm_compute. reflexivity.
Defined.

(** X11: updating the status of an order changes the lifetime earnings by
    its fee and nothing else: the fee is added when the new status is
    delivered and taken away when the old status was delivered, so setting a
    delivered order to any other status removes its fee from the earnings. *)
Theorem updateOrderStatus_earnings (orderId newStatus : string) (now : Z)
    (s : store) (i : nat) (o : Order.t) :
  let s' := (OrdersService.updateOrderStatus orderId newStatus now s).2 in
  JSArray.findIndex (hasOrderId orderId) (ordersView s) = Some i ->
  ordersView s !! i = Some o ->
  (deliveredEarnings (ordersView s')
   == deliveredEarnings (ordersView s) - deliveredFee o
      + (if String.eqb newStatus "delivered" then Order.fee o else 0))%Q.
Proof.
  cbv zeta. intros Hi Ho.
  rewrite updateOrderStatus_eq. cbv zeta. rewrite Hi, Ho. cbn [snd].
  match goal with |- context [DataStore.write ?sl (OrdersDoc.mk (Some ?l))] =>
    destruct (ordersView_after_write sl (incomeSlot s) l) as [Hv _] end.
  rewrite Hv, (deliveredEarnings_insert _ i o _ Ho).
  unfold deliveredFee at 2, updatedOrder, Order.isDelivered, Order.fee.
  cbn [Order.status Order.deliveryFee]. reflexivity.
Qed.

Lemma updateOrderStatus_earnings_witness :
  (deliveredEarnings
     (ordersView (OrdersService.updateOrderStatus "O3" "delivered" scenarioNow
                    scenarioStore).2)
   == deliveredEarnings (ordersView scenarioStore) + 5)%Q.
Proof.
  rewrite (updateOrderStatus_earnings "O3" "delivered" scenarioNow
             scenarioStore 2%nat
             (Order.mk "O3" "cancelled" (Some 5%Q)
                (scenarioNow - 2 * Time.ms_per_day) None));
    reflexivity.
Defined.

(** ** Withdrawal records and the pending count *)

(** The withdrawals and the running total of the ledger, as any call reads
    them. *)
Definition ledgerWithdrawals (s : store) : list Withdrawal.t :=
  IncomeData.withdrawals (incomeDoc 0 s).

Definition ledgerTotal (s : store) : Q :=
  IncomeData.totalWithdrawn (incomeDoc 0 s).

(** Earnings minus running total, before rounding. *)
Definition rawBalance (s : store) : Q :=
  (deliveredEarnings (ordersView s) - ledgerTotal s)%Q.

Section Records.

Lemma ledgerWithdrawals_now (now : Z) (s : store) :
  IncomeData.withdrawals (incomeDoc now s) = ledgerWithdrawals s.
Proof. apply incomeDoc_withdrawals_now. Qed.

Lemma ledgerTotal_now (now : Z) (s : store) :
  IncomeData.totalWithdrawn (incomeDoc now s) = ledgerTotal s.
Proof. apply incomeDoc_totalWithdrawn_now. Qed.

Lemma getWithdrawalRecords_eq (status : string) (now : Z) (s : store) :
  (IncomeService.getWithdrawalRecords status now s).1
  = (if String.eqb status "all"
     then IncomeService.sortRecords (ledgerWithdrawals s)
     else IncomeService.sortRecords
            (List.filter (Withdrawal.hasStatus status) (ledgerWithdrawals s)))
  /\ incomeDoc now (IncomeService.getWithdrawalRecords status now s).2
     = (if String.eqb status "all"
        then IncomeService.sortData (incomeDoc now s)
        else incomeDoc now s)
  /\ ordersView (IncomeService.getWithdrawalRecords status now s).2
     = ordersView s.
Proof.
  unfold IncomeService.getWithdrawalRecords, ledgerWithdrawals, incomeDoc,
    ordersView, IncomeService.getIncomeData, OrdersService.getAllOrders,
    OrdersService.getAllOrders_ref.
  destruct (String.eqb status "all"); cbn [negb];
    destruct_store s;
    repeat match goal with d : OrdersDoc.t |- _ => destruct d as [[?|]] end;
    repeat split.
Qed.

Lemma getPendingWithdrawalsCount_eq (now : Z) (s : store) :
  (IncomeService.getPendingWithdrawalsCount now s).1
  = count (Withdrawal.hasStatus "pending") (ledgerWithdrawals s).
Proof.
  unfold IncomeService.getPendingWithdrawalsCount, ledgerWithdrawals,
    incomeDoc, IncomeService.getIncomeData, count.
  destruct_store s; reflexivity.
Qed.

Lemma snapshot_eq (now : Z) (s : store) :
  Snapshot.availableBalance (IncomeService.getRealTimeIncome now s).1
  = Num.toFixed2 (rawBalance s)
  /\ Snapshot.totalEarnings (IncomeService.getRealTimeIncome now s).1
     = Num.toFixed2 (deliveredEarnings (ordersView s))
  /\ Snapshot.totalWithdrawn (IncomeService.getRealTimeIncome now s).1
     = Num.toFixed2 (ledgerTotal s)
  /\ Snapshot.pendingWithdrawals (IncomeService.getRealTimeIncome now s).1
     = count (Withdrawal.hasStatus "pending") (ledgerWithdrawals s).
Proof.
  destruct (realtime_fields now s) as (He & Hw & Ha). cbv zeta in He, Hw, Ha.
  unfold rawBalance. rewrite <- (ledgerTotal_now now s).
  repeat split; try assumption.
  rewrite getRealTimeIncome_eq. cbn [fst snapshotOf Snapshot.pendingWithdrawals].
  unfold count. now rewrite ledgerWithdrawals_now.
Qed.

End Records.

(** X12: the three places that count pending withdrawals agree: the count of
    getPendingWithdrawalsCount, the pendingWithdrawals field of the real-time
    snapshot and the number of records getWithdrawalRecords('pending')
    lists. *)
Theorem pending_count_consistent (now : Z) (s : store) :
  (IncomeService.getPendingWithdrawalsCount now s).1
  = length (IncomeService.getWithdrawalRecords "pending" now s).1
  /\ Snapshot.pendingWithdrawals (IncomeService.getRealTimeIncome now s).1
     = length (IncomeService.getWithdrawalRecords "pending" now s).1.
Proof.
  destruct (getWithdrawalRecords_eq "pending" now s) as [Hr _].
  destruct (snapshot_eq now s) as (_ & _ & _ & Hp).
  rewrite Hr, Hp, getPendingWithdrawalsCount_eq.
  cbn [String.eqb Ascii.eqb Bool.eqb]. unfold count, IncomeService.sortRecords.
  split; symmetry; apply Permutation_length, sortDesc_perm.
Qed.

(** X13: getWithdrawalRecords lists the withdrawals of the asked status, or
    all of them for 'all', each exactly as often as the document holds it,
    newest request first with equal request times in document order.  A
    listing by status leaves the document as it is; the listing of 'all'
    leaves the array of the cached document sorted. *)
Theorem getWithdrawalRecords_spec (status : string) (now k : Z) (s : store) :
  let r := IncomeService.getWithdrawalRecords status now s in
  let ws := ledgerWithdrawals s in
  let asked :=
    if String.eqb status "all" then ws
    else List.filter (Withdrawal.hasStatus status) ws in
  Permutation r.1 asked
  /\ StronglySorted (notOlder Withdrawal.requestedAt) r.1
  /\ List.filter (fun w => Withdrawal.requestedAt w =? k) r.1
     = List.filter (fun w => Withdrawal.requestedAt w =? k) asked
  /\ ledgerWithdrawals r.2
     = (if String.eqb status "all" then r.1 else ws)
  /\ ledgerTotal r.2 = ledgerTotal s.
Proof.
  cbv zeta.
  destruct (getWithdrawalRecords_eq status now s) as (Hr & Hd & _).
  rewrite <- (ledgerWithdrawals_now now
                (IncomeService.getWithdrawalRecords status now s).2).
  rewrite <- (ledgerTotal_now now
                (IncomeService.getWithdrawalRecords status now s).2).
  rewrite Hr, Hd. rewrite <- (ledgerTotal_now now s).
  destruct (String.eqb status "all"); unfold IncomeService.sortRecords;
    cbn [IncomeService.sortData IncomeData.withdrawals IncomeData.totalWithdrawn];
    rewrite ?ledgerWithdrawals_now;
    (split; [apply sortDesc_perm|]); (split; [apply sortDesc_sorted|]);
    (split; [apply sortDesc_stable|]); split; reflexivity.
Qed.

(** ** Submitting and resolving withdrawals *)

(** Several submissions of one amount, one per clock reading. *)
Definition submitAll (amount : Q) (accountInfo : string) (clocks : list Z)
    (s : store) : store :=
  fold_left
    (fun st now => (IncomeService.submitWithdrawal amount accountInfo now st).2)
    clocks s.

Section SubmitResolve.
Local Open Scope Q_scope.

Lemma ordersView_ordersSlot (s s' : store) :
  ordersSlot s = ordersSlot s' -> ordersView s = ordersView s'.
Proof.
  destruct s as [so si], s' as [so' si']. cbn [ordersSlot]. intros <-.
  destruct_slot so;
    repeat match goal with d : OrdersDoc.t |- _ => destruct d as [[?|]] end;
    reflexivity.
Qed.

Lemma incomeDoc_incomeSlot (now : Z) (s s' : store) :
  incomeSlot s = incomeSlot s' -> incomeDoc now s = incomeDoc now s'.
Proof.
  destruct s as [so si], s' as [so' si']. cbn [incomeSlot]. intros <-.
  destruct_slot si; reflexivity.
Qed.

Lemma balance_eq (now : Z) (s : store) :
  Snapshot.availableBalance (IncomeService.getRealTimeIncome now s).1
  = Num.toFixed2 (rawBalance s).
Proof. apply snapshot_eq. Qed.

(** What a submission does to the store, whatever its outcome. *)
Lemma submit_effect (amount : Q) (accountInfo : string) (now : Z) (s : store) :
  let r := IncomeService.submitWithdrawal amount accountInfo now s in
  ordersView r.2 = ordersView s
  /\ ledgerTotal r.2 = ledgerTotal s
  /\ ((exists e, r.1 = inl e) /\ ledgerWithdrawals r.2 = ledgerWithdrawals s
      \/ 0 < amount /\ amount <= Num.toFixed2 (rawBalance s)
         /\ r.1 = inr (newWithdrawal amount accountInfo now)
         /\ ledgerWithdrawals r.2
            = (ledgerWithdrawals s ++ [newWithdrawal amount accountInfo now])%list).
Proof.
  cbv zeta. rewrite submitWithdrawal_eq. cbv zeta. rewrite balance_eq.
  assert (Hw : ordersView (warm s) = ordersView s) by apply ordersView_warm.
  assert (Ht : ledgerTotal (warm s) = ledgerTotal s)
    by (unfold ledgerTotal; now rewrite incomeDoc_warm).
  assert (Hl : ledgerWithdrawals (warm s) = ledgerWithdrawals s)
    by (unfold ledgerWithdrawals; now rewrite incomeDoc_warm).
  destruct (Qle_bool amount 0) eqn:E0; cbn [fst snd].
  { repeat split; try assumption. left. split; [eexists; reflexivity | exact Hl]. }
  destruct (Qle_bool amount (Num.toFixed2 (rawBalance s))) eqn:E1;
    cbn [negb fst snd].
  2:{ repeat split; try assumption.
      left. split; [eexists; reflexivity | exact Hl]. }
  split.
  { rewrite <- Hw. now apply ordersView_ordersSlot. }
  unfold ledgerTotal, ledgerWithdrawals. rewrite incomeDoc_after_write.
  cbn [IncomeData.totalWithdrawn IncomeData.withdrawals].
  rewrite ledgerTotal_now, ledgerWithdrawals_now.
  split; [reflexivity|]. right.
  apply Qle_bool_iff in E1.
  assert (0 < amount).
  { destruct (Qlt_le_dec 0 amount) as [H|H]; [exact H|].
    apply Qle_bool_iff in H. congruence. }
  repeat split; assumption.
Qed.

Lemma submit_success (amount : Q) (accountInfo : string) (now : Z) (s : store) :
  0 < amount -> amount <= Num.toFixed2 (rawBalance s) ->
  let r := IncomeService.submitWithdrawal amount accountInfo now s in
  r.1 = inr (newWithdrawal amount accountInfo now)
  /\ ledgerWithdrawals r.2
     = (ledgerWithdrawals s ++ [newWithdrawal amount accountInfo now])%list.
Proof.
  intros Hpos Hle. cbv zeta.
  destruct (submit_effect amount accountInfo now s) as (_ & _ & [[[e He] _]|H]).
  - exfalso. rewrite submitWithdrawal_eq in He. cbv zeta in He.
    rewrite balance_eq in He.
    destruct (Qle_bool amount 0) eqn:E0;
      [apply Qle_bool_iff in E0; lra|].
    apply Qle_bool_iff in Hle. rewrite Hle in He. discriminate He.
  - destruct H as (_ & _ & H1 & H2). split; assumption.
Qed.

End SubmitResolve.

(** X14: a successful submission shows up at once: the new withdrawal is
    among the records listed for 'pending', the pending count is one higher,
    and the real-time snapshot reports the same earnings, running total and
    available balance as before, since a pending withdrawal is not taken off
    the balance. *)
Theorem submit_then_list (amount : Q) (accountInfo : string) (now now' : Z)
    (s : store) :
  (0 < amount)%Q ->
  (amount <= Snapshot.availableBalance
               (IncomeService.getRealTimeIncome now s).1)%Q ->
  let s' := (IncomeService.submitWithdrawal amount accountInfo now s).2 in
  In (newWithdrawal amount accountInfo now)
     (IncomeService.getWithdrawalRecords "pending" now' s').1
  /\ (IncomeService.getPendingWithdrawalsCount now' s').1
     = S (IncomeService.getPendingWithdrawalsCount now' s).1
  /\ Snapshot.availableBalance (IncomeService.getRealTimeIncome now' s').1
     = Snapshot.availableBalance (IncomeService.getRealTimeIncome now' s).1
  /\ Snapshot.totalEarnings (IncomeService.getRealTimeIncome now' s').1
     = Snapshot.totalEarnings (IncomeService.getRealTimeIncome now' s).1
  /\ Snapshot.totalWithdrawn (IncomeService.getRealTimeIncome now' s').1
     = Snapshot.totalWithdrawn (IncomeService.getRealTimeIncome now' s).1.
Proof.
  intros Hpos Hle. rewrite balance_eq in Hle. cbv zeta.
  destruct (submit_success amount accountInfo now s Hpos Hle) as [_ Hws].
  destruct (submit_effect amount accountInfo now s) as (Hv & Ht & _).
  cbv zeta in Hv, Ht.
  set (s' := (IncomeService.submitWithdrawal amount accountInfo now s).2) in *.
  destruct (getWithdrawalRecords_eq "pending" now' s') as [Hr _].
  split.
  { rewrite Hr. cbn [String.eqb Ascii.eqb Bool.eqb].
    unfold IncomeService.sortRecords.
    eapply Permutation_in; [symmetry; apply sortDesc_perm|].
    rewrite Hws. apply List.filter_In. split; [|reflexivity].
    apply List.in_or_app. right. left. reflexivity. }
  split.
  { rewrite !getPendingWithdrawalsCount_eq, Hws. unfold count.
    rewrite List.filter_app, List.length_app. cbn. lia. }
  destruct (snapshot_eq now' s') as (Ha & He & Hw & _).
  destruct (snapshot_eq now' s) as (Ha0 & He0 & Hw0 & _).
  rewrite Ha, He, Hw, Ha0, He0, Hw0. unfold rawBalance. rewrite Hv, Ht.
  repeat split.
Qed.

Lemma submit_then_list_witness :
  let s := storeOf [Order.mk "O1" "delivered" (Some 100%Q) 0 (Some 0)] [] 0%Q in
  (IncomeService.getPendingWithdrawalsCount 2000
     (IncomeService.submitWithdrawal (2550 # 100)%Q "acct" 1000 s).2).1
  = S (IncomeService.getPendingWithdrawalsCount 2000 s).1.
Proof.
  intros s.
  apply (submit_then_list (2550 # 100)%Q "acct" 1000 2000 s);
    vm_compute; [reflexivity | discriminate].
Defined.

(** X15: pending withdrawals are not reserved against the balance: when a
    submission of an amount is accepted, any number of further submissions of
    that amount are accepted too, each adding its pending withdrawal, while
    the running total and the available balance stay where they were. *)
Theorem pending_not_reserved (amount : Q) (accountInfo : string)
    (clocks : list Z) (now : Z) (s : store) :
  (0 < amount)%Q ->
  (amount <= Snapshot.availableBalance
               (IncomeService.getRealTimeIncome now s).1)%Q ->
  let s' := submitAll amount accountInfo clocks s in
  ledgerWithdrawals s'
  = (ledgerWithdrawals s ++ map (newWithdrawal amount accountInfo) clocks)%list
  /\ ledgerTotal s' = ledgerTotal s
  /\ Snapshot.availableBalance (IncomeService.getRealTimeIncome now s').1
     = Snapshot.availableBalance (IncomeService.getRealTimeIncome now s).1.
Proof.
  intros Hpos Hle. rewrite balance_eq in Hle. cbv zeta.
  rewrite !balance_eq. unfold submitAll.
  revert s Hle. induction clocks as [|t clocks IH]; intros s Hle;
    cbn [fold_left map].
  - rewrite List.app_nil_r. repeat split.
  - destruct (submit_success amount accountInfo t s Hpos Hle) as [_ Hws].
    destruct (submit_effect amount accountInfo t s) as (Hv & Ht & _).
    cbv zeta in Hv, Ht, Hws.
    set (s1 := (IncomeService.submitWithdrawal amount accountInfo t s).2) in *.
    assert (Hb : rawBalance s1 = rawBalance s)
      by (unfold rawBalance; now rewrite Hv, Ht).
    destruct (IH s1) as (H1 & H2 & H3); [now rewrite Hb|].
    rewrite H1, H2, H3, Hws, Ht, Hb, <- List.app_assoc.
    repeat split.
Qed.

Lemma pending_not_reserved_witness :
  let s := storeOf [Order.mk "O1" "delivered" (Some 100%Q) 0 (Some 0)] [] 0%Q in
  length (ledgerWithdrawals (submitAll 100%Q "acct" [1000; 2000; 3000] s))
  = 3%nat.
Proof.
  intros s.
  destruct (pending_not_reserved 100%Q "acct" [1000; 2000; 3000] 0 s)
    as [H _]; [vm_compute; reflexivity | vm_compute; discriminate |].
  rewrite H. reflexivity.
Defined.

Section ResolveEffect.
Local Open Scope Q_scope.

(** What a resolution does to the store. *)
Lemma resolve_effect (withdrawalId newStatus notes : string) (now : Z)
    (s : store) :
  let r :=
    IncomeService.updateWithdrawalStatus withdrawalId newStatus notes now s in
  let ws := ledgerWithdrawals s in
  ordersView r.2 = ordersView s
  /\ match JSArray.findIndex (hasId withdrawalId) ws with
     | None =>
         r.1 = None /\ incomeDoc now r.2 = incomeDoc now s
         /\ ledgerWithdrawals r.2 = ws /\ ledgerTotal r.2 = ledgerTotal s
     | Some i =>
         exists w,
           ws !! i = Some w
           /\ r.1 = Some (resolved w newStatus notes now)
           /\ ledgerWithdrawals r.2
              = <[i := resolved w newStatus notes now]> ws
           /\ ledgerTotal r.2
              = (if String.eqb newStatus "completed"
                 then ledgerTotal s + Withdrawal.amount w
                 else ledgerTotal s)
     end.
Proof.
  cbv zeta. rewrite updateWithdrawalStatus_eq. cbv zeta.
  rewrite ledgerWithdrawals_now, ledgerTotal_now.
  set (s1 := mkStore (ordersSlot s)
               (DataStore.read (incomeSlot s)
                  (IncomeService.defaultData now)).2).
  assert (Hd : forall t, incomeDoc t s1 = incomeDoc t s).
  { intros t. subst s1. unfold incomeDoc, IncomeService.getIncomeData.
    destruct_store s; reflexivity. }
  assert (Hv : ordersView s1 = ordersView s)
    by (apply ordersView_ordersSlot; reflexivity).
  destruct (JSArray.findIndex (hasId withdrawalId) (ledgerWithdrawals s))
    as [i|] eqn:Hi.
  - destruct (findIndex_lookup _ _ _ Hi) as (w & Hw & _). rewrite Hw.
    cbn [fst snd]. split; [apply ordersView_ordersSlot; reflexivity|].
    exists w. repeat split.
  - cbn [fst snd]. split; [exact Hv|].
    unfold ledgerWithdrawals, ledgerTotal. rewrite !Hd. repeat split.
Qed.



End ResolveEffect.

(** ** What no income call does *)




Section Monotone.
Local Open Scope Q_scope.


End Monotone.



(** X18: the route PUT /income/withdraw/:withdrawalId, for a body whose
    notes, if any, are a string, answers 400 "Invalid withdrawal ID" (or
    "Missing withdrawal ID") without touching the store when the identifier
    is blank, 400 ValidationError without touching the store unless the body
    status is completed or rejected, and 404 NotFoundError "Withdrawal
    request not found" with the income document unchanged when no withdrawal
    has the identifier; in the one remaining case it answers 200 with a
    withdrawal that has the identifier, the asked status and processedAt =
    now.  So through the route no withdrawal is ever set to pending or to any
    other status. *)
Theorem resolve_route (withdrawalId : string) (status notes : option string)
    (now : Z) (s : store) :
  match Routes.putWithdrawal withdrawalId status notes now s with
  | (Success c w, s') =>
      c = 200
      /\ JSString.isBlank withdrawalId = false
      /\ Withdrawal.withdrawalId w = withdrawalId
      /\ Some (Withdrawal.status w) = status
      /\ (Withdrawal.status w = "completed" \/ Withdrawal.status w = "rejected")
      /\ Withdrawal.processedAt w = Some now
      /\ In w (ledgerWithdrawals s')
  | (Failure c e m, s') =>
      (c = 400 /\ e = "Missing withdrawal ID"
       /\ m = "Withdrawal ID is required" /\ withdrawalId = "" /\ s' = s)
      \/ (c = 400 /\ e = "Invalid withdrawal ID"
          /\ m = "Withdrawal ID must be a non-empty string"
          /\ withdrawalId <> "" /\ JSString.isBlank withdrawalId = true
          /\ s' = s)
      \/ (c = 400 /\ e = "ValidationError"
          /\ m = "Status must be one of: completed, rejected"
          /\ JSString.isBlank withdrawalId = false /\ s' = s)
      \/ (c = 404 /\ e = "NotFoundError"
          /\ m = "Withdrawal request not found"
          /\ JSString.isBlank withdrawalId = false
          /\ incomeDoc now s' = incomeDoc now s
          /\ List.Forall (fun w => Withdrawal.withdrawalId w <> withdrawalId)
               (ledgerWithdrawals s))
  end.
Proof.
  unfold Routes.putWithdrawal, IncomeValidators.validateWithdrawalId.
  destruct (String.eqb_spec withdrawalId "") as [->|Hne];
    [left; repeat split|].
  destruct (JSString.isBlank withdrawalId) eqn:Hb;
    [right; left; repeat split; assumption|].
  unfold IncomeController.updateWithdrawalStatus.
  destruct status as [st|]; [|right; right; left; repeat split].
  destruct (existsb (String.eqb st) ["completed"; "rejected"]) eqn:Ev;
    cbn [negb]; [|right; right; left; repeat split].
  set (n := match notes with Some n => n | None => "" end).
  destruct (resolve_effect withdrawalId st n now s) as [_ H]. cbv zeta in H.
  destruct (IncomeService.updateWithdrawalStatus withdrawalId st n now s)
    as [[w|] s'] eqn:E; cbn [fst snd] in H.
  - destruct (JSArray.findIndex (hasId withdrawalId) (ledgerWithdrawals s))
      as [i|] eqn:Hi; [|destruct H as [H _]; discriminate H].
    destruct H as (w0 & Hw0 & Hr & Hws & _). injection Hr as ->.
    destruct (findIndex_lookup _ _ _ Hi) as (w1 & Hw1 & Hp).
    rewrite Hw0 in Hw1. injection Hw1 as <-.
    split; [reflexivity|]. split; [reflexivity|].
    split; [now apply String.eqb_eq|].
    split; [reflexivity|]. split.
    { cbn [resolved Withdrawal.status]. cbn [existsb] in Ev.
      destruct (String.eqb_spec st "completed") as [->|_]; [now left|].
      destruct (String.eqb_spec st "rejected") as [->|_]; [now right|].
      discriminate Ev. }
    split; [reflexivity|].
    rewrite Hws. apply list_elem_of_In.
    eapply list_elem_of_lookup_2. apply list_lookup_insert_eq.
    now apply lookup_lt_Some in Hw0.
  - right. right. right.
    destruct (JSArray.findIndex (hasId withdrawalId) (ledgerWithdrawals s))
      as [i|] eqn:Hi; [destruct H as (w0 & _ & Hr & _); discriminate Hr|].
    destruct H as (_ & Hd & _). repeat split; [exact Hd|].
    apply List.Forall_forall. intros w Hin. apply String.eqb_neq.
    generalize dependent w. apply List.Forall_forall.
    clear -Hi. induction (ledgerWithdrawals s) as [|x l IH];
      [constructor|].
    cbn in Hi. destruct (hasId withdrawalId x) eqn:Ex; [discriminate|].
    destruct (JSArray.findIndex (hasId withdrawalId) l); [discriminate|].
    constructor; [exact Ex | now apply IH].
Qed.

(** ** A withdrawal created through the route *)

Section RouteGuarantee.
Local Open Scope Q_scope.

Lemma validDecimals_whole (q : Q) :
  Num.isValidDecimalPlaces2 q = true -> Num.whole_cents q.
Proof.
  unfold Num.isValidDecimalPlaces2, Num.whole_cents. intros H.
  apply Qeq_bool_iff in H. exists (Qfloor (q * 100)).
  assert (E : (Qfloor (q * 100) # 100) * 100 == q * 100)
    by (rewrite hundredths; exact H).
  lra.
Qed.

Lemma whole_cents_comp (x y : Q) : x == y -> Num.whole_cents x -> Num.whole_cents y.
Proof. intros E [k Hk]. exists k. now rewrite <- E. Qed.

Lemma toFixed2_twice (q : Q) :
  Num.whole_cents q -> Num.toFixed2 (Num.toFixed2 q) == q.
Proof.
  intros H. pose proof (toFixed2_whole q H) as E.
  rewrite (toFixed2_comp _ _ E). exact E.
Qed.

End RouteGuarantee.

(** X19: every withdrawal created through POST /income/withdraw is for a
    numeric amount of at least 10 and at most 10000 with at most two
    decimals, not above the available balance of that moment; it is stored
    with exactly the requested amount, as the last withdrawal of the
    document, pending and not yet processed. *)
Theorem created_withdrawal_within_bounds (amount : bodyAmount)
    (accountInfo : bodyAccount) (now : Z) (s s' : store) (w : Withdrawal.t) :
  Boundary.postWithdraw amount accountInfo now s = (Created w, s') ->
  exists q,
    amount = AmountNumber q
    /\ (Withdrawal.amount w == q)%Q
    /\ (10 <= q)%Q /\ (q <= 10000)%Q
    /\ Num.whole_cents q
    /\ (q <= Snapshot.availableBalance
               (IncomeService.getRealTimeIncome now s).1)%Q
    /\ Withdrawal.status w = "pending"
    /\ Withdrawal.processedAt w = None
    /\ ledgerWithdrawals s' = (ledgerWithdrawals s ++ [w])%list
    /\ ledgerTotal s' = ledgerTotal s.
Proof.
  unfold Boundary.postWithdraw, Boundary.validateWithdrawalRequest.
  destruct amount as [| |q]; try discriminate.
  destruct (Qle_bool q 0) eqn:E0; [discriminate|].
  destruct (Num.isValidDecimalPlaces2 q) eqn:Ed; cbn [negb]; [|discriminate].
  destruct (Qle_bool Boundary.minWithdrawal q) eqn:Emin; cbn [negb];
    [|discriminate].
  destruct (Qle_bool q Boundary.maxWithdrawal) eqn:Emax; cbn [negb];
    [|discriminate].
  apply Qle_bool_iff in Emin, Emax.
  unfold Boundary.minWithdrawal, Boundary.maxWithdrawal in *.
  pose proof (validDecimals_whole q Ed) as Hwhole.
  pose proof (toFixed2_whole q Hwhole) as Hfix.
  set (account := match accountInfo with AccountString a => a | _ => "" end).
  assert (Hcore :
            (let '(r, st) :=
               IncomeService.submitWithdrawal (Num.toFixed2 q) account now s in
             match r with
             | inl e => (Rejected 400 "ValidationError"
                           (Boundary.errorMessage e), st)
             | inr w0 => (Created w0, st)
             end) = (Created w, s') ->
            exists q0, AmountNumber q = AmountNumber q0
              /\ (Withdrawal.amount w == q0)%Q
              /\ (10 <= q0)%Q /\ (q0 <= 10000)%Q
              /\ Num.whole_cents q0
              /\ (q0 <= Snapshot.availableBalance
                          (IncomeService.getRealTimeIncome now s).1)%Q
              /\ Withdrawal.status w = "pending"
              /\ Withdrawal.processedAt w = None
              /\ ledgerWithdrawals s' = (ledgerWithdrawals s ++ [w])%list
              /\ ledgerTotal s' = ledgerTotal s).
  { destruct (submit_effect (Num.toFixed2 q) account now s)
      as (_ & Ht & [[[e He] _]|H]); cbv zeta in *.
    - destruct (IncomeService.submitWithdrawal (Num.toFixed2 q) account now s)
        as [r st]. cbn [fst] in He. subst r. discriminate.
    - destruct H as (_ & Hle & Hr & Hws).
      destruct (IncomeService.submitWithdrawal (Num.toFixed2 q) account now s)
        as [r st]. cbn [fst snd] in *. subst r.
      intros E. injection E as <- <-.
      exists q. rewrite balance_eq.
      cbn [newWithdrawal Withdrawal.amount Withdrawal.status
             Withdrawal.processedAt].
      split; [reflexivity|]. split; [now apply toFixed2_twice|].
      repeat split; try assumption. now rewrite <- Hfix. }
  destruct accountInfo as [| |a]; try discriminate; exact Hcore.
Qed.

Lemma created_withdrawal_within_bounds_witness :
  let s := storeOf [Order.mk "O1" "delivered" (Some 100%Q) 0 (Some 0)] [] 0%Q in
  let w := newWithdrawal (2550 # 100)%Q "acct" 1000 in
  exists q, AmountNumber (2550 # 100)%Q = AmountNumber q /\ (10 <= q)%Q.
Proof.
  intros s w.
  destruct (created_withdrawal_within_bounds (AmountNumber (2550 # 100)%Q)
              (AccountString "acct") 1000 s
              (Boundary.postWithdraw (AmountNumber (2550 # 100)%Q)
                 (AccountString "acct") 1000 s).2 w)
    as (q & Hq & _ & Hmin & _).
  - vm_compute. reflexivity.
  - exists q. split; assumption.
Defined.

(** ** Weekly income trend: what is counted *)

(** The order's effective date lies in the 28 days up to [now]. *)
Definition inLast28Days (now : Z) (o : Order.t) : bool :=
  (0 <=? now - Order.effectiveDate o)
  && (now - Order.effectiveDate o <? 28 * Time.ms_per_day).

Section WeeklyCounts.

Lemma weekIndex_window (now d : Z) :
  0 <= IncomeService.getWeekIndex now d <= 3
  <-> 0 <= now - d < 28 * Time.ms_per_day.
Proof.
  unfold IncomeService.getWeekIndex, Time.ms_per_day.
  change (1000 * 60 * 60 * 24) with 86400000.
  set (x := now - d).
  pose proof (Z.div_mod x 86400000 ltac:(lia)) as H1.
  pose proof (Z.mod_pos_bound x 86400000 ltac:(lia)) as H2.
  pose proof (Z.div_mod (x / 86400000) 7 ltac:(lia)) as H3.
  pose proof (Z.mod_pos_bound (x / 86400000) 7 ltac:(lia)) as H4.
  lia.
Qed.

Lemma count_weeks (now : Z) (l : list Order.t) :
  (count (inWeek now 0) l + count (inWeek now 1) l + count (inWeek now 2) l
   + count (inWeek now 3) l)%nat
  = count (inLast28Days now) l.
Proof.
  unfold count. induction l as [|o l IH]; cbn [List.filter length];
    [reflexivity|].
  pose proof (weekIndex_window now (Order.effectiveDate o)) as Hw.
  destruct (inWeek now 0 o) eqn:E0, (inWeek now 1 o) eqn:E1,
    (inWeek now 2 o) eqn:E2, (inWeek now 3 o) eqn:E3,
    (inLast28Days now o) eqn:E28;
    unfold inWeek, inLast28Days in E0, E1, E2, E3, E28;
    repeat match goal with
           | H : (_ =? _) = true |- _ => apply Z.eqb_eq in H
           | H : (_ =? _) = false |- _ => apply Z.eqb_neq in H
           | H : (_ && _) = true |- _ => apply andb_true_iff in H as [? ?]
           | H : (_ && _) = false |- _ => apply andb_false_iff in H as [H|H]
           | H : (_ <=? _) = true |- _ => apply Z.leb_le in H
           | H : (_ <=? _) = false |- _ => apply Z.leb_gt in H
           | H : (_ <? _) = true |- _ => apply Z.ltb_lt in H
           | H : (_ <? _) = false |- _ => apply Z.ltb_ge in H
           end;
    cbn [length]; lia.
Qed.

End WeeklyCounts.

(** X21: the weekly trend always has four earnings and four order counts,
    and the counts add up to the number of delivered orders whose effective
    date lies in the 28 days up to now: each such order is counted once, and
    an order dated later than now or 28 days or more back is counted
    nowhere. *)
Theorem weekly_counts_conserved (now : Z) (s : store) :
  let t := (IncomeService.getIncomeTrendWeekly now s).1 in
  let delivered := List.filter Order.isDelivered (ordersView s) in
  length (Trend.earnings t) = 4%nat
  /\ length (Trend.orderCounts t) = 4%nat
  /\ sum_list (Trend.orderCounts t) = count (inLast28Days now) delivered.
Proof.
  cbv zeta.
  destruct (weekly_buckets now s 0%nat ltac:(lia)) as (_ & L1 & L2 & _ & H0).
  destruct (weekly_buckets now s 1%nat ltac:(lia)) as (_ & _ & _ & _ & H1).
  destruct (weekly_buckets now s 2%nat ltac:(lia)) as (_ & _ & _ & _ & H2).
  destruct (weekly_buckets now s 3%nat ltac:(lia)) as (_ & _ & _ & _ & H3).
  cbv zeta in *.
  split; [exact L1|]. split; [exact L2|].
  rewrite <- count_weeks.
  destruct (Trend.orderCounts (IncomeService.getIncomeTrendWeekly now s).1)
    as [|c0 [|c1 [|c2 [|c3 [|c4 r]]]]]; try discriminate L2.
  cbn in H0, H1, H2, H3.
  injection H0 as ->. injection H1 as ->. injection H2 as ->.
  injection H3 as ->. cbn [sum_list sum_list_with]. unfold id. lia.
Qed.

(** ** The CSV field of the KPI log *)

(** Reading a quoted field back, from the character after the opening quote:
    two quotes stand for one, a single quote closes the field. *)
Fixpoint unquote (field : string) : string :=
  match field with
  | EmptyString => EmptyString
  | String x r =>
      if Ascii.eqb x KPIService.quote then
        match r with
        | String y r' =>
            if Ascii.eqb y KPIService.quote
            then String KPIService.quote (unquote r')
            else EmptyString
        | EmptyString => EmptyString
        end
      else String x (unquote r)
  end.

(** Reading a CSV field back: a field that opens with a quote is a quoted
    one, any other field is taken as it stands. *)
Definition unescapeCSV (field : string) : string :=
  match field with
  | EmptyString => EmptyString
  | String x r => if Ascii.eqb x KPIService.quote then unquote r else field
  end.

Section CsvFacts.

Lemma unquote_doubleQuotes (v : string) :
  unquote (KPIService.doubleQuotes v ++ String KPIService.quote EmptyString) = v.
Proof.
  induction v as [|x v IH]; [reflexivity|].
  cbn [KPIService.doubleQuotes].
  destruct (Ascii.eqb x KPIService.quote) eqn:E.
  - apply Ascii.eqb_eq in E. subst x.
    cbn [String.append unquote]. rewrite Ascii.eqb_refl. now rewrite IH.
  - cbn [String.append unquote]. rewrite E. now rewrite IH.
Qed.

End CsvFacts.

(** X22: escapeCSV loses nothing: a value without comma, newline and quote
    is written as it is, any other value between quotes with its quotes
    doubled, and reading the field back gives the value again; so two
    different values never give the same field. *)
Theorem escapeCSV_roundtrip (value other : string) :
  unescapeCSV (KPIService.escapeCSV value) = value
  /\ (KPIService.includes KPIService.comma value
      || KPIService.includes KPIService.newline value
      || KPIService.includes KPIService.quote value = false ->
      KPIService.escapeCSV value = value)
  /\ (KPIService.escapeCSV value = KPIService.escapeCSV other ->
      value = other).
Proof.
  assert (Hrt : forall v, unescapeCSV (KPIService.escapeCSV v) = v).
  { intros v. unfold KPIService.escapeCSV.
    destruct (KPIService.includes KPIService.comma v
              || KPIService.includes KPIService.newline v
              || KPIService.includes KPIService.quote v) eqn:E.
    - cbn [unescapeCSV]. rewrite Ascii.eqb_refl. apply unquote_doubleQuotes.
    - apply orb_false_iff in E as [_ E].
      destruct v as [|x v]; [reflexivity|].
      cbn [unescapeCSV]. cbn [KPIService.includes] in E.
      apply orb_false_iff in E as [E _]. now rewrite E. }
  split; [apply Hrt|]. split.
  - intros H. unfold KPIService.escapeCSV. now rewrite H.
  - intros H. rewrite <- (Hrt value), <- (Hrt other). now rewrite H.
Qed.

Lemma escapeCSV_roundtrip_witness :
  KPIService.escapeCSV "status=all" = "status=all"
  /\ unescapeCSV (KPIService.escapeCSV "status=all, count=3")
     = "status=all, count=3".
Proof.
  split.
  - apply (escapeCSV_roundtrip "status=all" "status=all"). reflexivity.
  - apply (escapeCSV_roundtrip "status=all, count=3" "").
Defined.

(** ** Error responses *)

(** X23: every response of the error handler has a status code other than
    0 and a message that is not empty; its type is ServerError exactly for
    the codes outside 400, 401, 403, 404, 409 and 422.  An error made by
    validationError with a message is answered 400 ValidationError with that
    message, one made by notFoundError 404 NotFoundError with the resource
    name followed by " not found", and an error carrying no status code, or
    the code 0, is answered 500. *)
Theorem errorHandler_reply {A} (err : ErrorMiddleware.error)
    (message resource : string) :
  (exists c e m,
      @ErrorMiddleware.errorHandler A err = Failure c e m
      /\ c <> 0 /\ m <> ""
      /\ (e = "ServerError" <-> ~ In c [400; 401; 403; 404; 409; 422]))
  /\ (message <> "" ->
      @ErrorMiddleware.errorHandler A (ErrorMiddleware.validationError message)
      = Failure 400 "ValidationError" message)
  /\ @ErrorMiddleware.errorHandler A (ErrorMiddleware.notFoundError resource)
     = Failure 404 "NotFoundError" (resource ++ " not found")
  /\ (ErrorMiddleware.truthy (ErrorMiddleware.statusCode err) = None ->
      ErrorMiddleware.truthy (ErrorMiddleware.status err) = None ->
      exists m, @ErrorMiddleware.errorHandler A err
                = Failure 500 "ServerError" m).
Proof.
  split; [|split; [|split]].
  - unfold ErrorMiddleware.errorHandler.
    set (c := match ErrorMiddleware.truthy (ErrorMiddleware.statusCode err) with
              | Some c => c
              | None =>
                  match ErrorMiddleware.truthy (ErrorMiddleware.status err) with
                  | Some c => c
                  | None => 500
                  end
              end).
    assert (Hc : c <> 0).
    { subst c. unfold ErrorMiddleware.truthy.
      destruct (ErrorMiddleware.statusCode err) as [a|];
        [destruct (Z.eqb_spec a 0); [|assumption]|];
        (destruct (ErrorMiddleware.status err) as [b|];
         [destruct (Z.eqb_spec b 0); [lia | assumption] | lia]). }
    do 3 eexists. split; [reflexivity|]. split; [exact Hc|]. split.
    + destruct (String.eqb_spec (ErrorMiddleware.message err) "") as [E|E];
        [discriminate | exact E].
    + unfold ErrorMiddleware.errorType. cbn [In].
      destruct (Z.eqb_spec c 400), (Z.eqb_spec c 401), (Z.eqb_spec c 403),
        (Z.eqb_spec c 404), (Z.eqb_spec c 409), (Z.eqb_spec c 422);
        split; intros H; try discriminate H; try reflexivity; try lia;
        exfalso; apply H; tauto.
  - intros Hm. unfold ErrorMiddleware.errorHandler. cbn.
    destruct (String.eqb_spec message "") as [E|_]; [contradiction|reflexivity].
  - unfold ErrorMiddleware.errorHandler. cbn.
    destruct resource; reflexivity.
  - intros H1 H2. unfold ErrorMiddleware.errorHandler. rewrite H1, H2.
    eexists. reflexivity.
Qed.

Lemma errorHandler_reply_witness :
  @ErrorMiddleware.errorHandler unit (ErrorMiddleware.validationError "bad")
  = Failure 400 "ValidationError" "bad"
  /\ exists m, @ErrorMiddleware.errorHandler unit
                 (ErrorMiddleware.createError "boom" 0)
               = Failure 500 "ServerError" m.
Proof.
  split.
  - apply (@errorHandler_reply unit (ErrorMiddleware.createError "boom" 0)
             "bad" "Order"). discriminate.
  - apply (@errorHandler_reply unit (ErrorMiddleware.createError "boom" 0)
             "bad" "Order"); reflexivity.
Defined.

(** ** Query validators *)

(** X24: whenever validatePagination lets a request through, the page it
    hands on is at least 1 and the limit between 1 and 100; a missing or
    empty parameter has become page 1 or limit 10, and a parameter that was
    given is handed on as parsed. *)
Theorem pagination_accepted {A} (page limit : option OrdersValidators.parsedInt)
    (pg lm : Z) :
  @OrdersValidators.validatePagination A page limit = inr (pg, lm) ->
  1 <= pg /\ 1 <= lm <= 100
  /\ Some pg = match page with Some v => v | None => Some 1 end
  /\ Some lm = match limit with Some v => v | None => Some 10 end.
Proof.
  unfold OrdersValidators.validatePagination. intros H.
  destruct page as [[p|]|], limit as [[l|]|]; cbv zeta in H;
    repeat match type of H with
           | context [Z.ltb ?a ?b] => destruct (Z.ltb_spec a b)
           end;
    cbn [orb] in H; try discriminate H;
    injection H as <- <-; repeat split; try reflexivity; lia.
Qed.

Lemma pagination_accepted_witness :
  1 <= 3 /\ 1 <= 10 <= 100.
Proof.
  destruct (@pagination_accepted unit (Some (Some 3)) None 3 10) as (H1 & H2 & _).
  - reflexivity.
  - split; assumption.
Defined.

(** X25: the route GET /orders answers 400 "Invalid status parameter",
    without reading the store, for any status other than ongoing, completed
    and all; otherwise it answers 200 with a listing in array order whose
    count is the number of orders listed, and a missing or empty status lists
    every order. *)
Theorem getOrders_route (status : option string) (s : store) :
  match OrdersController.getOrders status s with
  | (Success c (st, n, orders), s') =>
      c = 200 /\ n = length orders
      /\ sublist orders (ordersView s)
      /\ In st ["ongoing"; "completed"; "all"]
      /\ st = match status with Some x => x | None => "all" end
      /\ orders = (OrdersService.getOrdersByStatus st s).1
  | (Failure c e m, s') =>
      c = 400 /\ e = "Invalid status parameter" /\ s' = s
      /\ exists st, status = Some st
                    /\ ~ In st ["ongoing"; "completed"; "all"]
  end.
Proof.
  unfold OrdersController.getOrders, OrdersValidators.validateOrderStatus.
  assert (Hsub : forall st, sublist (OrdersService.getOrdersByStatus st s).1
                              (ordersView s)).
  { intros st. rewrite getOrdersByStatus_eq.
    destruct (String.eqb st "all"); [reflexivity | apply filter_sublist]. }
  destruct status as [st|].
  - destruct (existsb (String.eqb st) ["ongoing"; "completed"; "all"]) eqn:E.
    + pose proof (Hsub st) as Hs.
      destruct (OrdersService.getOrdersByStatus st s) as [orders s'] eqn:Eo.
      cbn [fst] in Hs.
      split; [reflexivity|]. split; [reflexivity|]. split; [exact Hs|].
      split; [|split; [reflexivity | now rewrite Eo]].
      apply List.existsb_exists in E as (x & Hin & Hx).
      apply String.eqb_eq in Hx. now subst x.
    + repeat split. exists st. split; [reflexivity|].
      intros Hin.
      assert (existsb (String.eqb st) ["ongoing"; "completed"; "all"] = true)
        by (apply List.existsb_exists; exists st; split;
            [exact Hin | apply String.eqb_refl]).
      congruence.
  - pose proof (Hsub "all") as Hs.
    destruct (OrdersService.getOrdersByStatus "all" s) as [orders s'] eqn:Eo.
    cbn [fst] in Hs.
    split; [reflexivity|]. split; [reflexivity|]. split; [exact Hs|].
    split; [|split; [reflexivity | now rewrite Eo]]. cbn. tauto.
Qed.

(** ** The ledger invariant on concrete ledgers *)

Lemma submitWithdrawal_keeps_ledger_witness :
  let s := storeOf [Order.mk "O1" "delivered" (Some 100%Q) 0 (Some 0)]
             [completedWithdrawal] 50%Q in
  ledgerConsistent
    (incomeDoc 1000 (IncomeService.submitWithdrawal 10%Q "acct" 1000 s).2).
Proof.
  intros s.
  apply (submitWithdrawal_keeps_ledger 10%Q "acct" 1000 s).
  vm_compute. reflexivity.
Defined.

Lemma getWithdrawalRecords_keeps_ledger_witness :
  ledgerConsistent
    (incomeDoc 2000
       (IncomeService.getWithdrawalRecords "all" 2000 completedLedger).2).
Proof.
  apply (getWithdrawalRecords_keeps_ledger "all" 2000 completedLedger).
  vm_compute. reflexivity.
Defined.
